(** * fastapi-datatables: the request-to-query compiler

    A shallow embedding of [datatables/core.py] (the [DataTables] pipeline),
    [datatables/schema.py], [datatables/database.py] and
    [src/datatables/utils.py] / [src/datatables/enum.py] (the helper
    functions [build_condition], [resolve_column], [apply_joins],
    [global_filter], [column_filter] and [order_column]).

    SQLAlchemy statements are modelled as the syntax the code builds
    (joins, WHERE clauses, ORDER BY terms, offset and limit); running them
    is the job of the database backend, which is an interface here as it is
    in the source. *)

From Stdlib Require Import ZArith Ascii String List Lia Bool.
From stdpp Require Import base option list gmap strings fin_maps.

Set Warnings "-register-all".

Local Open Scope Z_scope.
Local Open Scope string_scope.

(** ** Python strings

    A string is a sequence of code points below 256. *)

Module PyStr.

(** [str.split(sep)] for a one-character separator: never returns an empty
    list, and [split_on c ""] is [[""]]. *)
Fixpoint split_on (c : ascii) (s : string) : list string :=
  match s with
  | EmptyString => [EmptyString]
  | String a rest =>
      if Ascii.eqb a c then EmptyString :: split_on c rest
      else match split_on c rest with
           | [] => [String a EmptyString]
           | h :: t => String a h :: t
           end
  end.

(** [sep.join(parts)]. *)
Fixpoint join (sep : string) (parts : list string) : string :=
  match parts with
  | [] => EmptyString
  | [x] => x
  | x :: rest => x +:+ sep +:+ join sep rest
  end.

(** White space as [str.isspace] sees it, for code points below 256: what
    [str.strip] trims. *)
Definition is_space (c : ascii) : bool :=
  let n := nat_of_ascii c in
  ((9 <=? n) && (n <=? 13) || (28 <=? n) && (n <=? 32)
   || (n =? 133) || (n =? 160))%nat.

Fixpoint lstrip (s : string) : string :=
  match s with
  | EmptyString => EmptyString
  | String c rest => if is_space c then lstrip rest else s
  end.

Fixpoint rstrip (s : string) : string :=
  match s with
  | EmptyString => EmptyString
  | String c rest =>
      match rstrip rest with
      | EmptyString => if is_space c then EmptyString else String c EmptyString
      | r => String c r
      end
  end.

(** [s.strip()] *)
Definition strip (s : string) : string := rstrip (lstrip s).

(** Truthiness of a string: [if s:] holds for the non-empty ones. *)
Definition nonempty (s : string) : bool :=
  match s with EmptyString => false | _ => true end.

Definition is_digit (c : ascii) : bool :=
  let n := nat_of_ascii c in ((48 <=? n) && (n <=? 57))%nat.

Definition digit_value (c : ascii) : Z := Z.of_nat (nat_of_ascii c) - 48.

(** The digits of a decimal literal: at least one digit, single underscores
    only between digits. *)
Fixpoint parse_digits (s : string) (acc : Z) (after_digit : bool) : option Z :=
  match s with
  | EmptyString => if after_digit then Some acc else None
  | String c rest =>
      if is_digit c then parse_digits rest (10 * acc + digit_value c) true
      else if Ascii.eqb c "_"%char then
        if after_digit then parse_digits rest acc false else None
      else None
  end.

(** The white space [int] skips around a literal.  It is narrower than what
    [str.strip] trims: the separators [chr(28)] to [chr(31)] are stripped by
    [strip] but make [int] raise. *)
Definition is_int_space (c : ascii) : bool :=
  let n := nat_of_ascii c in
  ((9 <=? n) && (n <=? 13) || (n =? 32) || (n =? 133) || (n =? 160))%nat.

Fixpoint int_lstrip (s : string) : string :=
  match s with
  | EmptyString => EmptyString
  | String c rest => if is_int_space c then int_lstrip rest else s
  end.

Fixpoint int_rstrip (s : string) : string :=
  match s with
  | EmptyString => EmptyString
  | String c rest =>
      match int_rstrip rest with
      | EmptyString =>
          if is_int_space c then EmptyString else String c EmptyString
      | r => String c r
      end
  end.

(** The interpreter's limit on the length of a decimal literal
    ([sys.get_int_max_str_digits()], 4300 unless reconfigured): [int] raises
    [ValueError] on a literal with more digits. *)
Definition int_max_str_digits : nat := 4300.

(** The digits that count towards the limit: leading zeros do, the sign,
    the underscores and the surrounding white space do not. *)
Fixpoint digit_count (s : string) : nat :=
  match s with
  | EmptyString => 0
  | String c rest => ((if is_digit c then 1 else 0) + digit_count rest)%nat
  end.

(** [int(s)]: [Some n] when the call returns [n], [None] when it raises
    [ValueError]. Surrounding white space and one sign are accepted. *)
Definition int (s : string) : option Z :=
  let body := int_rstrip (int_lstrip s) in
  if (int_max_str_digits <? digit_count body)%nat then None
  else match body with
       | String "+" rest => parse_digits rest 0 false
       | String "-" rest => Z.opp <$> parse_digits rest 0 false
       | _ => parse_digits body 0 false
       end.

End PyStr.

(** ** The mapped schema

    What [getattr] finds on a mapped class: a relationship to another mapped
    class, a column with its SQL type, or some other attribute (a
    [hybrid_property], a plain class attribute) that has neither a
    [.property.mapper] nor a [.type] nor the methods [.asc] and [.desc].

    A class attribute whose value is [None] (such as [__doc__] on a class
    without a docstring) is among the other attributes: the code treats the
    two alike.  As a relation, both raise [AttributeError] on [.property];
    as the last part of a searched or filtered path, both give no
    condition ([None] by the test [is not None], another attribute by the
    [AttributeError] on [.type]); as the last part of an order key, both
    raise [AttributeError] on [.asc()] or [.desc()].  So an [Attr] whose
    member is [OtherAttribute] stands for whatever [getattr] returned,
    [None] included, and is not a value to state anything else about. *)

Inductive ColumnType :=
| TString | TText | TInteger | TBigInteger
| TDateTime | TDate | TTimestamp
| TBoolean | TFloat | TLargeBinary.

Definition Entity := string.

Inductive Member :=
| Relationship (target : Entity)
| Column (ty : ColumnType)
| OtherAttribute.

(** The attributes each mapped class declares. *)
Definition Schema := Entity -> string -> option Member.

(** A mapped class, or one of the aliases [aliased(cls)] made of it.  Every
    call of [aliased] returns a new object; the number tells them apart. *)
Inductive ModelRef :=
| Mapped (cls : Entity)
| Aliased (id : nat) (cls : Entity).

Definition class_of (m : ModelRef) : Entity :=
  match m with Mapped c => c | Aliased _ c => c end.

(** The object [getattr(model, name)] returns. *)
Record Attr := mkAttr {
  attr_owner : ModelRef;
  attr_name : string;
  attr_member : Member
}.

(** [column_attr.type]; [None] stands for the [AttributeError]. *)
Definition attr_type (a : Attr) : option ColumnType :=
  match attr_member a with
  | Column ty => Some ty
  | _ => None
  end.

(** [isinstance(column_type, (String, Text))] *)
Definition is_string_type (t : ColumnType) : bool :=
  match t with TString | TText => true | _ => false end.

(** [isinstance(column_type, Integer)] *)
Definition is_integer_type (t : ColumnType) : bool :=
  match t with TInteger | TBigInteger => true | _ => false end.

(** [isinstance(column_type, (DateTime, Date, TIMESTAMP))] *)
Definition is_temporal_type (t : ColumnType) : bool :=
  match t with TDateTime | TDate | TTimestamp => true | _ => false end.

(** ** SQL expressions and predicates *)

Local Open Scope list_scope.

Inductive SqlExpr :=
| ColumnRef (a : Attr)
| Cast (e : SqlExpr) (ty : ColumnType).

Inductive Literal :=
| LStr (s : string)
| LInt (n : Z).

Inductive Pred :=
| Ilike (e : SqlExpr) (pattern : string)
| Eq (e : SqlExpr) (v : Literal)
| Ne (e : SqlExpr) (v : Literal)
| Not_ (p : Pred)
| Or_ (ps : list Pred)
| And_ (ps : list Pred).

(** [src/datatables/enum.py] *)
Inductive MatchMode :=
| CONTAINS | EQUALS | STARTS_WITH | ENDS_WITH | NOT_CONTAINS | NOT_EQUALS.

(** [build_condition] of [src/datatables/utils.py]; [None] is Python's
    [None]. *)
Definition build_condition (column_attr : Attr) (match_mode : MatchMode)
    (value : string) : option Pred :=
  match attr_type column_attr with
  | None => None
  | Some column_type =>
      if is_string_type column_type then
        match match_mode with
        | CONTAINS => Some (Ilike (ColumnRef column_attr) ("%" +:+ value +:+ "%"))
        | EQUALS => Some (Eq (ColumnRef column_attr) (LStr value))
        | STARTS_WITH => Some (Ilike (ColumnRef column_attr) (value +:+ "%"))
        | ENDS_WITH => Some (Ilike (ColumnRef column_attr) ("%" +:+ value))
        | NOT_CONTAINS =>
            Some (Not_ (Ilike (ColumnRef column_attr) ("%" +:+ value +:+ "%")))
        | NOT_EQUALS => Some (Ne (ColumnRef column_attr) (LStr value))
        end
      else if is_integer_type column_type then
        match PyStr.int value with
        | Some int_value =>
            match match_mode with
            | EQUALS => Some (Eq (ColumnRef column_attr) (LInt int_value))
            | NOT_EQUALS => Some (Ne (ColumnRef column_attr) (LInt int_value))
            | _ => None
            end
        | None => None
        end
      else if is_temporal_type column_type then
        let db_date_only := Cast (ColumnRef column_attr) TDate in
        let col_as_str := Cast db_date_only TString in
        let clean_value := hd EmptyString (PyStr.split_on "T" value) in
        match match_mode with
        | CONTAINS => Some (Ilike col_as_str ("%" +:+ clean_value +:+ "%"))
        | EQUALS => Some (Eq col_as_str (LStr clean_value))
        | STARTS_WITH => Some (Ilike col_as_str (clean_value +:+ "%"))
        | ENDS_WITH => Some (Ilike col_as_str ("%" +:+ clean_value))
        | NOT_CONTAINS =>
            Some (Not_ (Ilike col_as_str ("%" +:+ clean_value +:+ "%")))
        | NOT_EQUALS => Some (Ne col_as_str (LStr clean_value))
        end
      else None
  end.

(** ** Statements

    The part of a SQLAlchemy [Select] the compiler touches.  [join], [where]
    and [order_by] add to what is there; [offset] and [limit] replace. *)

Inductive OrderTerm :=
| Asc (a : Attr)
| Desc (a : Attr).

Record Select := mkSelect {
  sel_from : Entity;
  sel_joins : list (ModelRef * Attr);
  sel_where : list Pred;
  sel_order_by : list OrderTerm;
  sel_offset : option Z;
  sel_limit : option Z
}.

(** [select(model)] *)
Definition select (model : Entity) : Select :=
  mkSelect model [] [] [] None None.

(** [stmt.join(aliased_model, relation_attr)] *)
Definition stmt_join (stmt : Select) (aliased_model : ModelRef)
    (relation_attr : Attr) : Select :=
  mkSelect (sel_from stmt) (sel_joins stmt ++ [(aliased_model, relation_attr)])
    (sel_where stmt) (sel_order_by stmt) (sel_offset stmt) (sel_limit stmt).

(** [stmt.where(p)] *)
Definition stmt_where (stmt : Select) (p : Pred) : Select :=
  mkSelect (sel_from stmt) (sel_joins stmt) (sel_where stmt ++ [p])
    (sel_order_by stmt) (sel_offset stmt) (sel_limit stmt).

(** [stmt.order_by(t)] *)
Definition stmt_order_by (stmt : Select) (t : OrderTerm) : Select :=
  mkSelect (sel_from stmt) (sel_joins stmt) (sel_where stmt)
    (sel_order_by stmt ++ [t]) (sel_offset stmt) (sel_limit stmt).

(** [stmt.offset(n)] *)
Definition stmt_offset (stmt : Select) (n : option Z) : Select :=
  mkSelect (sel_from stmt) (sel_joins stmt) (sel_where stmt)
    (sel_order_by stmt) n (sel_limit stmt).

(** [stmt.limit(n)] *)
Definition stmt_limit (stmt : Select) (n : option Z) : Select :=
  mkSelect (sel_from stmt) (sel_joins stmt) (sel_where stmt)
    (sel_order_by stmt) (sel_offset stmt) n.

(** ** Requests ([datatables/schema.py])

    The elements of [columns] and [order] are mappings in [core.py] and
    objects in [utils.py]; both carry the keys of the DataTables wire format,
    with the types that format gives them.  The field [extra] of the
    request is read nowhere and is left out. *)

Record ColumnSearch := mkColumnSearch {
  cs_value : option string;
  cs_matchMode : option MatchMode
}.

Record DataTablesColumn := mkColumn {
  col_name : string;
  col_searchable : bool;
  col_orderable : bool;
  col_search : ColumnSearch
}.

Record OrderSpec := mkOrder {
  ord_column : Z;
  ord_dir : string
}.

Record DataTablesRequest := mkRequest {
  rq_draw : option Z;
  rq_start : option Z;
  rq_length : option Z;
  rq_search : option (gmap string string);
  rq_order : option (list OrderSpec);
  rq_columns : option (list DataTablesColumn)
}.

(** The value a field of the request body takes: pydantic fills in the
    default for a field the body omits and keeps what the body gives,
    [null] included. *)
Definition field_or_default {A : Type} (default : A) (given : option A) : A :=
  match given with
  | Some v => v
  | None => default
  end.

(** Building a [DataTablesRequest] from a request body: each argument is
    [None] for a key the body omits. *)
Definition parse_request (b_draw b_start b_length : option (option Z))
    (b_search : option (option (gmap string string)))
    (b_order : option (option (list OrderSpec)))
    (b_columns : option (option (list DataTablesColumn))) : DataTablesRequest :=
  mkRequest (field_or_default (Some 1) b_draw)
            (field_or_default (Some 0) b_start)
            (field_or_default (Some 10) b_length)
            (field_or_default (Some ∅) b_search)
            (field_or_default (Some []) b_order)
            (field_or_default (Some []) b_columns).

(** The response mapping [process] returns. *)
Definition Row := list (string * Literal).

Record DataTablesResponse := mkResponse {
  r_draw : option Z;
  r_recordsTotal : Z;
  r_recordsFiltered : Z;
  r_data : list Row
}.

(** ** The database backend ([datatables/database.py])

    A backend is given by the answers of its three operations.  The
    abstract [DatabaseBackend] of the source, whose operations raise
    [NotImplementedError], and a session that fails while it runs a
    statement have no counterpart here: what is said below of a run of
    [process] is said of a run in which the backend answers each call. *)

Record DatabaseBackend := mkBackend {
  get_total_records : Select -> Z;
  get_filtered_records : Select -> Z;
  execute_query : Select -> list Row
}.

(** [SQLAlchemyBackend(db_session)]: the session is what running a
    statement returns; both counts select [func.count()] from the
    statement they are given. *)
Definition SQLAlchemyBackend (db_session : Select -> list Row) : DatabaseBackend :=
  mkBackend (fun stmt => Z.of_nat (List.length (db_session stmt)))
            (fun stmt => Z.of_nat (List.length (db_session stmt)))
            db_session.

Inductive BackendCall :=
| GetTotalRecords (stmt : Select)
| GetFilteredRecords (stmt : Select)
| ExecuteQuery (stmt : Select).

(** ** Effects: fresh aliases, backend calls, exceptions *)

Inductive Exception :=
| AttributeError
| KeyError
| IndexError
| TypeError
| UnboundLocalError
| NotImplementedError
| InvalidColumnError (message : string)
| ConfigurationError (message : string).

Inductive result (A : Type) :=
| Ok (a : A)
| Raise (e : Exception).
Arguments Ok {A} a.
Arguments Raise {A} e.

(** [next_alias] numbers the objects [aliased] has made so far;
    [backend_calls] records the calls made on the backend, oldest first. *)
Record World := mkWorld {
  next_alias : nat;
  backend_calls : list BackendCall
}.

Definition M (A : Type) : Type := World -> result A * World.

Definition ret {A : Type} (a : A) : M A := fun w => (Ok a, w).

Definition raise {A : Type} (e : Exception) : M A := fun w => (Raise e, w).

Definition bind {A B : Type} (m : M A) (k : A -> M B) : M B :=
  fun w =>
    match m w with
    | (Ok a, w') => k a w'
    | (Raise e, w') => (Raise e, w')
    end.

#[global] Instance M_ret : MRet M := @ret.
#[global] Instance M_bind : MBind M := fun A B k m => bind m k.

(** [try: body except AttributeError: handler] *)
Definition except_AttributeError {A : Type} (body handler : M A) : M A :=
  fun w =>
    match body w with
    | (Raise AttributeError, w') => handler w'
    | r => r
    end.

(** [aliased(cls)] *)
Definition aliased (cls : Entity) : M ModelRef :=
  fun w => (Ok (Aliased (next_alias w) cls),
            mkWorld (S (next_alias w)) (backend_calls w)).

(** A call on the backend: the call is recorded, and the backend answers
    (see the remark on [DatabaseBackend]). *)
Definition call_backend {A : Type} (c : BackendCall) (answer : A) : M A :=
  fun w => (Ok answer, mkWorld (next_alias w) (backend_calls w ++ [c])).

(** An insertion-ordered [dict] with string keys: [d[k] = v]. *)
Fixpoint dict_set {V : Type} (k : string) (v : V) (d : list (string * V))
    : list (string * V) :=
  match d with
  | [] => [(k, v)]
  | (k', v') :: rest =>
      if String.eqb k' k then (k, v) :: rest else (k', v') :: dict_set k v rest
  end.

(** [xs[i]] on a Python list: negative indices count from the end. *)
Definition py_index {A : Type} (xs : list A) (i : Z) : option A :=
  let n := Z.of_nat (List.length xs) in
  if ((0 <=? i) && (i <? n))%Z then nth_error xs (Z.to_nat i)
  else if ((- n <=? i) && (i <? 0))%Z then nth_error xs (Z.to_nat (n + i))
  else None.

(** ** The resolver and the pipeline *)

Section Compiler.

Context (schema : Schema).

(** [getattr(model, name)]: an alias has the attributes of its class.  The
    attribute found is recorded with the model it was read on; for
    [OtherAttribute] the record stands for any value, [None] included. *)
Definition getattr (model : ModelRef) (name : string) : M Attr :=
  match schema (class_of model) name with
  | Some member => mret (mkAttr model name member)
  | None => raise AttributeError
  end.

(** [relation_attr.property.mapper.class_]: only a relationship has a
    target mapper. *)
Definition related_class (relation_attr : Attr) : M Entity :=
  match attr_member relation_attr with
  | Relationship target => mret target
  | _ => raise AttributeError
  end.

Definition JoinDict := list (string * (Attr * ModelRef)).

(** The loop [for i, part in enumerate(parts)] of [resolve_column]; the
    test [i < len(parts) - 1] holds when parts remain after [part].  The two
    dictionaries are the caller's, so the loop hands them back. *)
Fixpoint resolve_loop (parts : list string) (current_model : ModelRef)
    (current_path : list string) (current_attr : option Attr)
    (joins : JoinDict) (aliased_models : gmap string ModelRef)
    : M (option Attr * JoinDict * gmap string ModelRef) :=
  match parts with
  | [] => mret (current_attr, joins, aliased_models)
  | part :: rest =>
      let current_path := (current_path ++ [part])%list in
      let path_str := PyStr.join "." current_path in
      match rest with
      | _ :: _ =>
          '(joins, aliased_models) ←
            match aliased_models !! path_str with
            | None =>
                relation_attr ← getattr current_model part;
                related_model ← related_class relation_attr;
                aliased_model ← aliased related_model;
                mret (dict_set path_str (relation_attr, aliased_model) joins,
                      <[path_str := aliased_model]> aliased_models)
            | Some _ => mret (joins, aliased_models)
            end;
          match aliased_models !! path_str with
          | Some current_model =>
              resolve_loop rest current_model current_path current_attr
                joins aliased_models
          | None => raise KeyError
          end
      | [] =>
          current_attr ← getattr current_model part;
          resolve_loop rest current_model current_path (Some current_attr)
            joins aliased_models
      end
  end.

(** [resolve_column] of [utils.py] *)
Definition resolve_column (model : ModelRef) (column_path : string)
    (joins : JoinDict) (aliased_models : gmap string ModelRef)
    : M (option Attr * JoinDict * gmap string ModelRef) :=
  resolve_loop (PyStr.split_on "." column_path) model [] None
    joins aliased_models.

(** [apply_joins] of [utils.py] *)
Definition apply_joins (stmt : Select) (joins : JoinDict) : Select :=
  fold_left (fun stmt '(key, (relation_attr, aliased_model)) =>
               stmt_join stmt aliased_model relation_attr) joins stmt.

(** The loop of [global_filter]. *)
Fixpoint global_filter_loop (columns : list DataTablesColumn)
    (model : ModelRef) (search_value : string) (search_conditions : list Pred)
    (joins : JoinDict) (aliased_models : gmap string ModelRef)
    : M (list Pred * JoinDict * gmap string ModelRef) :=
  match columns with
  | [] => mret (search_conditions, joins, aliased_models)
  | col :: rest =>
      if col_searchable col then
        let column_path := col_name col in
        '(search_conditions, joins, aliased_models) ←
          except_AttributeError
            ('(current_attr, joins, aliased_models) ←
               resolve_column model column_path joins aliased_models;
             match current_attr with
             | Some current_attr =>
                 match build_condition current_attr CONTAINS search_value with
                 | Some condition =>
                     mret ((search_conditions ++ [condition])%list, joins, aliased_models)
                 | None => mret (search_conditions, joins, aliased_models)
                 end
             | None => mret (search_conditions, joins, aliased_models)
             end)
            (raise (InvalidColumnError ("Invalid column path: " +:+ column_path)));
        global_filter_loop rest model search_value search_conditions
          joins aliased_models
      else
        global_filter_loop rest model search_value search_conditions
          joins aliased_models
  end.

(** [global_filter] of [utils.py] *)
Definition global_filter (search_value : string) (stmt : Select)
    (columns : list DataTablesColumn) (model : ModelRef) : M Select :=
  if PyStr.nonempty search_value then
    '(search_conditions, joins, _) ←
      global_filter_loop columns model search_value [] [] ∅;
    let stmt := apply_joins stmt joins in
    match search_conditions with
    | [] => mret stmt
    | _ :: _ => mret (stmt_where stmt (Or_ search_conditions))
    end
  else mret stmt.

(** [col.search.value.strip() if col.search.value else ""] *)
Definition filter_value (col : DataTablesColumn) : string :=
  match cs_value (col_search col) with
  | Some v => if PyStr.nonempty v then PyStr.strip v else EmptyString
  | None => EmptyString
  end.

(** The loop of [column_filter]. *)
Fixpoint column_filter_loop (columns : list DataTablesColumn)
    (model : ModelRef) (column_conditions : list Pred)
    (joins : JoinDict) (aliased_models : gmap string ModelRef)
    : M (list Pred * JoinDict * gmap string ModelRef) :=
  match columns with
  | [] => mret (column_conditions, joins, aliased_models)
  | col :: rest =>
      if negb (col_searchable col) then
        column_filter_loop rest model column_conditions joins aliased_models
      else
        let field := col_name col in
        let value := filter_value col in
        if negb (PyStr.nonempty value) then
          column_filter_loop rest model column_conditions joins aliased_models
        else
          '(column_conditions, joins, aliased_models) ←
            except_AttributeError
              ('(current_attr, joins, aliased_models) ←
                 resolve_column model field joins aliased_models;
               match current_attr with
               | Some current_attr =>
                   match build_condition current_attr CONTAINS value with
                   | Some condition =>
                       mret ((column_conditions ++ [condition])%list, joins, aliased_models)
                   | None => mret (column_conditions, joins, aliased_models)
                   end
               | None => mret (column_conditions, joins, aliased_models)
               end)
              (raise (InvalidColumnError ("Invalid column path: " +:+ field)));
          column_filter_loop rest model column_conditions joins aliased_models
  end.

(** [column_filter] of [utils.py] *)
Definition column_filter (stmt : Select) (columns : list DataTablesColumn)
    (model : ModelRef) : M Select :=
  '(column_conditions, joins, _) ← column_filter_loop columns model [] [] ∅;
  let stmt := apply_joins stmt joins in
  match column_conditions with
  | [] => mret stmt
  | _ :: _ => mret (stmt_where stmt (And_ column_conditions))
  end.

(** [order_col.asc()] and [order_col.desc()]: a mapped column gives an
    ORDER BY term, a relationship has no such operator, and any other
    attribute has no such method. *)
Definition attr_order (mk : Attr -> OrderTerm) (order_col : Attr) : M OrderTerm :=
  match attr_member order_col with
  | Column _ => mret (mk order_col)
  | Relationship _ => raise NotImplementedError
  | OtherAttribute => raise AttributeError
  end.

Definition ordering_message : string := "Order direction must be 'asc' or 'desc'".

(** The lines under "Apply ordering", the same in [order_column] and in
    [DataTables.apply_ordering].  [order_col] is the read of the variable,
    which happens in the first two branches only. *)
Definition apply_direction (stmt : Select) (direction : string)
    (order_col : M Attr) : M Select :=
  if String.eqb direction "asc" then
    c ← order_col; t ← attr_order Asc c; mret (stmt_order_by stmt t)
  else if String.eqb direction "desc" then
    c ← order_col; t ← attr_order Desc c; mret (stmt_order_by stmt t)
  else raise (ConfigurationError ordering_message).

(** Reading a variable that holds [None] and calling a method on it. *)
Definition method_receiver (v : option Attr) : M Attr :=
  match v with
  | Some a => mret a
  | None => raise AttributeError
  end.

(** Reading a local variable that may never have been assigned. *)
Definition read_local (v : option Attr) : M Attr :=
  match v with
  | Some a => mret a
  | None => raise UnboundLocalError
  end.

(** [request_data.columns[int(col_index)]] *)
Definition column_at (request_data : DataTablesRequest) (col_index : Z)
    : M DataTablesColumn :=
  match rq_columns request_data with
  | None => raise TypeError
  | Some columns =>
      match py_index columns col_index with
      | Some col => mret col
      | None => raise IndexError
      end
  end.

(** The loop of [order_column]. *)
Fixpoint order_column_loop (orders : list OrderSpec) (model : ModelRef)
    (stmt : Select) (request_data : DataTablesRequest) : M Select :=
  match orders with
  | [] => mret stmt
  | order :: rest =>
      let col_index := ord_column order in
      col ← column_at request_data col_index;
      if negb (col_orderable col) then
        order_column_loop rest model stmt request_data
      else
        let col_name := col_name col in
        if negb (PyStr.nonempty col_name) then
          order_column_loop rest model stmt request_data
        else
          let direction := ord_dir order in
          stmt ← except_AttributeError
            ('(order_col, joins, _) ← resolve_column model col_name [] ∅;
             let stmt := apply_joins stmt joins in
             apply_direction stmt direction (method_receiver order_col))
            (raise (InvalidColumnError
                      ("Invalid column for ordering: " +:+ col_name)));
          order_column_loop rest model stmt request_data
  end.

(** [order_column] of [utils.py] *)
Definition order_column (model : ModelRef) (stmt : Select)
    (request_data : DataTablesRequest) : M Select :=
  match rq_order request_data with
  | None | Some [] => mret stmt
  | Some orders => order_column_loop orders model stmt request_data
  end.

(** ** [datatables/core.py] *)

Record DataTables := mkDataTables {
  dt_model : Entity;
  base_statment : option Select;
  db_backend : DatabaseBackend
}.

(** [DataTables.get_query] *)
Definition get_query (self : DataTables) : M Select :=
  match base_statment self with
  | None => mret (select (dt_model self))
  | Some stmt => mret stmt
  end.

(** [request_data.search.get("value", "").strip() if request_data.search
    else ""]: a mapping is true when it is not empty. *)
Definition search_value_of (request_data : DataTablesRequest) : string :=
  match rq_search request_data with
  | Some d =>
      if decide (d = ∅) then EmptyString
      else PyStr.strip (default EmptyString (d !! "value"))
  | None => EmptyString
  end.

(** The loop over the columns in [get_filtered_query].  Lines 52 to 71 of
    [core.py] are the body of [resolve_column], written out in place. *)
Fixpoint get_filtered_query_loop (columns : list DataTablesColumn)
    (model : ModelRef) (search_value : string) (search_conditions : list Pred)
    (joins : JoinDict) (aliased_models : gmap string ModelRef)
    : M (list Pred * JoinDict * gmap string ModelRef) :=
  match columns with
  | [] => mret (search_conditions, joins, aliased_models)
  | col :: rest =>
      if col_searchable col then
        let column_path := col_name col in
        '(search_conditions, joins, aliased_models) ←
          except_AttributeError
            ('(current_attr, joins, aliased_models) ←
               resolve_loop (PyStr.split_on "." column_path) model [] None
                 joins aliased_models;
             match current_attr with
             | Some current_attr =>
                 match attr_type current_attr with
                 | Some column_type =>
                     if is_string_type column_type then
                       mret (search_conditions ++
                               [Ilike (ColumnRef current_attr)
                                  ("%" +:+ search_value +:+ "%")],
                             joins, aliased_models)
                     else mret (search_conditions, joins, aliased_models)
                 | None => mret (search_conditions, joins, aliased_models)
                 end
             | None => mret (search_conditions, joins, aliased_models)
             end)
            (raise (InvalidColumnError ("Invalid column path: " +:+ col_name col)));
        get_filtered_query_loop rest model search_value search_conditions
          joins aliased_models
      else
        get_filtered_query_loop rest model search_value search_conditions
          joins aliased_models
  end.

(** [DataTables.get_filtered_query] *)
Definition get_filtered_query (self : DataTables) (stmt : Select)
    (request_data : DataTablesRequest) : M Select :=
  let search_value := search_value_of request_data in
  if PyStr.nonempty search_value then
    match rq_columns request_data with
    | None => raise TypeError
    | Some columns =>
        '(search_conditions, joins, _) ←
          get_filtered_query_loop columns (Mapped (dt_model self))
            search_value [] [] ∅;
        let stmt := apply_joins stmt joins in
        match search_conditions with
        | [] => mret stmt
        | _ :: _ => mret (stmt_where stmt (Or_ search_conditions))
        end
    end
  else mret stmt.

(** The loop over the order keys in [apply_ordering]; each key starts from
    its own empty [aliased_models] and [joins_for_order]. *)
Fixpoint apply_ordering_loop (orders : list OrderSpec) (model : ModelRef)
    (stmt : Select) (request_data : DataTablesRequest) : M Select :=
  match orders with
  | [] => mret stmt
  | order :: rest =>
      let col_index := ord_column order in
      col ← column_at request_data col_index;
      let col_name := col_name col in
      let direction := ord_dir order in
      stmt ← except_AttributeError
        ('(order_column, joins_for_order, _) ←
           resolve_loop (PyStr.split_on "." col_name) model [] None [] ∅;
         let stmt := apply_joins stmt joins_for_order in
         apply_direction stmt direction (read_local order_column))
        (raise (InvalidColumnError
                  ("Invalid column for ordering: " +:+ col_name)));
      apply_ordering_loop rest model stmt request_data
  end.

(** [DataTables.apply_ordering] *)
Definition apply_ordering (self : DataTables) (stmt : Select)
    (request_data : DataTablesRequest) : M Select :=
  match rq_order request_data with
  | None | Some [] => mret stmt
  | Some orders =>
      apply_ordering_loop orders (Mapped (dt_model self)) stmt request_data
  end.

(** [DataTables.process] *)
Definition process (self : DataTables) (request_data : DataTablesRequest)
    : M DataTablesResponse :=
  stmt ← get_query self;
  records_total ←
    call_backend (GetTotalRecords stmt)
      (get_total_records (db_backend self) stmt);
  stmt ← get_filtered_query self stmt request_data;
  records_filtered ←
    call_backend (GetFilteredRecords stmt)
      (get_filtered_records (db_backend self) stmt);
  stmt ← apply_ordering self stmt request_data;
  let stmt := stmt_limit (stmt_offset stmt (rq_start request_data))
                (rq_length request_data) in
  data ← call_backend (ExecuteQuery stmt)
           (execute_query (db_backend self) stmt);
  mret (mkResponse (rq_draw request_data) records_total records_filtered data).

End Compiler.

(** ** Sample schemas and requests

    [Student] is the mapped class of [main.py], with its four mapped
    columns; what [getattr] also finds on the class ([metadata],
    [registry], [__doc__], ...) is left out of this sample.  The library
    schema adds relationships. *)

Definition student_schema : Schema := fun cls name =>
  if String.eqb cls "Student" then
    if String.eqb name "id" then Some (Column TInteger)
    else if String.eqb name "name" then Some (Column TString)
    else if String.eqb name "age" then Some (Column TInteger)
    else if String.eqb name "email" then Some (Column TString)
    else None
  else None.

Definition library_schema : Schema := fun cls name =>
  if String.eqb cls "Book" then
    if String.eqb name "id" then Some (Column TInteger)
    else if String.eqb name "title" then Some (Column TString)
    else if String.eqb name "published" then Some (Column TDateTime)
    else if String.eqb name "author" then Some (Relationship "Author")
    else None
  else if String.eqb cls "Author" then
    if String.eqb name "id" then Some (Column TInteger)
    else if String.eqb name "name" then Some (Column TString)
    else if String.eqb name "age" then Some (Column TInteger)
    else None
  else None.

Definition no_search : ColumnSearch := mkColumnSearch None None.

Definition world0 : World := mkWorld 0 [].

(** A session over three rows that ignores the statement. *)
Definition three_rows : Select -> list Row := fun _ =>
  [[("age", LInt 30)]; [("age", LInt 18)]; [("age", LInt 25)]].

Definition student_tables : DataTables :=
  mkDataTables "Student" None (SQLAlchemyBackend three_rows).

Definition book_tables : DataTables :=
  mkDataTables "Book" None (SQLAlchemyBackend three_rows).

Definition search_dict (v : string) : gmap string string := {[ "value" := v ]}.

Definition all_rows_request : DataTablesRequest :=
  parse_request (Some (Some 7)) (Some (Some 0)) (Some (Some (-1))) None None
    (Some (Some [mkColumn "age" true true no_search])).

Definition unsearched_request : DataTablesRequest :=
  mkRequest (Some 1) (Some 0) (Some 2) (Some (search_dict EmptyString))
    (Some [mkOrder 0 "desc"])
    (Some [mkColumn "age" true true no_search]).

(** The JOIN clauses a join dictionary stands for, in insertion order. *)
Definition join_clauses (joins : JoinDict) : list (ModelRef * Attr) :=
  map (fun '(_, (relation_attr, aliased_model)) => (aliased_model, relation_attr))
    joins.

(** A global search and an order key on the same related column. *)
Definition shared_prefix_request : DataTablesRequest :=
  mkRequest (Some 1) (Some 0) (Some 2) (Some (search_dict "smith"))
    (Some [mkOrder 0 "desc"])
    (Some [mkColumn "author.name" true true no_search;
           mkColumn "title" true true no_search]).

Definition book_author : Attr :=
  mkAttr (Mapped "Book") "author" (Relationship "Author").

Definition missing_field_request : DataTablesRequest :=
  mkRequest (Some 1) (Some 0) (Some 10) (Some (search_dict "smith"))
    (Some [])
    (Some [mkColumn "title" true true no_search;
           mkColumn "missing.field" true true no_search]).

(** ** Vocabulary of the properties *)

(** The SQL expressions a predicate compares, left to right. *)
Fixpoint pred_operands (p : Pred) : list SqlExpr :=
  match p with
  | Ilike e _ | Eq e _ | Ne e _ => [e]
  | Not_ q => pred_operands q
  | Or_ ps | And_ ps =>
      (fix go (l : list Pred) : list SqlExpr :=
         match l with
         | [] => []
         | q :: l' => pred_operands q ++ go l'
         end) ps
  end.

(** [c in s] for a character. *)
Fixpoint has_char (c : ascii) (s : string) : bool :=
  match s with
  | EmptyString => false
  | String a rest => Ascii.eqb a c || has_char c rest
  end.

(** What a path names when it is followed through the schema alone, from
    the class [cls]: every part but the last must be a relationship, the
    last any attribute of the class reached. *)
Fixpoint walk (schema : Schema) (cls : Entity) (parts : list string)
    : option Member :=
  match parts with
  | [] => None
  | [part] => schema cls part
  | part :: rest =>
      match schema cls part with
      | Some (Relationship target) => walk schema target rest
      | _ => None
      end
  end.

(** The class a chain of relationships leads to. *)
Fixpoint walk_relations (schema : Schema) (cls : Entity) (parts : list string)
    : option Entity :=
  match parts with
  | [] => Some cls
  | part :: rest =>
      match schema cls part with
      | Some (Relationship target) => walk_relations schema target rest
      | _ => None
      end
  end.

Definition path_of (column_path : string) : list string :=
  PyStr.split_on "." column_path.

(** The aliases registered so far belong to the classes their prefixes lead
    to from [cls]. *)
Definition aliases_consistent (schema : Schema) (cls : Entity)
    (aliased_models : gmap string ModelRef) : Prop :=
  forall prefix m,
    aliased_models !! prefix = Some m ->
    walk_relations schema cls (path_of prefix) = Some (class_of m).

(** Two columns that [core.py] cannot tell apart: it reads the keys [name]
    and [searchable] only. *)
Definition same_name_and_searchable (c c' : DataTablesColumn) : Prop :=
  col_name c = col_name c' /\ col_searchable c = col_searchable c'.

Definition same_for_core (r r' : DataTablesRequest) : Prop :=
  rq_draw r = rq_draw r' /\ rq_start r = rq_start r' /\
  rq_length r = rq_length r' /\ rq_search r = rq_search r' /\
  rq_order r = rq_order r' /\
  match rq_columns r, rq_columns r' with
  | Some cs, Some cs' => Forall2 same_name_and_searchable cs cs'
  | None, None => True
  | _, _ => False
  end.

Definition with_order (r : DataTablesRequest) (orders : list OrderSpec)
    : DataTablesRequest :=
  mkRequest (rq_draw r) (rq_start r) (rq_length r) (rq_search r)
    (Some orders) (rq_columns r).

Section FilterStages.

Context (schema : Schema).

(** The per-column filter stage, following the words of its description:
    first the columns it applies to, *)
Definition filtering_columns (columns : list DataTablesColumn)
    : list DataTablesColumn :=
  List.filter
    (fun col => col_searchable col && PyStr.nonempty (filter_value col))
    columns.

(** then the resolution of their paths, in order, through one pair of
    dictionaries, *)
Fixpoint resolve_paths (model : ModelRef) (cols : list DataTablesColumn)
    (joins : JoinDict) (aliased_models : gmap string ModelRef)
    : M (list (DataTablesColumn * option Attr) * JoinDict * gmap string ModelRef) :=
  match cols with
  | [] => mret ([], joins, aliased_models)
  | col :: rest =>
      '(attr, joins, aliased_models) ←
        except_AttributeError
          (resolve_column schema model (col_name col) joins aliased_models)
          (raise (InvalidColumnError ("Invalid column path: " +:+ col_name col)));
      '(attrs, joins, aliased_models) ←
        resolve_paths model rest joins aliased_models;
      mret ((col, attr) :: attrs, joins, aliased_models)
  end.

(** then one [contains] predicate per column that admits one, *)
Definition contains_predicates (attrs : list (DataTablesColumn * option Attr))
    : list Pred :=
  omap (fun '(col, attr) =>
          a ← attr; build_condition a CONTAINS (filter_value col)) attrs.

(** and their conjunction on the joined statement. *)
Definition column_filter_described (stmt : Select)
    (columns : list DataTablesColumn) (model : ModelRef) : M Select :=
  '(attrs, joins, _) ← resolve_paths model (filtering_columns columns) [] ∅;
  let stmt := apply_joins stmt joins in
  match contains_predicates attrs with
  | [] => mret stmt
  | conds => mret (stmt_where stmt (And_ conds))
  end.

End FilterStages.

(** A computation that makes no backend call. *)
Definition quiet {A : Type} (m : M A) : Prop :=
  forall w, backend_calls (snd (m w)) = backend_calls w.

(** The statement [get_query] returns. *)
Definition base_query (self : DataTables) : Select :=
  match base_statment self with
  | None => select (dt_model self)
  | Some stmt => stmt
  end.

(** The two counting operations of a backend agree on every statement. *)
Definition counts_agree (b : DatabaseBackend) : Prop :=
  forall stmt, get_total_records b stmt = get_filtered_records b stmt.

(** Whether the schema gives the path a meaning from the class [cls]. *)
Definition resolves (schema : Schema) (cls : Entity) (column_path : string)
    : bool :=
  match walk schema cls (path_of column_path) with
  | Some _ => true
  | None => false
  end.

(** The searchable columns the schema gives no meaning. *)
Definition unresolved_searchable (schema : Schema) (cls : Entity)
    (col : DataTablesColumn) : bool :=
  col_searchable col && negb (resolves schema cls (col_name col)).

(** The columns [column_filter] resolves that the schema gives no meaning. *)
Definition unresolved_filtered (schema : Schema) (cls : Entity)
    (col : DataTablesColumn) : bool :=
  col_searchable col && PyStr.nonempty (filter_value col)
  && negb (resolves schema cls (col_name col)).

Definition sideways_request : DataTablesRequest :=
  mkRequest (Some 1) (Some 0) (Some 10) None
    (Some [mkOrder 1 "asc"; mkOrder 0 "sideways"])
    (Some [mkColumn "age" true true no_search;
           mkColumn "name" true true no_search]).

(** A column filter on [name], and no global search. *)
Definition name_filter_request : DataTablesRequest :=
  mkRequest (Some 1) (Some 0) (Some 10) (Some (search_dict EmptyString))
    (Some [])
    (Some [mkColumn "name" true true (mkColumnSearch (Some "bob") (Some EQUALS))]).

Definition student_name : Attr :=
  mkAttr (Mapped "Student") "name" (Column TString).

Definition student_age : Attr :=
  mkAttr (Mapped "Student") "age" (Column TInteger).

(** An order key on a column that is not orderable. *)
Definition not_orderable_request : DataTablesRequest :=
  mkRequest (Some 1) (Some 0) (Some 10) None
    (Some [mkOrder 0 "asc"])
    (Some [mkColumn "age" true false no_search]).

(** Replacing the match mode of a column's filter. *)
Definition with_match_mode (mode : option MatchMode) (col : DataTablesColumn)
    : DataTablesColumn :=
  mkColumn (col_name col) (col_searchable col) (col_orderable col)
    (mkColumnSearch (cs_value (col_search col)) mode).

(** The tokens of [src/datatables/enum.py]: the value of each member. *)
Definition MatchMode_value (m : MatchMode) : string :=
  match m with
  | CONTAINS => "contains"
  | EQUALS => "equals"
  | STARTS_WITH => "startsWith"
  | ENDS_WITH => "endsWith"
  | NOT_CONTAINS => "notContains"
  | NOT_EQUALS => "notEquals"
  end.

(** [MatchMode(token)], the lookup of a member by its value; [None] stands
    for the [ValueError] of a token that is no member's value. *)
Definition MatchMode_of_value (token : string) : option MatchMode :=
  if String.eqb token "contains" then Some CONTAINS
  else if String.eqb token "equals" then Some EQUALS
  else if String.eqb token "startsWith" then Some STARTS_WITH
  else if String.eqb token "endsWith" then Some ENDS_WITH
  else if String.eqb token "notContains" then Some NOT_CONTAINS
  else if String.eqb token "notEquals" then Some NOT_EQUALS
  else None.

(** The prefix-to-alias pairs a join dictionary holds. *)
Definition alias_entries (joins : JoinDict) : list (string * ModelRef) :=
  (fun e => (e.1, e.2.2)) <$> joins.

(** The two dictionaries of a resolution go together: [joins] holds each
    prefix once, and [aliased_models] maps exactly the prefixes of [joins],
    each to the alias its join is made on. *)
Definition dicts_in_step (joins : JoinDict)
    (aliased_models : gmap string ModelRef) : Prop :=
  NoDup joins.*1 /\ aliased_models = list_to_map (alias_entries joins).

(** Every alias registered was made before the [n]-th call of [aliased]. *)
Definition aliases_below (n : nat) (aliased_models : gmap string ModelRef)
    : Prop :=
  forall prefix i cls,
    aliased_models !! prefix = Some (Aliased i cls) -> (i < n)%nat.

(** No two prefixes share a model. *)
Definition aliases_apart (aliased_models : gmap string ModelRef) : Prop :=
  forall p1 p2 m,
    aliased_models !! p1 = Some m -> aliased_models !! p2 = Some m -> p1 = p2.

Definition with_columns (r : DataTablesRequest)
    (columns : list DataTablesColumn) : DataTablesRequest :=
  mkRequest (rq_draw r) (rq_start r) (rq_length r) (rq_search r)
    (rq_order r) (Some columns).

(** A predicate of the global search of [core.py]: a case-insensitive
    pattern with the search value between two wildcards, on a String or
    Text column. *)
Definition search_pattern_on_text (search_value : string) (p : Pred) : Prop :=
  exists attr ty,
    p = Ilike (ColumnRef attr) ("%" +:+ search_value +:+ "%")
    /\ attr_type attr = Some ty /\ is_string_type ty = true.

(** A global search over a searchable column, beside a column that is not
    searchable and has a path the schema does not know. *)
Definition hidden_bad_path_request : DataTablesRequest :=
  mkRequest (Some 1) (Some 0) (Some 10) (Some (search_dict "smith"))
    (Some [])
    (Some [mkColumn "title" true true no_search;
           mkColumn "missing.field" false true no_search]).

(** A schema without date or time columns. *)
Definition no_temporal_columns (schema : Schema) : Prop :=
  forall cls name ty,
    schema cls name = Some (Column ty) -> is_temporal_type ty = false.

(** A string of white space only (the empty string included). *)
Fixpoint blank (s : string) : bool :=
  match s with
  | EmptyString => true
  | String c rest => PyStr.is_space c && blank rest
  end.

Definition blank_search_request : DataTablesRequest :=
  mkRequest (Some 1) (Some 0) (Some 10) (Some (search_dict "   "))
    (Some [])
    (Some [mkColumn "missing.field" true true no_search]).

Definition term_attr (t : OrderTerm) : Attr :=
  match t with Asc a | Desc a => a end.

Definition term_direction (t : OrderTerm) : string :=
  match t with Asc _ => "asc" | Desc _ => "desc" end.

(** The ORDER BY term an order key stands for: it has the key's direction,
    and it is on a mapped column whose name is the last part of the path of
    the column the key points at. *)
Definition term_of_key (request_data : DataTablesRequest) (key : OrderSpec)
    (t : OrderTerm) : Prop :=
  term_direction t = ord_dir key
  /\ exists columns col ty,
       rq_columns request_data = Some columns
       /\ py_index columns (ord_column key) = Some col
       /\ last (path_of (col_name col)) = Some (attr_name (term_attr t))
       /\ attr_member (term_attr t) = Column ty.

(** Two order keys, the second counted from the end of the columns. *)
Definition two_keys_request : DataTablesRequest :=
  mkRequest (Some 1) (Some 0) (Some 10) None
    (Some [mkOrder 1 "asc"; mkOrder (-2) "desc"])
    (Some [mkColumn "age" true true no_search;
           mkColumn "name" true true no_search]).

Definition out_of_range_request : DataTablesRequest :=
  mkRequest (Some 1) (Some 0) (Some 10) None
    (Some [mkOrder 2 "asc"])
    (Some [mkColumn "age" true true no_search;
           mkColumn "name" true true no_search]).

(** An order key [apply_ordering] can apply: one of the two directions, an
    index that points at a column, and a path that leads to a mapped
    column. *)
Definition key_applicable (schema : Schema) (root : Entity)
    (request_data : DataTablesRequest) (key : OrderSpec) : Prop :=
  (ord_dir key = "asc" \/ ord_dir key = "desc")
  /\ exists columns col ty,
       rq_columns request_data = Some columns
       /\ py_index columns (ord_column key) = Some col
       /\ walk schema root (path_of (col_name col)) = Some (Column ty).

(** The requests [process] answers: with a search value, the columns are
    there and every searchable one has a path the schema knows; and every
    order key can be applied. *)
Definition answerable (schema : Schema) (root : Entity)
    (request_data : DataTablesRequest) : Prop :=
  (PyStr.nonempty (search_value_of request_data) = true ->
   exists columns,
     rq_columns request_data = Some columns
     /\ Forall (fun col => col_searchable col = true ->
                           resolves schema root (col_name col) = true) columns)
  /\ Forall (key_applicable schema root request_data)
       (default [] (rq_order request_data)).

(** The column an expression is about. *)
Fixpoint expr_attr (e : SqlExpr) : Attr :=
  match e with
  | ColumnRef a => a
  | Cast e' _ => expr_attr e'
  end.

(** An attribute is in scope of a statement over [root] when its owner is
    [root] or an alias one of the statement's joins is made on. *)
Definition in_scope (root : ModelRef) (joins : list (ModelRef * Attr))
    (a : Attr) : Prop :=
  attr_owner a = root \/ attr_owner a ∈ joins.*1.

(** Every column the WHERE clauses and the ORDER BY terms of a statement
    mention is in scope. *)
Definition statement_closed (root : ModelRef) (stmt : Select) : Prop :=
  Forall (fun p => Forall (fun e => in_scope root (sel_joins stmt) (expr_attr e))
                     (pred_operands p)) (sel_where stmt)
  /\ Forall (fun t => in_scope root (sel_joins stmt) (term_attr t))
       (sel_order_by stmt).

(** The owner of an attribute is the model a resolution started from or a
    registered alias. *)
Definition owner_known (model : ModelRef) (aliased_models : gmap string ModelRef)
    (a : Attr) : Prop :=
  attr_owner a = model \/ exists prefix, aliased_models !! prefix = Some (attr_owner a).

Definition operands_known (model : ModelRef)
    (aliased_models : gmap string ModelRef) (p : Pred) : Prop :=
  Forall (fun e => owner_known model aliased_models (expr_attr e))
    (pred_operands p).

(** The order keys [order_column] does not pass over: those whose column
    is orderable and has a name, and those whose column cannot be looked
    up (which make it raise). *)
Definition key_kept (request_data : DataTablesRequest) (key : OrderSpec)
    : bool :=
  match rq_columns request_data with
  | Some columns =>
      match py_index columns (ord_column key) with
      | Some col => col_orderable col && PyStr.nonempty (col_name col)
      | None => true
      end
  | None => true
  end.

(** The request of a body without any key. *)
Definition empty_body_request : DataTablesRequest :=
  parse_request None None None None None None.

Definition mixed_keys_request : DataTablesRequest :=
  mkRequest (Some 1) (Some 0) (Some 10) None
    (Some [mkOrder 0 "sideways"; mkOrder 1 "desc"])
    (Some [mkColumn "age" true false no_search;
           mkColumn "name" true true no_search]).

(** A predicate [global_filter] builds: the [contains] condition of some
    attribute for the search value. *)
Definition search_condition (search_value : string) (p : Pred) : Prop :=
  exists attr, build_condition attr CONTAINS search_value = Some p.

(** A predicate [column_filter] builds: the [contains] condition of some
    attribute for the trimmed filter value of a searchable column. *)
Definition filter_condition (columns : list DataTablesColumn) (p : Pred)
    : Prop :=
  exists col attr,
    In col columns /\ col_searchable col = true
    /\ PyStr.nonempty (filter_value col) = true
    /\ build_condition attr CONTAINS (filter_value col) = Some p.

(** The relation prefixes of a path, shortest first: [a] and [a.b] for the
    path [a.b.c], none for a path of one part.  [prefixes_from] takes the
    parts already passed. *)
Fixpoint prefixes_from (current_path parts : list string) : list string :=
  match parts with
  | [] => []
  | part :: rest =>
      match rest with
      | [] => []
      | _ :: _ =>
          PyStr.join "." (current_path ++ [part])
          :: prefixes_from (current_path ++ [part]) rest
      end
  end.

Definition relation_prefixes (column_path : string) : list string :=
  prefixes_from [] (path_of column_path).

(** The number [aliased] gave an alias. *)
Definition alias_id (m : ModelRef) : option nat :=
  match m with
  | Aliased i _ => Some i
  | Mapped _ => None
  end.

(** The joins of the dictionary are made, in insertion order, on the
    aliases number [n], [n + 1], ...: each on an alias of its own, none on
    an alias made before the [n]-th call of [aliased]. *)
Definition aliases_made_from (n : nat) (joins : JoinDict) : Prop :=
  (fun e => alias_id e.2.2) <$> joins = Some <$> seq n (List.length joins).

(** Each join is made on an alias of the class its relationship leads
    to. *)
Definition joins_on_relationships (joins : JoinDict) : Prop :=
  Forall (fun e => attr_member e.2.1 = Relationship (class_of e.2.2)) joins.

(** A join dictionary that holds the relation prefixes of the given paths
    and nothing else, each prefix once. *)
Definition holds_prefixes_of (paths : list string) (joins : JoinDict) : Prop :=
  NoDup joins.*1
  /\ forall k, k ∈ joins.*1 <-> exists p, p ∈ paths /\ k ∈ relation_prefixes p.

(** The join dictionary of a phase that started from empty dictionaries in
    the world [w], resolved [paths] and ended in the world [w']: it holds
    exactly the relation prefixes of these paths, each once; its aliases
    are the ones made during the phase, one per prefix. *)
Definition phase_joins (paths : list string) (w w' : World) (joins : JoinDict)
    : Prop :=
  holds_prefixes_of paths joins
  /\ aliases_made_from (next_alias w) joins
  /\ joins_on_relationships joins
  /\ next_alias w' = (next_alias w + List.length joins)%nat.

(** Resolutions that went from the dictionary [j] in the world [w] to the
    dictionary [j'] in the world [w']: the entries of [j] are kept, and the
    new ones are the prefixes of [keys] that [j] did not hold. *)
Definition joins_extended (keys : list string) (j : JoinDict) (w : World)
    (j' : JoinDict) (w' : World) : Prop :=
  exists new,
    j' = j ++ new
    /\ (forall k, k ∈ new.*1 <-> k ∈ keys /\ k ∉ j.*1)
    /\ aliases_made_from (next_alias w) new
    /\ joins_on_relationships new
    /\ next_alias w' = (next_alias w + List.length new)%nat.

(** The paths the global search of [core.py] resolves. *)
Definition searched_paths (request_data : DataTablesRequest) : list string :=
  if PyStr.nonempty (search_value_of request_data) then
    col_name <$> List.filter col_searchable (default [] (rq_columns request_data))
  else [].

(** The paths [global_filter] resolves. *)
Definition global_filter_paths (search_value : string)
    (columns : list DataTablesColumn) : list string :=
  if PyStr.nonempty search_value then
    col_name <$> List.filter col_searchable columns
  else [].

(** The joins an order key adds: those of the relation prefixes of the
    path of the column the key points at. *)
Definition joins_of_key (request_data : DataTablesRequest) (key : OrderSpec)
    (joins : JoinDict) : Prop :=
  exists columns col,
    rq_columns request_data = Some columns
    /\ py_index columns (ord_column key) = Some col
    /\ holds_prefixes_of [col_name col] joins.

(** The joins of an ordering that went over [keys] from the world [w] to
    the world [w']: every key has a join dictionary of its own, and the
    aliases of all of them are the ones made on the way, each once. *)
Definition ordering_joins (request_data : DataTablesRequest)
    (keys : list OrderSpec) (w w' : World) (per_key : list JoinDict) : Prop :=
  Forall2 (joins_of_key request_data) keys per_key
  /\ aliases_made_from (next_alias w) (concat per_key)
  /\ joins_on_relationships (concat per_key)
  /\ next_alias w' = (next_alias w + List.length (concat per_key))%nat.

(** Two order keys on the same related column. *)
Definition same_prefix_keys_request : DataTablesRequest :=
  mkRequest (Some 1) (Some 0) (Some 10) None
    (Some [mkOrder 0 "asc"; mkOrder 1 "desc"])
    (Some [mkColumn "author.name" true true no_search;
           mkColumn "author.age" true true no_search]).

(** A global search over two columns that share a relation prefix. *)
Definition same_prefix_search_request : DataTablesRequest :=
  mkRequest (Some 1) (Some 0) (Some 10) (Some (search_dict "smith"))
    (Some [])
    (Some [mkColumn "author.name" true true no_search;
           mkColumn "author.age" true true no_search;
           mkColumn "title" true true no_search]).

(** * Properties *)

(** ** Python strings *)

Lemma append_cons (a : ascii) (s t : string) :
  String a s +:+ t = String a (s +:+ t).
Proof. reflexivity. Qed.

Lemma split_on_nonempty (c : ascii) (s : string) : PyStr.split_on c s <> [].
Proof.
  destruct s as [|a rest]; simpl; [discriminate|].
  destruct (Ascii.eqb a c); [discriminate|].
  destruct (PyStr.split_on c rest); discriminate.
Qed.

(** The first field of a split is the text before the first separator. *)
Lemma split_on_head (c : ascii) (s : string) :
  exists rest,
    s = hd EmptyString (PyStr.split_on c s) +:+ rest
    /\ has_char c (hd EmptyString (PyStr.split_on c s)) = false
    /\ (rest = EmptyString \/ exists r, rest = String c r).
Proof.
  induction s as [|a s IH]; simpl.
  - exists EmptyString. repeat split; auto.
  - destruct (Ascii.eqb a c) eqn:E.
    + apply Ascii.eqb_eq in E. subst a. exists (String c s). simpl.
      repeat split; eauto.
    + destruct IH as (rest & Hs & Hno & Hrest).
      pose proof (split_on_nonempty c s) as Hne.
      destruct (PyStr.split_on c s) as [|h t] eqn:Hsp; [congruence|].
      simpl in *. exists rest. rewrite E, Hno. repeat split; auto.
      rewrite append_cons. congruence.
Qed.

(** A string without the separator is its own first field. *)
Lemma split_on_absent (c : ascii) (s : string) :
  has_char c s = false -> PyStr.split_on c s = [s].
Proof.
  induction s as [|a s IH]; simpl; [reflexivity|].
  intros H. apply orb_false_iff in H as [Ha Hs].
  rewrite Ha, (IH Hs). reflexivity.
Qed.

(** [int] reads a literal as the interpreter does: white space around it,
    one sign, single underscores between digits and leading zeros are
    accepted; anything else is refused. *)
Lemma int_literals :
  PyStr.int " +2_1 " = Some 21
  /\ PyStr.int "-007" = Some (-7)
  /\ PyStr.int "2x" = None
  /\ PyStr.int "2__1" = None
  /\ PyStr.int "_21" = None
  /\ PyStr.int "+ 21" = None
  /\ PyStr.int "+-21" = None
  /\ PyStr.int "2 1" = None
  /\ PyStr.int "" = None.
Proof. vm_compute. repeat split. Qed.

(** The separators [chr(28)] to [chr(31)] are white space for [strip] and
    not for [int]. *)
Lemma int_separators (n : nat) :
  (28 <= n <= 31)%nat ->
  PyStr.strip (String (ascii_of_nat n) "21") = "21"
  /\ PyStr.int (String (ascii_of_nat n) "21") = None
  /\ PyStr.int ("21" +:+ String (ascii_of_nat n) "") = None.
Proof.
  intros H.
  assert (n = 28 \/ n = 29 \/ n = 30 \/ n = 31)%nat as [->|[->|[->| ->]]] by lia;
    vm_compute; repeat split.
Qed.

(** A literal of up to 4300 digits is read, a longer one is refused. *)
Lemma int_digit_limit (s : string) :
  (PyStr.int_max_str_digits
   < PyStr.digit_count (PyStr.int_rstrip (PyStr.int_lstrip s)))%nat ->
  PyStr.int s = None.
Proof.
  intros H. unfold PyStr.int. apply Nat.ltb_lt in H. rewrite H. reflexivity.
Qed.

Lemma int_digit_limit_reached :
  (PyStr.int_max_str_digits
   <? PyStr.digit_count (string_of_list_ascii (replicate 4300 "1"%char)))%nat
  = false
  /\ PyStr.int (string_of_list_ascii (replicate 4301 "1"%char)) = None
  /\ PyStr.int (string_of_list_ascii (replicate 4301 "0"%char)) = None.
Proof. vm_compute. repeat split. Qed.

(** ** build_condition *)

Lemma integer_not_string (ty : ColumnType) :
  is_integer_type ty = true -> is_string_type ty = false.
Proof. destruct ty; simpl; congruence. Qed.

Lemma temporal_not_string_or_integer (ty : ColumnType) :
  is_temporal_type ty = true ->
  is_string_type ty = false /\ is_integer_type ty = false.
Proof. destruct ty; simpl; intros; split; congruence. Qed.

(** C8: on an integer column, [build_condition] gives a predicate exactly
    when the raw value parses as a whole number and the match mode is
    [equals] or [notEquals] (an equality or inequality with the parsed
    number); for a value that does not parse, and for every other match
    mode, it returns [None].  The function is total: no case raises. *)
Theorem C8_integer_condition (column_attr : Attr) (ty : ColumnType)
    (match_mode : MatchMode) (value : string) :
  attr_type column_attr = Some ty ->
  is_integer_type ty = true ->
  (forall p,
     build_condition column_attr match_mode value = Some p <->
     exists n, PyStr.int value = Some n /\
       ((match_mode = EQUALS /\ p = Eq (ColumnRef column_attr) (LInt n)) \/
        (match_mode = NOT_EQUALS /\ p = Ne (ColumnRef column_attr) (LInt n))))
  /\ (PyStr.int value = None ->
      build_condition column_attr match_mode value = None)
  /\ (match_mode <> EQUALS -> match_mode <> NOT_EQUALS ->
      build_condition column_attr match_mode value = None).
Proof.
  intros Hty Hint. unfold build_condition.
  rewrite Hty, (integer_not_string _ Hint), Hint.
  split; [|split].
  - intros p. split.
    + destruct (PyStr.int value) as [n|]; [|discriminate].
      destruct match_mode; try discriminate; intros [= <-]; exists n; auto.
    + intros (n & -> & [[-> ->] | [-> ->]]); reflexivity.
  - intros ->. reflexivity.
  - intros H1 H2. destruct (PyStr.int value); [|reflexivity].
    destruct match_mode; try reflexivity;
      [destruct H1 | destruct H2]; reflexivity.
Qed.

Lemma C8_integer_condition_witness :
  let age := mkAttr (Mapped "Student") "age" (Column TInteger) in
  build_condition age EQUALS "21" = Some (Eq (ColumnRef age) (LInt 21))
  /\ build_condition age EQUALS "2x" = None
  /\ build_condition age CONTAINS "21" = None.
Proof.
  intros age.
  destruct (C8_integer_condition age TInteger EQUALS "21" eq_refl eq_refl)
    as (H1 & _ & _).
  destruct (C8_integer_condition age TInteger EQUALS "2x" eq_refl eq_refl)
    as (_ & H2 & _).
  destruct (C8_integer_condition age TInteger CONTAINS "21" eq_refl eq_refl)
    as (_ & _ & H3).
  split; [|split].
  - apply H1. exists 21. split; [reflexivity|]. left. split; reflexivity.
  - apply H2. reflexivity.
  - apply H3; discriminate.
Defined.

(** C9: on a temporal column every match mode gives a predicate; the only
    expression it compares is the column cast to a date and then to a
    string; and the raw value enters it through its first field before
    "T" only: the value is that field (which holds no "T") followed by
    nothing or by "T" and a remainder, and the predicate is the one the
    field alone would give. *)
Theorem C9_temporal_condition (column_attr : Attr) (ty : ColumnType)
    (match_mode : MatchMode) (value : string) :
  attr_type column_attr = Some ty ->
  is_temporal_type ty = true ->
  exists p day rest,
    build_condition column_attr match_mode value = Some p
    /\ pred_operands p = [Cast (Cast (ColumnRef column_attr) TDate) TString]
    /\ value = day +:+ rest
    /\ has_char "T" day = false
    /\ (rest = EmptyString \/ exists r, rest = String "T" r)
    /\ build_condition column_attr match_mode day = Some p
    /\ p = match match_mode with
           | CONTAINS =>
               Ilike (Cast (Cast (ColumnRef column_attr) TDate) TString)
                 ("%" +:+ day +:+ "%")
           | EQUALS =>
               Eq (Cast (Cast (ColumnRef column_attr) TDate) TString) (LStr day)
           | STARTS_WITH =>
               Ilike (Cast (Cast (ColumnRef column_attr) TDate) TString)
                 (day +:+ "%")
           | ENDS_WITH =>
               Ilike (Cast (Cast (ColumnRef column_attr) TDate) TString)
                 ("%" +:+ day)
           | NOT_CONTAINS =>
               Not_ (Ilike (Cast (Cast (ColumnRef column_attr) TDate) TString)
                       ("%" +:+ day +:+ "%"))
           | NOT_EQUALS =>
               Ne (Cast (Cast (ColumnRef column_attr) TDate) TString) (LStr day)
           end.
Proof.
  intros Hty Htemp.
  destruct (temporal_not_string_or_integer _ Htemp) as [Hs Hi].
  destruct (split_on_head "T" value) as (rest & Hval & Hno & Hrest).
  set (day := hd EmptyString (PyStr.split_on "T" value)) in *.
  assert (Hday : hd EmptyString (PyStr.split_on "T" day) = day)
    by (rewrite (split_on_absent _ _ Hno); reflexivity).
  destruct match_mode; eexists; exists day, rest;
    unfold build_condition; rewrite Hty, Hs, Hi, Htemp; fold day;
    rewrite Hday; (split; [reflexivity|]); repeat split; auto.
Qed.

Lemma C9_temporal_condition_witness :
  let published := mkAttr (Mapped "Book") "published" (Column TDateTime) in
  exists p day rest,
    build_condition published EQUALS "2024-01-05T10:30:00" = Some p
    /\ pred_operands p = [Cast (Cast (ColumnRef published) TDate) TString]
    /\ "2024-01-05T10:30:00" = day +:+ rest
    /\ has_char "T" day = false
    /\ (rest = EmptyString \/ exists r, rest = String "T" r)
    /\ build_condition published EQUALS day = Some p
    /\ p = Eq (Cast (Cast (ColumnRef published) TDate) TString) (LStr day).
Proof.
  intros published.
  exact (C9_temporal_condition published TDateTime EQUALS
           "2024-01-05T10:30:00" eq_refl eq_refl).
Defined.

(** ** The effect monad *)

Lemma mret_run {A : Type} (x : A) (w : World) : (mret x : M A) w = (Ok x, w).
Proof. reflexivity. Qed.

Lemma bind_run {A B : Type} (m : M A) (k : A -> M B) (w : World) :
  (m ≫= k) w =
  match m w with
  | (Ok a, w1) => k a w1
  | (Raise e, w1) => (Raise e, w1)
  end.
Proof. reflexivity. Qed.

Lemma bind_Ok {A B : Type} (m : M A) (k : A -> M B) (w w' : World) (b : B) :
  (m ≫= k) w = (Ok b, w') ->
  exists a w1, m w = (Ok a, w1) /\ k a w1 = (Ok b, w').
Proof.
  rewrite bind_run. destruct (m w) as [[a|e] w1]; [eauto | discriminate].
Qed.

Lemma except_Ok {A : Type} (body : M A) (e : Exception) (w w' : World) (a : A) :
  except_AttributeError body (raise e) w = (Ok a, w') -> body w = (Ok a, w').
Proof.
  unfold except_AttributeError, raise.
  destruct (body w) as [[x|[]] w1]; congruence.
Qed.

Lemma quiet_run {A : Type} (m : M A) (w w' : World) (r : result A) :
  quiet m -> m w = (r, w') -> backend_calls w' = backend_calls w.
Proof. intros Q H. specialize (Q w). rewrite H in Q. exact Q. Qed.

Lemma quiet_ret {A : Type} (a : A) : quiet (mret a : M A).
Proof. intros w. reflexivity. Qed.

Lemma quiet_raise {A : Type} (e : Exception) : quiet (raise e : M A).
Proof. intros w. reflexivity. Qed.

Lemma quiet_bind {A B : Type} (m : M A) (k : A -> M B) :
  quiet m -> (forall a, quiet (k a)) -> quiet (m ≫= k).
Proof.
  intros Hm Hk w. rewrite bind_run. specialize (Hm w).
  destruct (m w) as [[a|e] w1]; simpl in *; [|assumption].
  rewrite Hk. assumption.
Qed.

Lemma quiet_except {A : Type} (body handler : M A) :
  quiet body -> quiet handler -> quiet (except_AttributeError body handler).
Proof.
  intros Hb Hh w. unfold except_AttributeError. specialize (Hb w).
  destruct (body w) as [[a|[]] w1]; simpl in *; try assumption.
  rewrite Hh. assumption.
Qed.

Lemma quiet_aliased (cls : Entity) : quiet (aliased cls).
Proof. intros w. reflexivity. Qed.

Create HintDb quiet.
#[local] Hint Resolve quiet_ret quiet_raise quiet_aliased : quiet.

Section Quiet.

Context (schema : Schema).

Lemma quiet_getattr (m : ModelRef) (name : string) : quiet (getattr schema m name).
Proof. unfold getattr. destruct (schema _ _); auto with quiet. Qed.

Lemma quiet_related_class (a : Attr) : quiet (related_class a).
Proof. unfold related_class. destruct (attr_member a); auto with quiet. Qed.

Lemma quiet_resolve_loop (parts : list string) :
  forall cm cp ca j a, quiet (resolve_loop schema parts cm cp ca j a).
Proof.
  induction parts as [|part rest IH]; intros; simpl; [apply quiet_ret|].
  destruct rest as [|r rest'].
  - apply quiet_bind; [apply quiet_getattr|]. intros. apply quiet_ret.
  - apply quiet_bind.
    + destruct (a !! _); [apply quiet_ret|].
      apply quiet_bind; [apply quiet_getattr|intros].
      apply quiet_bind; [apply quiet_related_class|intros].
      apply quiet_bind; [apply quiet_aliased|intros]. apply quiet_ret.
    + intros [j' a']. destruct (a' !! _); [apply IH | apply quiet_raise].
Qed.

Lemma quiet_get_filtered_query_loop (columns : list DataTablesColumn) :
  forall model sv conds j a,
    quiet (get_filtered_query_loop schema columns model sv conds j a).
Proof.
  induction columns as [|col rest IH]; intros; simpl; [apply quiet_ret|].
  destruct (col_searchable col); [|apply IH].
  apply quiet_bind.
  - apply quiet_except; [|apply quiet_raise].
    apply quiet_bind; [apply quiet_resolve_loop|].
    intros [[ca j'] a']. destruct ca as [ca|]; [|apply quiet_ret].
    destruct (attr_type ca) as [ty|]; [|apply quiet_ret].
    destruct (is_string_type ty); apply quiet_ret.
  - intros [[c j'] a']. apply IH.
Qed.

Lemma quiet_get_filtered_query (self : DataTables) (stmt : Select)
    (request_data : DataTablesRequest) :
  quiet (get_filtered_query schema self stmt request_data).
Proof.
  unfold get_filtered_query.
  destruct (PyStr.nonempty _); [|apply quiet_ret].
  destruct (rq_columns request_data); [|apply quiet_raise].
  apply quiet_bind; [apply quiet_get_filtered_query_loop|].
  intros [[c j] a]. destruct c; apply quiet_ret.
Qed.

Lemma quiet_attr_order (mk : Attr -> OrderTerm) (a : Attr) : quiet (attr_order mk a).
Proof. unfold attr_order. destruct (attr_member a); auto with quiet. Qed.

Lemma quiet_apply_direction (stmt : Select) (direction : string) (oc : M Attr) :
  quiet oc -> quiet (apply_direction stmt direction oc).
Proof.
  intros H. unfold apply_direction.
  destruct (String.eqb direction "asc"); [|destruct (String.eqb direction "desc")].
  - apply quiet_bind; [assumption|intros].
    apply quiet_bind; [apply quiet_attr_order|intros]. apply quiet_ret.
  - apply quiet_bind; [assumption|intros].
    apply quiet_bind; [apply quiet_attr_order|intros]. apply quiet_ret.
  - apply quiet_raise.
Qed.

Lemma quiet_column_at (request_data : DataTablesRequest) (i : Z) :
  quiet (column_at request_data i).
Proof.
  unfold column_at. destruct (rq_columns request_data); [|apply quiet_raise].
  destruct (py_index _ _); auto with quiet.
Qed.

Lemma quiet_read_local (v : option Attr) : quiet (read_local v).
Proof. destruct v; simpl; auto with quiet. Qed.

Lemma quiet_apply_ordering_loop (orders : list OrderSpec) :
  forall model stmt request_data,
    quiet (apply_ordering_loop schema orders model stmt request_data).
Proof.
  induction orders as [|o rest IH]; intros; simpl; [apply quiet_ret|].
  apply quiet_bind; [apply quiet_column_at|intros col].
  apply quiet_bind; [|intros; apply IH].
  apply quiet_except; [|apply quiet_raise].
  apply quiet_bind; [apply quiet_resolve_loop|].
  intros [[oc j] a]. apply quiet_apply_direction, quiet_read_local.
Qed.

Lemma quiet_apply_ordering (self : DataTables) (stmt : Select)
    (request_data : DataTablesRequest) :
  quiet (apply_ordering schema self stmt request_data).
Proof.
  unfold apply_ordering. destruct (rq_order request_data) as [[|o l]|];
    try apply quiet_ret. apply quiet_apply_ordering_loop.
Qed.

End Quiet.

(** ** The pipeline of [process] *)

Section Process.

Context (schema : Schema).

Lemma get_query_run (self : DataTables) (w : World) :
  get_query self w = (Ok (base_query self), w).
Proof. unfold get_query, base_query. destruct (base_statment self); reflexivity. Qed.

(** The shape of a call of [process] that returns: the three backend calls
    it makes, in order, and the statements they receive. *)
Lemma process_Ok (self : DataTables) (request_data : DataTablesRequest)
    (w w' : World) (resp : DataTablesResponse) :
  process schema self request_data w = (Ok resp, w') ->
  let base := base_query self in
  let b := db_backend self in
  exists counted ordered w1 w2,
    get_filtered_query schema self base request_data
      (mkWorld (next_alias w) (backend_calls w ++ [GetTotalRecords base]))
      = (Ok counted, w1)
    /\ apply_ordering schema self counted request_data
         (mkWorld (next_alias w1) (backend_calls w1 ++ [GetFilteredRecords counted]))
       = (Ok ordered, w2)
    /\ let final := stmt_limit (stmt_offset ordered (rq_start request_data))
                      (rq_length request_data) in
       resp = mkResponse (rq_draw request_data) (get_total_records b base)
                (get_filtered_records b counted) (execute_query b final)
       /\ backend_calls w' =
          backend_calls w ++ [GetTotalRecords base; GetFilteredRecords counted;
                              ExecuteQuery final].
Proof.
  intros H base b. unfold process in H.
  apply bind_Ok in H as (s0 & w0 & H0 & H). rewrite get_query_run in H0.
  injection H0 as <- <-.
  apply bind_Ok in H as (total & wa & Ha & H).
  unfold call_backend in Ha. injection Ha as <- <-.
  apply bind_Ok in H as (counted & w1 & Hf & H).
  apply bind_Ok in H as (filtered & wb & Hb & H).
  unfold call_backend in Hb. injection Hb as <- <-.
  apply bind_Ok in H as (ordered & w2 & Ho & H).
  apply bind_Ok in H as (data & wc & Hc & H).
  unfold call_backend in Hc. injection Hc as <- <-.
  injection H as <- <-.
  exists counted, ordered, w1, w2. fold base b.
  split; [exact Hf|]. split; [exact Ho|]. split; [reflexivity|].
  simpl.
  apply (quiet_run _ _ _ _ (quiet_get_filtered_query schema _ _ _)) in Hf.
  apply (quiet_run _ _ _ _ (quiet_apply_ordering schema _ _ _)) in Ho.
  simpl in Hf, Ho. rewrite Ho, Hf, <- !app_assoc. reflexivity.
Qed.

(** C10: when [process] returns, the statement it hands to
    [execute_query] has the request's [start] as its offset and the
    request's [length] as its limit, whatever their values (zero, negative
    and [None] included); and a request body that omits [length] is given
    the length 10, while a given length is kept. *)
Theorem C10_pagination_verbatim (self : DataTables) :
  (forall (request_data : DataTablesRequest) (w w' : World)
          (resp : DataTablesResponse),
     process schema self request_data w = (Ok resp, w') ->
     exists counted final,
       backend_calls w' =
         backend_calls w ++ [GetTotalRecords (base_query self);
                             GetFilteredRecords counted; ExecuteQuery final]
       /\ r_data resp = execute_query (db_backend self) final
       /\ sel_offset final = rq_start request_data
       /\ sel_limit final = rq_length request_data)
  /\ (forall b_draw b_start b_search b_order b_columns,
        rq_length (parse_request b_draw b_start None b_search b_order b_columns)
          = Some 10)
  /\ (forall b_draw b_start given b_search b_order b_columns,
        rq_length (parse_request b_draw b_start (Some given) b_search b_order
                     b_columns) = given).
Proof.
  split; [|split; reflexivity].
  intros request_data w w' resp H.
  apply process_Ok in H as (counted & ordered & w1 & w2 & _ & _ & -> & Hlog).
  eexists counted, _. split; [exact Hlog|]. repeat split.
Qed.

End Process.


Lemma C10_pagination_verbatim_witness :
  exists counted final w',
    process student_schema student_tables all_rows_request world0
      = (Ok (mkResponse (Some 7) 3 3 (three_rows final)), w')
    /\ backend_calls w' =
         [GetTotalRecords (select "Student"); GetFilteredRecords counted;
          ExecuteQuery final]
    /\ sel_offset final = Some 0
    /\ sel_limit final = Some (-1).
Proof.
  destruct (C10_pagination_verbatim student_schema student_tables) as [H _].
  destruct (H all_rows_request world0
              (snd (process student_schema student_tables all_rows_request world0))
              (mkResponse (Some 7) 3 3
                 (three_rows (select "Student"))) eq_refl)
    as (counted & final & Hlog & _ & Hoff & Hlim).
  exists counted, final, (snd (process student_schema student_tables all_rows_request world0)).
  split; [reflexivity|]. split; [exact Hlog|]. split; assumption.
Defined.

(** ** What ordering leaves alone *)

Section Frames.

Context (schema : Schema).

Lemma apply_joins_frame (joins : JoinDict) (stmt : Select) :
  sel_from (apply_joins stmt joins) = sel_from stmt
  /\ sel_where (apply_joins stmt joins) = sel_where stmt
  /\ sel_order_by (apply_joins stmt joins) = sel_order_by stmt.
Proof.
  revert stmt. unfold apply_joins.
  induction joins as [|[k [r a]] joins IH]; intros stmt; simpl; [auto|].
  destruct (IH (stmt_join stmt a r)) as (H1 & H2 & H3).
  rewrite H1, H2, H3. auto.
Qed.

Lemma apply_direction_where (stmt stmt' : Select) (direction : string)
    (oc : M Attr) (w w' : World) :
  apply_direction stmt direction oc w = (Ok stmt', w') ->
  sel_where stmt' = sel_where stmt /\ sel_from stmt' = sel_from stmt.
Proof.
  unfold apply_direction.
  destruct (String.eqb direction "asc"); [|destruct (String.eqb direction "desc")];
    intros H; try discriminate.
  - apply bind_Ok in H as (c & w1 & _ & H).
    apply bind_Ok in H as (t & w2 & _ & H). injection H as <- <-. auto.
  - apply bind_Ok in H as (c & w1 & _ & H).
    apply bind_Ok in H as (t & w2 & _ & H). injection H as <- <-. auto.
Qed.

Lemma apply_ordering_loop_where (orders : list OrderSpec) :
  forall model stmt request_data w stmt' w',
    apply_ordering_loop schema orders model stmt request_data w = (Ok stmt', w') ->
    sel_where stmt' = sel_where stmt /\ sel_from stmt' = sel_from stmt.
Proof.
  induction orders as [|o rest IH]; intros model stmt request_data w stmt' w' H;
    simpl in H.
  - injection H as <- <-. auto.
  - apply bind_Ok in H as (col & w1 & _ & H).
    apply bind_Ok in H as (s1 & w2 & Hs & H).
    apply except_Ok in Hs.
    apply bind_Ok in Hs as ([[oc j] a] & w3 & _ & Hs).
    apply apply_direction_where in Hs as [Hw Hf].
    apply IH in H as [Hw' Hf'].
    destruct (apply_joins_frame j stmt) as (F1 & F2 & _).
    split; congruence.
Qed.

Lemma apply_ordering_where (self : DataTables) (stmt stmt' : Select)
    (request_data : DataTablesRequest) (w w' : World) :
  apply_ordering schema self stmt request_data w = (Ok stmt', w') ->
  sel_where stmt' = sel_where stmt /\ sel_from stmt' = sel_from stmt.
Proof.
  unfold apply_ordering.
  destruct (rq_order request_data) as [[|o l]|]; intros H;
    try (injection H as <- <-; auto; fail).
  eapply apply_ordering_loop_where; eassumption.
Qed.

(** A request whose search mapping is missing, empty, or holds an empty
    value has the empty search value. *)
Lemma search_value_of_empty (request_data : DataTablesRequest) :
  match rq_search request_data with
  | None => True
  | Some d => d !! "value" = None \/ d !! "value" = Some EmptyString
  end ->
  search_value_of request_data = EmptyString.
Proof.
  unfold search_value_of. destruct (rq_search request_data) as [d|]; [|reflexivity].
  destruct (decide (d = ∅)); [reflexivity|].
  intros [-> | ->]; reflexivity.
Qed.

(** C3: when the search value of the request is empty (the search mapping
    is missing or empty, or its value is empty or white space),
    [get_filtered_query] returns the statement it was given, unchanged and
    without making an alias; a call of [process] that returns has counted
    the filtered records on the very statement it counted the total on, the
    statement it executes carries the WHERE clauses of the base query and
    no other, and with a backend whose two counts agree on a statement
    [recordsFiltered] equals [recordsTotal]. *)
Theorem C3_empty_search (self : DataTables) (request_data : DataTablesRequest) :
  search_value_of request_data = EmptyString ->
  (forall stmt w,
     get_filtered_query schema self stmt request_data w = (Ok stmt, w))
  /\ (forall w w' resp,
        process schema self request_data w = (Ok resp, w') ->
        (exists final,
           backend_calls w' =
             backend_calls w ++ [GetTotalRecords (base_query self);
                                 GetFilteredRecords (base_query self);
                                 ExecuteQuery final]
           /\ sel_where final = sel_where (base_query self))
        /\ (counts_agree (db_backend self) ->
            r_recordsFiltered resp = r_recordsTotal resp)).
Proof.
  intros Hempty.
  assert (Hq : forall stmt w,
             get_filtered_query schema self stmt request_data w = (Ok stmt, w)).
  { intros stmt w. unfold get_filtered_query. rewrite Hempty. reflexivity. }
  split; [exact Hq|].
  intros w w' resp H.
  apply process_Ok in H as (counted & ordered & w1 & w2 & Hf & Ho & -> & Hlog).
  rewrite Hq in Hf. injection Hf as <- <-.
  apply apply_ordering_where in Ho as [Hw _].
  split.
  - eexists. split; [exact Hlog|]. simpl. exact Hw.
  - intros Hagree. simpl. symmetry. apply Hagree.
Qed.

End Frames.


Lemma C3_empty_search_witness :
  search_value_of unsearched_request = EmptyString
  /\ (exists w',
        process student_schema student_tables unsearched_request world0
          = (Ok (mkResponse (Some 1) 3 3 (three_rows (select "Student"))), w'))
  /\ r_recordsFiltered (mkResponse (Some 1) 3 3 (three_rows (select "Student")))
     = r_recordsTotal (mkResponse (Some 1) 3 3 (three_rows (select "Student"))).
Proof.
  set (run := process student_schema student_tables unsearched_request world0).
  split; [reflexivity|]. split; [exists (snd run); reflexivity|].
  destruct (C3_empty_search student_schema student_tables unsearched_request
              eq_refl) as [_ H].
  destruct (H world0 (snd run)
              (mkResponse (Some 1) 3 3 (three_rows (select "Student"))) eq_refl)
    as [_ Heq].
  apply Heq. intros stmt. reflexivity.
Defined.

(** ** Paths and their prefixes *)

Lemma split_on_free (c : ascii) (s : string) :
  Forall (fun p => has_char c p = false) (PyStr.split_on c s).
Proof.
  induction s as [|a s IH]; simpl.
  - repeat constructor.
  - destruct (Ascii.eqb a c) eqn:E.
    + constructor; [reflexivity | exact IH].
    + pose proof (split_on_nonempty c s) as Hne.
      destruct (PyStr.split_on c s) as [|h t]; [congruence|].
      inversion IH; subst. constructor; [|assumption].
      simpl. rewrite E. assumption.
Qed.

Lemma split_on_app (c : ascii) (x rest : string) :
  has_char c x = false ->
  PyStr.split_on c (x +:+ String c rest) = x :: PyStr.split_on c rest.
Proof.
  induction x as [|a x IH]; intros H.
  - simpl. rewrite Ascii.eqb_refl. reflexivity.
  - simpl in H. apply orb_false_iff in H as [Ha Hx].
    rewrite append_cons. simpl. rewrite Ha, (IH Hx). reflexivity.
Qed.

(** Splitting the joined parts gives the parts back. *)
Lemma split_on_join (c : ascii) (parts : list string) :
  parts <> [] ->
  Forall (fun p => has_char c p = false) parts ->
  PyStr.split_on c (PyStr.join (String c EmptyString) parts) = parts.
Proof.
  induction parts as [|x rest IH]; [congruence|]. intros _ Hfree.
  inversion Hfree as [|? ? Hx Hrest]; subst.
  destruct rest as [|y rest'].
  - simpl. apply split_on_absent. assumption.
  - change (PyStr.join (String c EmptyString) (x :: y :: rest'))
      with (x +:+ String c EmptyString +:+ PyStr.join (String c EmptyString) (y :: rest')).
    change (String c EmptyString +:+ PyStr.join (String c EmptyString) (y :: rest'))
      with (String c (PyStr.join (String c EmptyString) (y :: rest'))).
    rewrite split_on_app by assumption.
    rewrite IH; [reflexivity | discriminate | assumption].
Qed.

Lemma walk_relations_app (schema : Schema) (pre : list string) :
  forall cls parts,
    walk_relations schema cls (pre ++ parts) =
    match walk_relations schema cls pre with
    | Some mid => walk_relations schema mid parts
    | None => None
    end.
Proof.
  induction pre as [|p pre IH]; intros cls parts; simpl; [reflexivity|].
  destruct (schema cls p) as [[t| |]|]; auto.
Qed.

(** ** The resolver *)

Lemma dict_set_keys {V : Type} (k : string) (v : V) (d : list (string * V)) :
  forall x, x ∈ (dict_set k v d).*1 <-> x = k \/ x ∈ d.*1.
Proof.
  induction d as [|[k' v'] d IH]; intros x; simpl.
  - rewrite list_elem_of_singleton. split; [auto|].
    intros [H|H]; [exact H | inversion H].
  - destruct (String.eqb k' k) eqn:E; simpl.
    + apply String.eqb_eq in E. subst k'. rewrite !elem_of_cons. tauto.
    + rewrite !elem_of_cons, IH. tauto.
Qed.

Lemma dict_set_NoDup {V : Type} (k : string) (v : V) (d : list (string * V)) :
  NoDup d.*1 -> NoDup (dict_set k v d).*1.
Proof.
  induction d as [|[k' v'] d IH]; simpl; intros H.
  - apply NoDup_singleton.
  - apply NoDup_cons in H as [Hnotin Hd].
    destruct (String.eqb k' k) eqn:E; simpl.
    + apply String.eqb_eq in E. subst k'. apply NoDup_cons. auto.
    + apply NoDup_cons. split; [|auto].
      rewrite dict_set_keys. intros [->|Hin]; [|contradiction].
      rewrite String.eqb_refl in E. discriminate.
Qed.

Section Resolver.

Context (schema : Schema).

(** The last part of a path is looked up on the current model. *)
Lemma resolve_loop_last (part : string) (cm : ModelRef) (cp : list string)
    (ca : option Attr) (j : JoinDict) (a : gmap string ModelRef) (w : World) :
  resolve_loop schema [part] cm cp ca j a w =
  match schema (class_of cm) part with
  | Some member => (Ok (Some (mkAttr cm part member), j, a), w)
  | None => (Raise AttributeError, w)
  end.
Proof.
  simpl. rewrite bind_run. unfold getattr.
  destruct (schema (class_of cm) part); reflexivity.
Qed.

(** A part that is followed by others: its prefix either has an alias
    already, or gets a new one, registered in both dictionaries. *)
Lemma resolve_loop_relation (part r : string) (rest : list string)
    (cm : ModelRef) (cp : list string) (ca : option Attr) (j : JoinDict)
    (a : gmap string ModelRef) (w : World) :
  resolve_loop schema (part :: r :: rest) cm cp ca j a w =
  let k := PyStr.join "." (cp ++ [part]) in
  match a !! k with
  | Some m => resolve_loop schema (r :: rest) m (cp ++ [part]) ca j a w
  | None =>
      match schema (class_of cm) part with
      | Some (Relationship t) =>
          resolve_loop schema (r :: rest) (Aliased (next_alias w) t)
            (cp ++ [part]) ca
            (dict_set k (mkAttr cm part (Relationship t),
                         Aliased (next_alias w) t) j)
            (<[k := Aliased (next_alias w) t]> a)
            (mkWorld (S (next_alias w)) (backend_calls w))
      | _ => (Raise AttributeError, w)
      end
  end.
Proof.
  cbv zeta.
  change (resolve_loop schema (part :: r :: rest) cm cp ca j a w) with
    ((('(joins, aliased_models) ←
         match a !! PyStr.join "." (cp ++ [part]) with
         | None =>
             relation_attr ← getattr schema cm part;
             related_model ← related_class relation_attr;
             aliased_model ← aliased related_model;
             mret (dict_set (PyStr.join "." (cp ++ [part]))
                     (relation_attr, aliased_model) j,
                   <[PyStr.join "." (cp ++ [part]) := aliased_model]> a)
         | Some _ => mret (j, a)
         end;
       match aliased_models !! PyStr.join "." (cp ++ [part]) with
       | Some current_model =>
           resolve_loop schema (r :: rest) current_model (cp ++ [part]) ca
             joins aliased_models
       | None => raise KeyError
       end) : M _) w).
  rewrite bind_run.
  destruct (a !! PyStr.join "." (cp ++ [part])) as [m|] eqn:Hk.
  - change ((mret (j, a) : M _) w) with (Ok (j, a), w). cbv beta iota. rewrite Hk. reflexivity.
  - rewrite bind_run. unfold getattr.
    destruct (schema (class_of cm) part) as [[t| |]|]; try reflexivity.
    change ((mret (mkAttr cm part (Relationship t)) : M _) w)
      with (Ok (mkAttr cm part (Relationship t)), w).
    cbv beta iota. rewrite bind_run.
    change (related_class (mkAttr cm part (Relationship t)) w) with (Ok t, w).
    cbv beta iota. rewrite bind_run.
    change (aliased t w) with
      (Ok (Aliased (next_alias w) t), mkWorld (S (next_alias w)) (backend_calls w)).
    cbv beta iota.
    change ((mret ?x : M _) ?w') with (Ok x, w').
    cbv beta iota. rewrite lookup_insert_eq. reflexivity.
Qed.

(** Resolving again through the dictionaries a successful resolution left
    changes nothing and finds the same attribute; the resolution itself
    kept every alias it found and every join key apart. *)
Lemma resolve_loop_again (parts : list string) :
  forall cm cp ca j a w r j' a' w',
    resolve_loop schema parts cm cp ca j a w = (Ok (r, j', a'), w') ->
    a ⊆ a'
    /\ (NoDup j.*1 -> NoDup j'.*1)
    /\ resolve_loop schema parts cm cp ca j' a' w' = (Ok (r, j', a'), w').
Proof.
  induction parts as [|part rest IH]; intros cm cp ca j a w r j' a' w' H.
  - simpl in H. injection H as <- <- <- <-. auto.
  - destruct rest as [|r0 rest].
    + rewrite resolve_loop_last in *.
      destruct (schema (class_of cm) part); [|discriminate].
      injection H as <- <- <- <-. auto.
    + rewrite resolve_loop_relation in H. cbv zeta in H.
      rewrite resolve_loop_relation. cbv zeta.
      destruct (a !! PyStr.join "." (cp ++ [part])) as [m|] eqn:Hk.
      * apply IH in H as (Hsub & Hnd & Hagain).
        split; [exact Hsub|]. split; [exact Hnd|].
        rewrite (lookup_weaken _ _ _ _ Hk Hsub). exact Hagain.
      * destruct (schema (class_of cm) part) as [[t| |]|]; try discriminate.
        apply IH in H as (Hsub & Hnd & Hagain).
        assert (Hk' : a' !! PyStr.join "." (cp ++ [part])
                      = Some (Aliased (next_alias w) t)).
        { eapply lookup_weaken; [apply lookup_insert_eq | exact Hsub]. }
        split; [|split].
        -- etrans; [apply insert_subseteq; exact Hk | exact Hsub].
        -- intros Hj. apply Hnd, dict_set_NoDup, Hj.
        -- rewrite Hk'. exact Hagain.
Qed.

Lemma aliases_consistent_empty (root : Entity) :
  aliases_consistent schema root ∅.
Proof. intros k m H. rewrite lookup_empty in H. discriminate. Qed.

(** Whether a resolution succeeds is decided by the schema: with aliases
    that belong to the classes their prefixes lead to, the loop returns the
    attribute the schema names, and raises [AttributeError] when the schema
    names none. *)
Lemma resolve_loop_walk (root : Entity) (parts : list string) :
  forall pre cm ca j a w,
    parts <> [] ->
    Forall (fun p => has_char "." p = false) (pre ++ parts) ->
    walk_relations schema root pre = Some (class_of cm) ->
    aliases_consistent schema root a ->
    match walk schema (class_of cm) parts with
    | Some member =>
        exists attr j' a' w',
          resolve_loop schema parts cm pre ca j a w = (Ok (Some attr, j', a'), w')
          /\ attr_member attr = member
          /\ aliases_consistent schema root a'
    | None =>
        exists w', resolve_loop schema parts cm pre ca j a w
                   = (Raise AttributeError, w')
    end.
Proof.
  induction parts as [|part rest IH]; intros pre cm ca j a w Hne Hfree Hpre Hcons;
    [congruence|].
  destruct rest as [|r0 rest].
  - rewrite resolve_loop_last. simpl.
    destruct (schema (class_of cm) part) as [member|]; eauto 10.
  - rewrite resolve_loop_relation. cbv zeta.
    assert (Hfree' : Forall (fun p => has_char "." p = false)
                       ((pre ++ [part]) ++ r0 :: rest))
      by (rewrite <- app_assoc; exact Hfree).
    assert (Hsplit : path_of (PyStr.join "." (pre ++ [part])) = pre ++ [part]).
    { unfold path_of. apply split_on_join.
      - destruct pre; discriminate.
      - apply Forall_app in Hfree' as [H _]. exact H. }
    assert (Hstep : walk_relations schema root (pre ++ [part]) =
                    match schema (class_of cm) part with
                    | Some (Relationship t) => Some t
                    | _ => None
                    end).
    { rewrite walk_relations_app, Hpre. simpl.
      destruct (schema (class_of cm) part) as [[t| |]|]; reflexivity. }
    change (walk schema (class_of cm) (part :: r0 :: rest)) with
      (match schema (class_of cm) part with
       | Some (Relationship t) => walk schema t (r0 :: rest)
       | _ => None
       end).
    destruct (a !! PyStr.join "." (pre ++ [part])) as [m|] eqn:Hk.
    + pose proof (Hcons _ _ Hk) as Hm. rewrite Hsplit, Hstep in Hm.
      destruct (schema (class_of cm) part) as [[t| |]|]; try discriminate.
      injection Hm as ->.
      apply IH; try assumption; discriminate.
    + destruct (schema (class_of cm) part) as [[t| |]|]; [|eauto..].
      apply (IH (pre ++ [part]) (Aliased (next_alias w) t));
        try assumption; try discriminate.
      intros k m Hkm. destruct (decide (PyStr.join "." (pre ++ [part]) = k)) as [<-|Hne'].
      * rewrite lookup_insert_eq in Hkm. injection Hkm as <-.
        rewrite Hsplit. exact Hstep.
      * rewrite lookup_insert_ne in Hkm by exact Hne'. apply Hcons, Hkm.
Qed.

(** [resolve_column] on a model of class [root]. *)
Lemma resolve_column_walk (root : Entity) (model : ModelRef)
    (column_path : string) (j : JoinDict) (a : gmap string ModelRef)
    (w : World) :
  class_of model = root ->
  aliases_consistent schema root a ->
  match walk schema root (path_of column_path) with
  | Some member =>
      exists attr j' a' w',
        resolve_column schema model column_path j a w
          = (Ok (Some attr, j', a'), w')
        /\ attr_member attr = member
        /\ aliases_consistent schema root a'
  | None =>
      exists w', resolve_column schema model column_path j a w
                 = (Raise AttributeError, w')
  end.
Proof.
  intros <- Hcons. unfold resolve_column.
  apply (resolve_loop_walk (class_of model) (path_of column_path) []);
    [apply split_on_nonempty | apply split_on_free | reflexivity | exact Hcons].
Qed.

End Resolver.

(** ** Aliases and joins *)

Lemma dict_set_new {V : Type} (k : string) (v : V) (d : list (string * V)) :
  k ∉ d.*1 -> dict_set k v d = d ++ [(k, v)].
Proof.
  induction d as [|[k' v'] d IH]; simpl; intros H; [reflexivity|].
  apply not_elem_of_cons in H as [Hne Hd].
  destruct (String.eqb_spec k' k) as [->|_]; [congruence|].
  rewrite IH by exact Hd. reflexivity.
Qed.

Lemma alias_entries_keys (joins : JoinDict) : (alias_entries joins).*1 = joins.*1.
Proof.
  unfold alias_entries. rewrite <- list_fmap_compose. reflexivity.
Qed.

Lemma column_at_Ok (request_data : DataTablesRequest) (i : Z) (w w' : World)
    (col : DataTablesColumn) :
  column_at request_data i w = (Ok col, w') ->
  w' = w /\ exists columns,
    rq_columns request_data = Some columns /\ py_index columns i = Some col.
Proof.
  unfold column_at. destruct (rq_columns request_data) as [columns|];
    [|discriminate].
  destruct (py_index columns i) as [c|] eqn:Hi; [|discriminate].
  intros [= <- <-]. eauto.
Qed.

Lemma apply_direction_Ok (stmt stmt' : Select) (direction : string)
    (oc : M Attr) (w w' : World) :
  apply_direction stmt direction oc w = (Ok stmt', w') ->
  exists attr t ty,
    oc w = (Ok attr, w')
    /\ term_attr t = attr
    /\ term_direction t = direction
    /\ attr_member attr = Column ty
    /\ stmt' = stmt_order_by stmt t.
Proof.
  unfold apply_direction. intros H.
  destruct (String.eqb_spec direction "asc") as [->|_];
    [|destruct (String.eqb_spec direction "desc") as [->|_]];
    try discriminate;
    apply bind_Ok in H as (attr & w1 & Hoc & H);
    apply bind_Ok in H as (t & w2 & Ht & H);
    injection H as <- <-;
    unfold attr_order in Ht;
    destruct (attr_member attr) as [|ty|] eqn:Hm; try discriminate;
    injection Ht as <- <-; eexists attr, _, ty; repeat split; eauto.
Qed.

Lemma apply_joins_clauses (joins : JoinDict) (stmt : Select) :
  sel_joins (apply_joins stmt joins) = sel_joins stmt ++ join_clauses joins.
Proof.
  revert stmt. unfold apply_joins.
  induction joins as [|[k [r m]] joins IH]; intros stmt; simpl.
  - rewrite app_nil_r. reflexivity.
  - rewrite IH. simpl. rewrite <- app_assoc. reflexivity.
Qed.

Lemma aliases_made_from_nil (n : nat) : aliases_made_from n [].
Proof. reflexivity. Qed.

Lemma aliases_made_from_app (n : nat) (l1 l2 : JoinDict) :
  aliases_made_from n l1 ->
  aliases_made_from (n + List.length l1) l2 ->
  aliases_made_from n (l1 ++ l2).
Proof.
  unfold aliases_made_from. intros H1 H2.
  rewrite fmap_app, H1, H2, length_app, seq_app, fmap_app. reflexivity.
Qed.

Lemma aliases_made_from_cons (n : nat) (k : string) (r : Attr) (t : Entity)
    (l : JoinDict) :
  aliases_made_from (S n) l ->
  aliases_made_from n ((k, (r, Aliased n t)) :: l).
Proof.
  unfold aliases_made_from. intros H. rewrite fmap_cons, H. reflexivity.
Qed.

(** The aliases of such a dictionary are pairwise distinct. *)
Lemma aliases_made_from_NoDup (n : nat) (joins : JoinDict) :
  aliases_made_from n joins -> NoDup (join_clauses joins).*1.
Proof.
  unfold aliases_made_from. intros H.
  assert (Hids : alias_id <$> (join_clauses joins).*1
                 = Some <$> seq n (List.length joins)).
  { rewrite <- H. unfold join_clauses. clear H.
    induction joins as [|[k [r m]] joins IH]; simpl; [reflexivity|].
    f_equal. exact IH. }
  eapply (NoDup_fmap_1 alias_id). rewrite Hids.
  apply NoDup_fmap_2; [intros x y [= ->]; reflexivity|].
  apply NoDup_ListNoDup, List.seq_NoDup.
Qed.

Lemma joins_extended_refl (j : JoinDict) (w : World) :
  joins_extended [] j w j w.
Proof.
  exists []. rewrite app_nil_r. simpl.
  split; [reflexivity|]. split.
  - intros k. split; [intros H; inversion H | intros [H _]; inversion H].
  - split; [apply aliases_made_from_nil|].
    split; [constructor | lia].
Qed.

Lemma joins_extended_trans (ks1 ks2 : list string) (j j1 j2 : JoinDict)
    (w w1 w2 : World) :
  joins_extended ks1 j w j1 w1 ->
  joins_extended ks2 j1 w1 j2 w2 ->
  joins_extended (ks1 ++ ks2) j w j2 w2.
Proof.
  intros (n1 & -> & K1 & A1 & R1 & C1) (n2 & -> & K2 & A2 & R2 & C2).
  exists (n1 ++ n2). rewrite app_assoc. split; [reflexivity|].
  split; [|split; [|split]].
  - intros k. rewrite fmap_app, !elem_of_app, K1, K2, fmap_app, elem_of_app, K1.
    destruct (decide (k ∈ ks1)); tauto.
  - apply aliases_made_from_app; [exact A1|]. rewrite <- C1. exact A2.
  - apply Forall_app. auto.
  - rewrite length_app. lia.
Qed.

Lemma dicts_in_step_lookup (j : JoinDict) (a : gmap string ModelRef) (k : string) :
  dicts_in_step j a -> (a !! k = None <-> k ∉ j.*1).
Proof.
  intros [_ ->]. rewrite <- not_elem_of_list_to_map, alias_entries_keys.
  reflexivity.
Qed.

Lemma dicts_in_step_snoc (j : JoinDict) (a : gmap string ModelRef)
    (k : string) (r : Attr) (m : ModelRef) :
  dicts_in_step j a -> a !! k = None ->
  dict_set k (r, m) j = j ++ [(k, (r, m))]
  /\ dicts_in_step (j ++ [(k, (r, m))]) (<[k := m]> a).
Proof.
  intros Hstep Hk.
  pose proof (proj1 (dicts_in_step_lookup j a k Hstep) Hk) as Hnot.
  split; [apply dict_set_new; exact Hnot|].
  destruct Hstep as [Hnd ->]. split.
  - rewrite fmap_app. apply NoDup_app. split; [exact Hnd|].
    split; [|apply NoDup_singleton].
    intros x Hx Hx'. apply list_elem_of_singleton in Hx'. subst x.
    contradiction.
  - unfold alias_entries. rewrite fmap_app. simpl.
    rewrite list_to_map_snoc; [reflexivity|].
    fold (alias_entries j). rewrite alias_entries_keys. exact Hnot.
Qed.

Lemma dicts_in_step_empty : dicts_in_step [] ∅.
Proof. split; [constructor | reflexivity]. Qed.

Lemma elem_of_prefixes (paths : list string) (k : string) :
  k ∈ paths ≫= relation_prefixes
  <-> exists p, p ∈ paths /\ k ∈ relation_prefixes p.
Proof.
  rewrite list_elem_of_bind. split; intros (p & H1 & H2); eauto.
Qed.

(** A phase that starts from empty dictionaries. *)
Lemma joins_extended_phase (paths : list string) (j' : JoinDict)
    (a' : gmap string ModelRef) (w w' : World) :
  dicts_in_step j' a' ->
  joins_extended (paths ≫= relation_prefixes) [] w j' w' ->
  phase_joins paths w w' j'.
Proof.
  intros [Hnd _] (new & -> & K & A & R & C). simpl in *.
  split; [|auto]. split; [exact Hnd|].
  intros k. rewrite K, elem_of_prefixes. split; [tauto|].
  intros H. split; [exact H|]. intros Hin. inversion Hin.
Qed.

Lemma join_clauses_app (l1 l2 : JoinDict) :
  join_clauses (l1 ++ l2) = join_clauses l1 ++ join_clauses l2.
Proof. unfold join_clauses. apply map_app. Qed.

Lemma ordering_joins_nil (request_data : DataTablesRequest) (w : World) :
  ordering_joins request_data [] w w [].
Proof.
  split; [constructor|]. split; [apply aliases_made_from_nil|].
  split; [constructor | simpl; lia].
Qed.

Lemma ordering_joins_cons (request_data : DataTablesRequest) (key : OrderSpec)
    (keys : list OrderSpec) (col : DataTablesColumn)
    (columns : list DataTablesColumn) (w w1 w' : World) (joins : JoinDict)
    (per_key : list JoinDict) :
  rq_columns request_data = Some columns ->
  py_index columns (ord_column key) = Some col ->
  phase_joins [col_name col] w w1 joins ->
  ordering_joins request_data keys w1 w' per_key ->
  ordering_joins request_data (key :: keys) w w' (joins :: per_key).
Proof.
  intros Hcols Hidx (Hp & A & R & C) (F & A' & R' & C').
  split; [|split; [|split]].
  - constructor; [|exact F]. exists columns, col. auto.
  - simpl. apply aliases_made_from_app; [exact A|]. rewrite <- C. exact A'.
  - simpl. apply Forall_app. auto.
  - simpl. rewrite length_app. lia.
Qed.

(** The relation prefixes of a path are the joined first parts, one, two,
    ... up to all but the last. *)
Lemma prefixes_from_take (parts : list string) :
  forall current_path,
    prefixes_from current_path parts =
    (fun n => PyStr.join "." (current_path ++ take n parts))
      <$> seq 1 (List.length parts - 1).
Proof.
  induction parts as [|x rest IH]; intros cp; [reflexivity|].
  destruct rest as [|y rest]; [reflexivity|].
  change (prefixes_from cp (x :: y :: rest)) with
    (PyStr.join "." (cp ++ [x]) :: prefixes_from (cp ++ [x]) (y :: rest)).
  rewrite IH. simpl List.length. rewrite !Nat.sub_succ, !Nat.sub_0_r.
  change (seq 1 (S (List.length rest))) with (1%nat :: seq 2 (List.length rest)).
  rewrite fmap_cons. f_equal.
  rewrite <- (fmap_S_seq 1), <- list_fmap_compose.
  apply list_fmap_ext. intros i n _. simpl. rewrite <- app_assoc. reflexivity.
Qed.

Lemma relation_prefixes_take (column_path : string) :
  relation_prefixes column_path =
  (fun n => PyStr.join "." (take n (path_of column_path)))
    <$> seq 1 (List.length (path_of column_path) - 1).
Proof. apply (prefixes_from_take (path_of column_path) []). Qed.

(** A phase adds as many JOIN clauses as its paths have distinct relation
    prefixes, and no two of them on the same alias. *)
Lemma phase_joins_count (paths : list string) (w w' : World) (joins : JoinDict) :
  phase_joins paths w w' joins ->
  List.length (join_clauses joins)
  = List.length (remove_dups (paths ≫= relation_prefixes))
  /\ NoDup (join_clauses joins).*1.
Proof.
  intros ([Hnd Hkeys] & A & _ & _). split.
  - unfold join_clauses. rewrite length_map, <- (length_fmap fst joins).
    apply Permutation_length, NoDup_Permutation;
      [exact Hnd | apply NoDup_remove_dups|].
    intros k. rewrite elem_of_remove_dups, Hkeys, elem_of_prefixes.
    reflexivity.
  - eapply aliases_made_from_NoDup. exact A.
Qed.

Section Aliases.

Context (schema : Schema).

(** One resolution, through dictionaries that are in step: the entries
    there are kept; every relation prefix of the path that had no entry
    gets one, on an alias made for it. *)
Lemma resolve_loop_extends (parts : list string) :
  forall cm cp ca j a w r j' a' w',
    resolve_loop schema parts cm cp ca j a w = (Ok (r, j', a'), w') ->
    dicts_in_step j a ->
    dicts_in_step j' a'
    /\ joins_extended (prefixes_from cp parts) j w j' w'.
Proof.
  induction parts as [|part rest IH]; intros cm cp ca j a w r j' a' w' H Hstep.
  - simpl in H. injection H as <- <- <- <-.
    split; [exact Hstep | apply joins_extended_refl].
  - destruct rest as [|r0 rest].
    + rewrite resolve_loop_last in H.
      destruct (schema (class_of cm) part); [|discriminate].
      injection H as <- <- <- <-.
      split; [exact Hstep | apply joins_extended_refl].
    + rewrite resolve_loop_relation in H. cbv zeta in H.
      change (prefixes_from cp (part :: r0 :: rest)) with
        (PyStr.join "." (cp ++ [part])
         :: prefixes_from (cp ++ [part]) (r0 :: rest)).
      set (k0 := PyStr.join "." (cp ++ [part])) in *.
      destruct (a !! k0) as [m|] eqn:Hk.
      * apply IH in H as (Hstep' & new & -> & K & A & R & C); [|exact Hstep].
        split; [exact Hstep'|]. exists new.
        split; [reflexivity|]. split; [|auto].
        intros k. rewrite K, elem_of_cons.
        assert (Hin : k0 ∈ j.*1).
        { destruct (decide (k0 ∈ j.*1)) as [Hin|Hnot]; [exact Hin|].
          apply (dicts_in_step_lookup j a k0 Hstep) in Hnot. congruence. }
        split; [tauto|]. intros [[-> | Hk'] Hnot]; [contradiction | tauto].
      * destruct (schema (class_of cm) part) as [[t| |]|]; try discriminate.
        destruct (dicts_in_step_snoc j a k0
                    (mkAttr cm part (Relationship t))
                    (Aliased (next_alias w) t) Hstep Hk) as [Hset Hstep1].
        rewrite Hset in H.
        apply IH in H as (Hstep' & new & -> & K & A & R & C); [|exact Hstep1].
        split; [exact Hstep'|].
        exists ((k0, (mkAttr cm part (Relationship t),
                      Aliased (next_alias w) t)) :: new).
        rewrite <- app_assoc. split; [reflexivity|].
        pose proof (proj1 (dicts_in_step_lookup j a k0 Hstep) Hk) as Hnot0.
        split; [|split; [|split]].
        -- intros k. rewrite fmap_cons, !elem_of_cons, K.
           assert (Hsn : k ∈ (j ++ [(k0, (mkAttr cm part (Relationship t),
                                          Aliased (next_alias w) t))]).*1
                         <-> k ∈ j.*1 \/ k = k0).
           { rewrite fmap_app, elem_of_app. simpl.
             rewrite list_elem_of_singleton. reflexivity. }
           rewrite Hsn. simpl.
           destruct (decide (k = k0)) as [->|Hne]; tauto.
        -- apply aliases_made_from_cons. exact A.
        -- constructor; [reflexivity | exact R].
        -- simpl in C. simpl. lia.
Qed.

(** The attribute a resolution returns is read on the alias registered for
    the longest relation prefix of the path, and on the model the
    resolution started from when the path has one part. *)
Lemma resolve_loop_owner (parts : list string) :
  forall cm cp ca j a w attr j' a' w',
    parts <> [] ->
    resolve_loop schema parts cm cp ca j a w = (Ok (Some attr, j', a'), w') ->
    match last (prefixes_from cp parts) with
    | None => attr_owner attr = cm
    | Some prefix => a' !! prefix = Some (attr_owner attr)
    end.
Proof.
  induction parts as [|part rest IH];
    intros cm cp ca j a w attr j' a' w' Hne H; [congruence|].
  destruct rest as [|r0 rest].
  - rewrite resolve_loop_last in H.
    destruct (schema (class_of cm) part); [|discriminate].
    injection H as <- <- <- <-. reflexivity.
  - rewrite resolve_loop_relation in H. cbv zeta in H.
    change (prefixes_from cp (part :: r0 :: rest)) with
      (PyStr.join "." (cp ++ [part])
       :: prefixes_from (cp ++ [part]) (r0 :: rest)).
    rewrite last_cons.
    set (k0 := PyStr.join "." (cp ++ [part])) in *.
    destruct (a !! k0) as [m|] eqn:Hk.
    + pose proof (resolve_loop_again schema _ _ _ _ _ _ _ _ _ _ _ H)
        as (Hsub & _).
      apply IH in H; [|discriminate].
      destruct (last (prefixes_from (cp ++ [part]) (r0 :: rest)));
        [exact H|].
      rewrite H. eapply lookup_weaken; eassumption.
    + destruct (schema (class_of cm) part) as [[t| |]|]; try discriminate.
      pose proof (resolve_loop_again schema _ _ _ _ _ _ _ _ _ _ _ H)
        as (Hsub & _).
      apply IH in H; [|discriminate].
      destruct (last (prefixes_from (cp ++ [part]) (r0 :: rest)));
        [exact H|].
      rewrite H. eapply lookup_weaken; [apply lookup_insert_eq | exact Hsub].
Qed.

Lemma resolve_column_extends (model : ModelRef) (column_path : string)
    (j j' : JoinDict) (a a' : gmap string ModelRef) (w w' : World)
    (r : option Attr) :
  resolve_column schema model column_path j a w = (Ok (r, j', a'), w') ->
  dicts_in_step j a ->
  dicts_in_step j' a'
  /\ joins_extended (relation_prefixes column_path) j w j' w'.
Proof. unfold resolve_column. apply resolve_loop_extends. Qed.

Lemma get_filtered_query_loop_extends (columns : list DataTablesColumn) :
  forall model sv conds j a w conds' j' a' w',
    get_filtered_query_loop schema columns model sv conds j a w
      = (Ok (conds', j', a'), w') ->
    dicts_in_step j a ->
    dicts_in_step j' a'
    /\ joins_extended
         ((col_name <$> List.filter col_searchable columns)
            ≫= relation_prefixes) j w j' w'.
Proof.
  induction columns as [|col rest IH];
    intros model sv conds j a w conds' j' a' w' H Hstep; simpl in H.
  - injection H as <- <- <- <-.
    split; [exact Hstep | apply joins_extended_refl].
  - simpl. destruct (col_searchable col); [|exact (IH _ _ _ _ _ _ _ _ _ _ H Hstep)].
    apply bind_Ok in H as ([[c1 j1] a1] & w1 & Hcol & H).
    apply except_Ok in Hcol.
    apply bind_Ok in Hcol as ([[ca j2] a2] & w2 & Hres & Hcol).
    apply (resolve_column_extends _ (col_name col)) in Hres as [Hstep2 Hext];
      [|exact Hstep].
    assert (j1 = j2 /\ a1 = a2 /\ w1 = w2) as (-> & -> & ->).
    { destruct ca as [ca|]; [|injection Hcol as <- <- <- <-; auto].
      destruct (attr_type ca) as [ty|]; [|injection Hcol as <- <- <- <-; auto].
      destruct (is_string_type ty); injection Hcol as <- <- <- <-; auto. }
    apply IH in H as [Hstep' Hext']; [|exact Hstep2].
    split; [exact Hstep'|].
    rewrite fmap_cons, bind_cons.
    eapply joins_extended_trans; eassumption.
Qed.

Lemma global_filter_loop_extends (columns : list DataTablesColumn) :
  forall model sv conds j a w conds' j' a' w',
    global_filter_loop schema columns model sv conds j a w
      = (Ok (conds', j', a'), w') ->
    dicts_in_step j a ->
    dicts_in_step j' a'
    /\ joins_extended
         ((col_name <$> List.filter col_searchable columns)
            ≫= relation_prefixes) j w j' w'.
Proof.
  induction columns as [|col rest IH];
    intros model sv conds j a w conds' j' a' w' H Hstep; simpl in H.
  - injection H as <- <- <- <-.
    split; [exact Hstep | apply joins_extended_refl].
  - simpl. destruct (col_searchable col); [|exact (IH _ _ _ _ _ _ _ _ _ _ H Hstep)].
    apply bind_Ok in H as ([[c1 j1] a1] & w1 & Hcol & H).
    apply except_Ok in Hcol.
    apply bind_Ok in Hcol as ([[ca j2] a2] & w2 & Hres & Hcol).
    apply resolve_column_extends in Hres as [Hstep2 Hext]; [|exact Hstep].
    assert (j1 = j2 /\ a1 = a2 /\ w1 = w2) as (-> & -> & ->).
    { destruct ca as [ca|]; [|injection Hcol as <- <- <- <-; auto].
      destruct (build_condition ca CONTAINS sv);
        injection Hcol as <- <- <- <-; auto. }
    apply IH in H as [Hstep' Hext']; [|exact Hstep2].
    split; [exact Hstep'|].
    rewrite fmap_cons, bind_cons.
    eapply joins_extended_trans; eassumption.
Qed.

Lemma column_filter_loop_extends (columns : list DataTablesColumn) :
  forall model conds j a w conds' j' a' w',
    column_filter_loop schema columns model conds j a w
      = (Ok (conds', j', a'), w') ->
    dicts_in_step j a ->
    dicts_in_step j' a'
    /\ joins_extended
         ((col_name <$> filtering_columns columns) ≫= relation_prefixes)
         j w j' w'.
Proof.
  induction columns as [|col rest IH];
    intros model conds j a w conds' j' a' w' H Hstep; simpl in H.
  - injection H as <- <- <- <-.
    split; [exact Hstep | apply joins_extended_refl].
  - unfold filtering_columns. simpl. fold (filtering_columns rest).
    destruct (col_searchable col); simpl in *;
      [|exact (IH _ _ _ _ _ _ _ _ _ H Hstep)].
    destruct (PyStr.nonempty (filter_value col)); simpl in *;
      [|exact (IH _ _ _ _ _ _ _ _ _ H Hstep)].
    apply bind_Ok in H as ([[c1 j1] a1] & w1 & Hcol & H).
    apply except_Ok in Hcol.
    apply bind_Ok in Hcol as ([[ca j2] a2] & w2 & Hres & Hcol).
    apply resolve_column_extends in Hres as [Hstep2 Hext]; [|exact Hstep].
    assert (j1 = j2 /\ a1 = a2 /\ w1 = w2) as (-> & -> & ->).
    { destruct ca as [ca|]; [|injection Hcol as <- <- <- <-; auto].
      destruct (build_condition ca CONTAINS (filter_value col));
        injection Hcol as <- <- <- <-; auto. }
    apply IH in H as [Hstep' Hext']; [|exact Hstep2].
    split; [exact Hstep'|].
    eapply joins_extended_trans; eassumption.
Qed.

(** The resolution of one order key, from empty dictionaries. *)
Lemma resolve_loop_key (model : ModelRef) (column_path : string)
    (w w' : World) (r : option Attr) (j : JoinDict)
    (a : gmap string ModelRef) :
  resolve_loop schema (PyStr.split_on "." column_path) model [] None [] ∅ w
    = (Ok (r, j, a), w') ->
  phase_joins [column_path] w w' j.
Proof.
  intros H.
  destruct (resolve_column_extends model column_path [] j ∅ a w w' r H
              dicts_in_step_empty) as [Hstep Hext].
  apply (joins_extended_phase [column_path] j a); [exact Hstep|].
  simpl. rewrite app_nil_r. exact Hext.
Qed.

Lemma apply_ordering_loop_joins (orders : list OrderSpec) :
  forall model stmt request_data w stmt' w',
    apply_ordering_loop schema orders model stmt request_data w
      = (Ok stmt', w') ->
    exists per_key,
      ordering_joins request_data orders w w' per_key
      /\ sel_joins stmt' = sel_joins stmt ++ join_clauses (concat per_key).
Proof.
  induction orders as [|key rest IH];
    intros model stmt request_data w stmt' w' H; simpl in H.
  - injection H as <- <-. exists []. split; [apply ordering_joins_nil|].
    simpl. rewrite app_nil_r. reflexivity.
  - apply bind_Ok in H as (col & w1 & Hcol & H).
    apply column_at_Ok in Hcol as (-> & columns & Hcols & Hidx).
    apply bind_Ok in H as (s1 & w2 & Hs & H).
    apply except_Ok in Hs.
    apply bind_Ok in Hs as ([[oc j] a] & w3 & Hres & Hs).
    apply apply_direction_Ok in Hs as (attr & t & ty & Hoc & _ & _ & _ & ->).
    assert (w2 = w3) as ->.
    { destruct oc; simpl in Hoc; [injection Hoc as _ <-; reflexivity
                                 | discriminate]. }
    apply resolve_loop_key in Hres.
    apply IH in H as (per_key & Hjoins & Hsel).
    exists (j :: per_key). split.
    + eapply ordering_joins_cons; eassumption.
    + rewrite Hsel. simpl. rewrite join_clauses_app, apply_joins_clauses.
      rewrite <- app_assoc. reflexivity.
Qed.

Lemma order_column_loop_joins (orders : list OrderSpec) :
  forall model stmt request_data w stmt' w',
    order_column_loop schema orders model stmt request_data w
      = (Ok stmt', w') ->
    exists per_key,
      ordering_joins request_data
        (List.filter (key_kept request_data) orders) w w' per_key
      /\ sel_joins stmt' = sel_joins stmt ++ join_clauses (concat per_key).
Proof.
  induction orders as [|key rest IH];
    intros model stmt request_data w stmt' w' H; simpl in H.
  - injection H as <- <-. exists []. split; [apply ordering_joins_nil|].
    simpl. rewrite app_nil_r. reflexivity.
  - apply bind_Ok in H as (col & w1 & Hcol & H).
    apply column_at_Ok in Hcol as (-> & columns & Hcols & Hidx).
    simpl. unfold key_kept at 1. rewrite Hcols, Hidx.
    destruct (col_orderable col); simpl in *; [|exact (IH _ _ _ _ _ _ H)].
    destruct (PyStr.nonempty (col_name col)); simpl in *;
      [|exact (IH _ _ _ _ _ _ H)].
    apply bind_Ok in H as (s1 & w2 & Hs & H).
    apply except_Ok in Hs.
    apply bind_Ok in Hs as ([[oc j] a] & w3 & Hres & Hs).
    apply apply_direction_Ok in Hs as (attr & t & ty & Hoc & _ & _ & _ & ->).
    assert (w2 = w3) as ->.
    { destruct oc; simpl in Hoc; [injection Hoc as _ <-; reflexivity
                                 | discriminate]. }
    apply resolve_loop_key in Hres.
    apply IH in H as (per_key & Hjoins & Hsel).
    exists (j :: per_key). split.
    + eapply ordering_joins_cons; eassumption.
    + rewrite Hsel. simpl. rewrite join_clauses_app, apply_joins_clauses.
      rewrite <- app_assoc. reflexivity.
Qed.

(** C2, as the code has it: one alias per relation prefix within a phase,
    and a new one in every other phase.

    A resolution keeps every alias a prefix already has and keeps the
    join keys apart; resolving the same path again through the
    dictionaries it left returns the same attribute and adds no alias and
    no join; the attribute it returns is read on the alias registered for
    the longest relation prefix of the path; and through dictionaries that
    are in step, it adds one entry, on an alias made for it, for each
    relation prefix of the path that had none, and nothing else.

    Each filter phase ([get_filtered_query], [global_filter],
    [column_filter]) resolves all its columns through one pair of
    dictionaries that starts empty: the joins it adds to the statement are
    those of a dictionary that holds exactly the relation prefixes of the
    paths the phase resolves, each once, each on an alias made during the
    phase, and the phase makes no other alias.

    Each order key, in [apply_ordering] and in [order_column], is a phase
    of its own: it adds the joins of a dictionary that holds exactly the
    relation prefixes of its own path, on aliases made for this key, also
    when an earlier key has joined the same prefix. *)
Theorem C2_one_alias_per_prefix_in_a_phase :
  (forall model column_path j a w r j' a' w',
     resolve_column schema model column_path j a w = (Ok (r, j', a'), w') ->
     a ⊆ a'
     /\ (NoDup j.*1 -> NoDup j'.*1)
     /\ resolve_column schema model column_path j' a' w'
        = (Ok (r, j', a'), w')
     /\ (forall attr,
           r = Some attr ->
           match last (relation_prefixes column_path) with
           | None => attr_owner attr = model
           | Some prefix => a' !! prefix = Some (attr_owner attr)
           end)
     /\ (dicts_in_step j a ->
         dicts_in_step j' a'
         /\ joins_extended (relation_prefixes column_path) j w j' w'))
  /\ (forall self stmt request_data w stmt' w',
        get_filtered_query schema self stmt request_data w = (Ok stmt', w') ->
        exists joins,
          phase_joins (searched_paths request_data) w w' joins
          /\ sel_joins stmt' = sel_joins stmt ++ join_clauses joins)
  /\ (forall search_value stmt columns model w stmt' w',
        global_filter schema search_value stmt columns model w = (Ok stmt', w') ->
        exists joins,
          phase_joins (global_filter_paths search_value columns) w w' joins
          /\ sel_joins stmt' = sel_joins stmt ++ join_clauses joins)
  /\ (forall stmt columns model w stmt' w',
        column_filter schema stmt columns model w = (Ok stmt', w') ->
        exists joins,
          phase_joins (col_name <$> filtering_columns columns) w w' joins
          /\ sel_joins stmt' = sel_joins stmt ++ join_clauses joins)
  /\ (forall self stmt request_data w stmt' w',
        apply_ordering schema self stmt request_data w = (Ok stmt', w') ->
        exists per_key,
          ordering_joins request_data (default [] (rq_order request_data))
            w w' per_key
          /\ sel_joins stmt' = sel_joins stmt ++ join_clauses (concat per_key))
  /\ (forall model stmt request_data w stmt' w',
        order_column schema model stmt request_data w = (Ok stmt', w') ->
        exists per_key,
          ordering_joins request_data
            (List.filter (key_kept request_data)
               (default [] (rq_order request_data))) w w' per_key
          /\ sel_joins stmt' = sel_joins stmt ++ join_clauses (concat per_key)).
Proof.
  assert (Hnone : forall paths stmt w,
             paths = [] ->
             exists joins,
               phase_joins paths w w joins
               /\ sel_joins stmt = sel_joins stmt ++ join_clauses joins).
  { intros paths stmt w ->. exists []. split.
    - apply (joins_extended_phase [] [] ∅);
        [apply dicts_in_step_empty | apply joins_extended_refl].
    - simpl. rewrite app_nil_r. reflexivity. }
  assert (Hnokey : forall request_data stmt w,
             exists per_key,
               ordering_joins request_data [] w w per_key
               /\ sel_joins stmt = sel_joins stmt ++ join_clauses (concat per_key)).
  { intros request_data stmt w. exists []. split; [apply ordering_joins_nil|].
    simpl. rewrite app_nil_r. reflexivity. }
  split; [|split; [|split; [|split; [|split]]]].
  - intros model column_path j a w r j' a' w' H.
    pose proof (resolve_loop_again schema _ _ _ _ _ _ _ _ _ _ _ H)
      as (Hsub & Hnd & Hagain).
    split; [exact Hsub|]. split; [exact Hnd|]. split; [exact Hagain|].
    split.
    + intros attr ->. unfold resolve_column in H.
      apply resolve_loop_owner in H; [exact H | apply split_on_nonempty].
    + intros Hstep. eapply resolve_column_extends; eassumption.
  - intros self stmt request_data w stmt' w' H.
    unfold get_filtered_query in H. unfold searched_paths.
    destruct (PyStr.nonempty _).
    + destruct (rq_columns request_data) as [columns|]; [|discriminate].
      apply bind_Ok in H as ([[conds j] a] & w1 & Hloop & H).
      apply get_filtered_query_loop_extends in Hloop as [Hstep Hext];
        [|apply dicts_in_step_empty].
      exists j. split.
      * assert (w' = w1) as ->
          by (destruct conds; injection H as _ <-; reflexivity).
        eapply joins_extended_phase; eassumption.
      * destruct conds; injection H as <- <-; simpl; apply apply_joins_clauses.
    + injection H as <- <-. apply Hnone. reflexivity.
  - intros search_value stmt columns model w stmt' w' H.
    unfold global_filter in H. unfold global_filter_paths.
    destruct (PyStr.nonempty _).
    + apply bind_Ok in H as ([[conds j] a] & w1 & Hloop & H).
      apply global_filter_loop_extends in Hloop as [Hstep Hext];
        [|apply dicts_in_step_empty].
      exists j. split.
      * assert (w' = w1) as ->
          by (destruct conds; injection H as _ <-; reflexivity).
        eapply joins_extended_phase; eassumption.
      * destruct conds; injection H as <- <-; simpl; apply apply_joins_clauses.
    + injection H as <- <-. apply Hnone. reflexivity.
  - intros stmt columns model w stmt' w' H. unfold column_filter in H.
    apply bind_Ok in H as ([[conds j] a] & w1 & Hloop & H).
    apply column_filter_loop_extends in Hloop as [Hstep Hext];
      [|apply dicts_in_step_empty].
    exists j. split.
    + assert (w' = w1) as ->
        by (destruct conds; injection H as _ <-; reflexivity).
      eapply joins_extended_phase; eassumption.
    + destruct conds; injection H as <- <-; simpl; apply apply_joins_clauses.
  - intros self stmt request_data w stmt' w' H. unfold apply_ordering in H.
    destruct (rq_order request_data) as [[|key rest]|]; simpl;
      try (injection H as <- <-; apply Hnokey).
    eapply apply_ordering_loop_joins. exact H.
  - intros model stmt request_data w stmt' w' H. unfold order_column in H.
    destruct (rq_order request_data) as [[|key rest]|];
      try (injection H as <- <-; apply Hnokey).
    eapply order_column_loop_joins. exact H.
Qed.

End Aliases.

Lemma C2_one_alias_per_prefix_in_a_phase_witness :
  let joins := [("author", (book_author, Aliased 0 "Author"))] in
  let aliases : gmap string ModelRef := {[ "author" := Aliased 0 "Author" ]} in
  let author_name := mkAttr (Aliased 0 "Author") "name" (Column TString) in
  (resolve_column library_schema (Mapped "Book") "author.name" joins aliases
     (mkWorld 1 [])
   = (Ok (Some author_name, joins, aliases), mkWorld 1 [])
   /\ aliases !! "author" = Some (Aliased 0 "Author")
   /\ dicts_in_step joins aliases
   /\ joins_extended ["author"] [] world0 joins (mkWorld 1 []))
  /\ (exists phase,
        phase_joins ["author.name"; "author.age"; "title"] world0
          (mkWorld 1 []) phase
        /\ [(Aliased 0 "Author", book_author)] = [] ++ join_clauses phase)
  /\ (exists per_key,
        ordering_joins same_prefix_keys_request
          [mkOrder 0 "asc"; mkOrder 1 "desc"] world0 (mkWorld 2 []) per_key
        /\ [(Aliased 0 "Author", book_author);
            (Aliased 1 "Author", book_author)]
           = [] ++ join_clauses (concat per_key)).
Proof.
  intros joins aliases author_name.
  destruct (C2_one_alias_per_prefix_in_a_phase library_schema)
    as (Hresolve & Hsearch & _ & _ & Hordering & _).
  split; [|split].
  - assert (Hrun : resolve_column library_schema (Mapped "Book") "author.name"
                     [] ∅ world0
                   = (Ok (Some author_name, joins, aliases), mkWorld 1 []))
      by (vm_compute; reflexivity).
    destruct (Hresolve _ _ _ _ _ _ _ _ _ Hrun)
      as (_ & _ & Hagain & Howner & Hstep).
    split; [exact Hagain|]. split; [exact (Howner author_name eq_refl)|].
    exact (Hstep dicts_in_step_empty).
  - exact (Hsearch book_tables (select "Book") same_prefix_search_request
             world0
             (stmt_where
                (stmt_join (select "Book") (Aliased 0 "Author") book_author)
                (Or_ [Ilike (ColumnRef (mkAttr (Aliased 0 "Author") "name"
                                          (Column TString))) "%smith%";
                      Ilike (ColumnRef (mkAttr (Mapped "Book") "title"
                                          (Column TString))) "%smith%"]))
             (mkWorld 1 []) eq_refl).
  - exact (Hordering book_tables (select "Book") same_prefix_keys_request
             world0
             (stmt_order_by
                (stmt_join
                   (stmt_order_by
                      (stmt_join (select "Book") (Aliased 0 "Author")
                         book_author)
                      (Asc (mkAttr (Aliased 0 "Author") "name"
                              (Column TString))))
                   (Aliased 1 "Author") book_author)
                (Desc (mkAttr (Aliased 1 "Author") "age" (Column TInteger))))
             (mkWorld 2 []) eq_refl).
Defined.


(** The claim C2 as stated fails across phases: with a global search and
    an order key on [author.name], the statement [process] executes joins
    the prefix [author] twice, under two aliases; the search predicate
    reads one alias and the ORDER BY term the other. *)
Lemma C2_counterexample :
  exists final w' resp,
    process library_schema book_tables shared_prefix_request world0
      = (Ok resp, w')
    /\ last (backend_calls w') = Some (ExecuteQuery final)
    /\ sel_joins final = [(Aliased 0 "Author", book_author);
                          (Aliased 1 "Author", book_author)]
    /\ sel_where final =
         [Or_ [Ilike (ColumnRef (mkAttr (Aliased 0 "Author") "name" (Column TString)))
                 "%smith%";
               Ilike (ColumnRef (mkAttr (Mapped "Book") "title" (Column TString)))
                 "%smith%"]]
    /\ sel_order_by final =
         [Desc (mkAttr (Aliased 1 "Author") "name" (Column TString))].
Proof.
  eexists _, (snd (process library_schema book_tables shared_prefix_request world0)),
    (mkResponse (Some 1) 3 3 (three_rows (select "Book"))).
  split; [reflexivity|]. split; [vm_compute; reflexivity|].
  repeat split; reflexivity.
Qed.

(** ** Paths the schema does not know *)

Section InvalidPaths.

Context (schema : Schema).

(** One guarded resolution, as each filter loop runs it. *)
Lemma guarded_resolution {B : Type} (root : Entity) (model : ModelRef)
    (column_path : string) (j : JoinDict) (a : gmap string ModelRef)
    (k : option Attr * JoinDict * gmap string ModelRef -> M B)
    (e : Exception) (w : World) :
  class_of model = root ->
  aliases_consistent schema root a ->
  if resolves schema root column_path then
    exists attr j' a' w',
      except_AttributeError
        (resolve_column schema model column_path j a ≫= k) (raise e) w
      = except_AttributeError (k (Some attr, j', a')) (raise e) w'
      /\ aliases_consistent schema root a'
  else
    exists w',
      except_AttributeError
        (resolve_column schema model column_path j a ≫= k) (raise e) w
      = (Raise e, w').
Proof.
  intros Hroot Hcons. unfold resolves.
  pose proof (resolve_column_walk schema root model column_path j a w Hroot Hcons)
    as H.
  destruct (walk schema root (path_of column_path)) as [member|].
  - destruct H as (attr & j' & a' & w' & Hrun & _ & Hcons').
    exists attr, j', a', w'. split; [|exact Hcons'].
    unfold except_AttributeError. rewrite bind_run, Hrun. reflexivity.
  - destruct H as (w' & Hrun). exists w'.
    unfold except_AttributeError. rewrite bind_run, Hrun. reflexivity.
Qed.

Lemma get_filtered_query_loop_run (root : Entity) (model : ModelRef)
    (sv : string) (columns : list DataTablesColumn) :
  class_of model = root ->
  forall conds j a w,
    aliases_consistent schema root a ->
    match find (unresolved_searchable schema root) columns with
    | Some bad =>
        exists w',
          get_filtered_query_loop schema columns model sv conds j a w
          = (Raise (InvalidColumnError ("Invalid column path: " +:+ col_name bad)), w')
    | None =>
        exists conds' j' a' w',
          get_filtered_query_loop schema columns model sv conds j a w
          = (Ok (conds', j', a'), w')
    end.
Proof.
  intros Hroot. induction columns as [|col rest IH]; intros conds j a w Hcons.
  - simpl. eauto.
  - simpl. unfold unresolved_searchable at 1.
    destruct (col_searchable col); simpl; [|apply IH; exact Hcons].
    rewrite bind_run.
    match goal with
    | |- context [except_AttributeError (?r ≫= ?k) (raise ?e) w] =>
        pose proof (guarded_resolution root model (col_name col) j a k e w
                      Hroot Hcons) as H
    end.
    unfold resolve_column in H.
    destruct (resolves schema root (col_name col)); simpl.
    + destruct H as (attr & j' & a' & w' & -> & Hcons').
      assert (Hstep : exists conds',
                 except_AttributeError
                   (let '(current_attr, joins, aliased_models) := (Some attr, j', a') in
                    match current_attr with
                    | Some current_attr =>
                        match attr_type current_attr with
                        | Some column_type =>
                            if is_string_type column_type then
                              mret (conds ++
                                      [Ilike (ColumnRef current_attr)
                                         ("%" +:+ sv +:+ "%")],
                                    joins, aliased_models)
                            else mret (conds, joins, aliased_models)
                        | None => mret (conds, joins, aliased_models)
                        end
                    | None => mret (conds, joins, aliased_models)
                    end)
                   (raise (InvalidColumnError ("Invalid column path: " +:+ col_name col)))
                   w' = (Ok (conds', j', a'), w')).
      { cbv beta iota. destruct (attr_type attr) as [ty|]; [|eauto].
        destruct (is_string_type ty); eauto. }
      destruct Hstep as (conds' & ->). apply IH. exact Hcons'.
    + destruct H as (w' & ->). eauto.
Qed.

Lemma global_filter_loop_run (root : Entity) (model : ModelRef)
    (sv : string) (columns : list DataTablesColumn) :
  class_of model = root ->
  forall conds j a w,
    aliases_consistent schema root a ->
    match find (unresolved_searchable schema root) columns with
    | Some bad =>
        exists w',
          global_filter_loop schema columns model sv conds j a w
          = (Raise (InvalidColumnError ("Invalid column path: " +:+ col_name bad)), w')
    | None =>
        exists conds' j' a' w',
          global_filter_loop schema columns model sv conds j a w
          = (Ok (conds', j', a'), w')
    end.
Proof.
  intros Hroot. induction columns as [|col rest IH]; intros conds j a w Hcons.
  - simpl. eauto.
  - simpl. unfold unresolved_searchable at 1.
    destruct (col_searchable col); simpl; [|apply IH; exact Hcons].
    rewrite bind_run.
    match goal with
    | |- context [except_AttributeError (?r ≫= ?k) (raise ?e) w] =>
        pose proof (guarded_resolution root model (col_name col) j a k e w
                      Hroot Hcons) as H
    end.
    destruct (resolves schema root (col_name col)); simpl.
    + destruct H as (attr & j' & a' & w' & -> & Hcons').
      cbv beta iota.
      destruct (build_condition attr CONTAINS sv); apply IH; exact Hcons'.
    + destruct H as (w' & ->). eauto.
Qed.

Lemma column_filter_loop_run (root : Entity) (model : ModelRef)
    (columns : list DataTablesColumn) :
  class_of model = root ->
  forall conds j a w,
    aliases_consistent schema root a ->
    match find (unresolved_filtered schema root) columns with
    | Some bad =>
        exists w',
          column_filter_loop schema columns model conds j a w
          = (Raise (InvalidColumnError ("Invalid column path: " +:+ col_name bad)), w')
    | None =>
        exists conds' j' a' w',
          column_filter_loop schema columns model conds j a w
          = (Ok (conds', j', a'), w')
    end.
Proof.
  intros Hroot. induction columns as [|col rest IH]; intros conds j a w Hcons.
  - simpl. eauto.
  - simpl. unfold unresolved_filtered at 1.
    destruct (col_searchable col); simpl; [|apply IH; exact Hcons].
    destruct (PyStr.nonempty (filter_value col)); simpl; [|apply IH; exact Hcons].
    rewrite bind_run.
    match goal with
    | |- context [except_AttributeError (?r ≫= ?k) (raise ?e) w] =>
        pose proof (guarded_resolution root model (col_name col) j a k e w
                      Hroot Hcons) as H
    end.
    destruct (resolves schema root (col_name col)); simpl.
    + destruct H as (attr & j' & a' & w' & -> & Hcons').
      cbv beta iota.
      destruct (build_condition attr CONTAINS (filter_value col));
        apply IH; exact Hcons'.
    + destruct H as (w' & ->). eauto.
Qed.

(** An order key on a column the schema gives no meaning. *)
Lemma apply_ordering_invalid_first (self : DataTables) (stmt : Select)
    (request_data : DataTablesRequest) (order : OrderSpec)
    (rest : list OrderSpec) (col : DataTablesColumn) (w : World) :
  rq_order request_data = Some (order :: rest) ->
  column_at request_data (ord_column order) w = (Ok col, w) ->
  resolves schema (dt_model self) (col_name col) = false ->
  exists w',
    apply_ordering schema self stmt request_data w
    = (Raise (InvalidColumnError ("Invalid column for ordering: " +:+ col_name col)),
       w').
Proof.
  intros Horder Hcol Hbad. unfold apply_ordering. rewrite Horder. simpl.
  rewrite bind_run, Hcol. rewrite bind_run.
  match goal with
  | |- context [except_AttributeError (?r ≫= ?k) (raise ?e) w] =>
      pose proof (guarded_resolution (dt_model self) (Mapped (dt_model self))
                    (col_name col) [] ∅ k e w eq_refl
                    (aliases_consistent_empty schema _)) as H
  end.
  rewrite Hbad in H. destruct H as (w' & H). unfold resolve_column in H.
  rewrite H. eauto.
Qed.

(** A path whose first part is not an attribute of the class. *)
Lemma unknown_relation_unresolved (cls : Entity) (column_path : string) :
  schema cls (hd EmptyString (path_of column_path)) = None ->
  resolves schema cls column_path = false.
Proof.
  unfold resolves. pose proof (split_on_nonempty "." column_path) as Hne.
  unfold path_of. destruct (PyStr.split_on "." column_path) as [|p [|q rest]];
    [congruence| |]; simpl; intros ->; reflexivity.
Qed.

(** C6: a searchable column whose path has a part that is not a
    relationship (before the last part) or not an attribute (the last part)
    makes every filter phase raise [InvalidColumnError] with the path of
    such a column in its message: [process] with a non-empty search value
    raises it and makes no backend call after the total count (so nothing
    is counted as filtered and nothing is executed), and [global_filter] and
    [column_filter] raise it and return no statement. *)
Theorem C6_invalid_path_aborts (self : DataTables)
    (columns : list DataTablesColumn) (col : DataTablesColumn) :
  In col columns ->
  col_searchable col = true ->
  resolves schema (dt_model self) (col_name col) = false ->
  (forall request_data w,
     PyStr.nonempty (search_value_of request_data) = true ->
     rq_columns request_data = Some columns ->
     exists bad w',
       In bad columns /\ col_searchable bad = true
       /\ resolves schema (dt_model self) (col_name bad) = false
       /\ process schema self request_data w
          = (Raise (InvalidColumnError ("Invalid column path: " +:+ col_name bad)), w')
       /\ backend_calls w' =
          backend_calls w ++ [GetTotalRecords (base_query self)])
  /\ (forall search_value stmt w,
        PyStr.nonempty search_value = true ->
        exists bad w',
          In bad columns /\ col_searchable bad = true
          /\ resolves schema (dt_model self) (col_name bad) = false
          /\ global_filter schema search_value stmt columns
               (Mapped (dt_model self)) w
             = (Raise (InvalidColumnError ("Invalid column path: " +:+ col_name bad)), w'))
  /\ (forall stmt w,
        PyStr.nonempty (filter_value col) = true ->
        exists bad w',
          In bad columns /\ col_searchable bad = true
          /\ resolves schema (dt_model self) (col_name bad) = false
          /\ column_filter schema stmt columns (Mapped (dt_model self)) w
             = (Raise (InvalidColumnError ("Invalid column path: " +:+ col_name bad)), w')).
Proof.
  intros Hin Hsearch Hbad.
  assert (Hfind : exists bad,
             find (unresolved_searchable schema (dt_model self)) columns = Some bad
             /\ In bad columns /\ col_searchable bad = true
             /\ resolves schema (dt_model self) (col_name bad) = false).
  { destruct (find (unresolved_searchable schema (dt_model self)) columns)
      as [bad|] eqn:Hf.
    - exists bad. split; [reflexivity|].
      apply find_some in Hf as [Hin' Hb]. unfold unresolved_searchable in Hb.
      apply andb_true_iff in Hb as [H1 H2]. apply negb_true_iff in H2. auto.
    - pose proof (find_none _ _ Hf col Hin) as Hn.
      unfold unresolved_searchable in Hn. rewrite Hsearch, Hbad in Hn.
      discriminate. }
  destruct Hfind as (bad & Hfind & Hbin & Hbs & Hbr).
  split; [|split].
  - intros request_data w Hnonempty Hcols.
    pose proof (get_filtered_query_loop_run (dt_model self)
                  (Mapped (dt_model self)) (search_value_of request_data)
                  columns eq_refl [] [] ∅
                  (mkWorld (next_alias w)
                     (backend_calls w ++ [GetTotalRecords (base_query self)]))
                  (aliases_consistent_empty schema _)) as Hloop.
    rewrite Hfind in Hloop. destruct Hloop as (w' & Hloop).
    exists bad, w'. repeat (split; [assumption|]).
    assert (Hq : get_filtered_query schema self (base_query self) request_data
                   (mkWorld (next_alias w)
                      (backend_calls w ++ [GetTotalRecords (base_query self)]))
                 = (Raise (InvalidColumnError
                             ("Invalid column path: " +:+ col_name bad)), w')).
    { unfold get_filtered_query. rewrite Hnonempty, Hcols, bind_run, Hloop.
      reflexivity. }
    split.
    + unfold process. rewrite bind_run, get_query_run, bind_run.
      unfold call_backend at 1. cbv beta iota. rewrite bind_run, Hq. reflexivity.
    + apply (quiet_run _ _ _ _ (quiet_get_filtered_query schema _ _ _)) in Hq.
      exact Hq.
  - intros search_value stmt w Hnonempty.
    pose proof (global_filter_loop_run (dt_model self) (Mapped (dt_model self))
                  search_value columns eq_refl [] [] ∅ w
                  (aliases_consistent_empty schema _)) as Hloop.
    rewrite Hfind in Hloop. destruct Hloop as (w' & Hloop).
    exists bad, w'. repeat (split; [assumption|]).
    unfold global_filter. rewrite Hnonempty, bind_run, Hloop. reflexivity.
  - intros stmt w Hvalue.
    pose proof (column_filter_loop_run (dt_model self) (Mapped (dt_model self))
                  columns eq_refl [] [] ∅ w
                  (aliases_consistent_empty schema _)) as Hloop.
    destruct (find (unresolved_filtered schema (dt_model self)) columns)
      as [bad'|] eqn:Hf.
    + destruct Hloop as (w' & Hloop).
      apply find_some in Hf as [Hin' Hb]. unfold unresolved_filtered in Hb.
      apply andb_true_iff in Hb as [H1 H2]. apply andb_true_iff in H1 as [H1 H3].
      apply negb_true_iff in H2.
      exists bad', w'. repeat (split; [assumption|]).
      unfold column_filter. rewrite bind_run, Hloop. reflexivity.
    + pose proof (find_none _ _ Hf col Hin) as Hn.
      unfold unresolved_filtered in Hn. rewrite Hsearch, Hvalue, Hbad in Hn.
      discriminate.
Qed.

End InvalidPaths.

Lemma C6_invalid_path_aborts_witness :
  resolves library_schema "Book" "missing.field" = false
  /\ exists w',
       process library_schema book_tables missing_field_request world0
       = (Raise (InvalidColumnError "Invalid column path: missing.field"), w')
       /\ backend_calls w' = [GetTotalRecords (select "Book")].
Proof.
  split; [apply unknown_relation_unresolved; reflexivity|].
  destruct (C6_invalid_path_aborts library_schema book_tables
              [mkColumn "title" true true no_search;
               mkColumn "missing.field" true true no_search]
              (mkColumn "missing.field" true true no_search)
              (or_intror (or_introl eq_refl)) eq_refl eq_refl) as [H _].
  destruct (H missing_field_request world0 eq_refl eq_refl)
    as (bad & w' & _ & _ & _ & Hrun & Hlog).
  exists (snd (process library_schema book_tables missing_field_request world0)).
  split; [vm_compute; reflexivity|]. vm_compute. reflexivity.
Defined.

(** ** Order directions *)

Section Directions.

Context (schema : Schema).

Lemma apply_ordering_loop_app (pre : list OrderSpec) :
  forall post model stmt request_data w,
    apply_ordering_loop schema (pre ++ post) model stmt request_data w =
    (apply_ordering_loop schema pre model stmt request_data
       ≫= fun stmt' => apply_ordering_loop schema post model stmt' request_data) w.
Proof.
  induction pre as [|o pre IH]; intros post model stmt request_data w.
  - reflexivity.
  - simpl. rewrite !bind_run.
    destruct (column_at request_data (ord_column o) w) as [[col|e] w1];
      [|reflexivity].
    rewrite !bind_run.
    match goal with
    | |- context [except_AttributeError ?b ?h w1] =>
        destruct (except_AttributeError b h w1) as [[s|e] w2]
    end; [|reflexivity].
    rewrite IH. reflexivity.
Qed.

(** The ordering loop reads the columns of the request and nothing else. *)
Lemma apply_ordering_loop_columns (orders : list OrderSpec) :
  forall model stmt r r' w,
    rq_columns r = rq_columns r' ->
    apply_ordering_loop schema orders model stmt r w =
    apply_ordering_loop schema orders model stmt r' w.
Proof.
  induction orders as [|o orders IH]; intros model stmt r r' w Hcols;
    [reflexivity|].
  simpl. rewrite !bind_run. unfold column_at. rewrite Hcols.
  match goal with
  | |- match ?x with _ => _ end = _ => destruct x as [[col|e] w1]
  end; [|reflexivity].
  rewrite !bind_run.
  match goal with
  | |- context [except_AttributeError ?b ?h w1] =>
      destruct (except_AttributeError b h w1) as [[s|e] w2]
  end; [|reflexivity].
  apply IH. exact Hcols.
Qed.

Lemma apply_ordering_is_loop (self : DataTables) (stmt : Select)
    (request_data : DataTablesRequest) (orders : list OrderSpec) (w : World) :
  rq_order request_data = Some orders ->
  apply_ordering schema self stmt request_data w =
  apply_ordering_loop schema orders (Mapped (dt_model self)) stmt request_data w.
Proof.
  intros H. unfold apply_ordering. rewrite H. destruct orders; reflexivity.
Qed.

(** One order key with a direction that is neither ["asc"] nor ["desc"],
    on a column that resolves. *)
Lemma bad_direction_step (self : DataTables) (stmt : Select)
    (request_data : DataTablesRequest) (key : OrderSpec)
    (post : list OrderSpec) (columns : list DataTablesColumn)
    (col : DataTablesColumn) (w : World) :
  rq_columns request_data = Some columns ->
  py_index columns (ord_column key) = Some col ->
  resolves schema (dt_model self) (col_name col) = true ->
  ord_dir key <> "asc" -> ord_dir key <> "desc" ->
  exists w',
    apply_ordering_loop schema (key :: post) (Mapped (dt_model self)) stmt
      request_data w
    = (Raise (ConfigurationError ordering_message), w')
    /\ backend_calls w' = backend_calls w.
Proof.
  intros Hcols Hidx Hres Hasc Hdesc. simpl.
  rewrite bind_run. unfold column_at. rewrite Hcols, Hidx.
  change ((mret col : M _) w) with (Ok col, w). cbv beta iota.
  rewrite bind_run.
  match goal with
  | |- context [except_AttributeError (?r ≫= ?k) (raise ?e) w] =>
      pose proof (guarded_resolution schema (dt_model self) (Mapped (dt_model self))
                    (col_name col) [] ∅ k e w eq_refl
                    (aliases_consistent_empty schema _)) as H
  end.
  rewrite Hres in H. destruct H as (attr & j' & a' & w' & H & _).
  unfold resolve_column in H. rewrite H. cbv beta iota.
  unfold apply_direction.
  apply String.eqb_neq in Hasc, Hdesc. rewrite Hasc, Hdesc.
  exists w'. split; [reflexivity|].
  pose proof (quiet_resolve_loop schema (PyStr.split_on "." (col_name col))
                (Mapped (dt_model self)) [] None [] ∅) as Q.
  assert (Hq : quiet
                 (except_AttributeError
                    (resolve_loop schema (PyStr.split_on "." (col_name col))
                       (Mapped (dt_model self)) [] None [] ∅
                     ≫= fun x => let '(order_column, joins_for_order, _) := x in
                          apply_direction (apply_joins stmt joins_for_order)
                            (ord_dir key) (read_local order_column))
                    (raise (InvalidColumnError
                              ("Invalid column for ordering: " +:+ col_name col))))).
  { apply quiet_except; [|apply quiet_raise].
    apply quiet_bind; [exact Q|]. intros [[oc jj] aa].
    apply quiet_apply_direction, quiet_read_local. }
  specialize (Hq w). rewrite H in Hq. cbv beta iota in Hq.
  unfold apply_direction in Hq. rewrite Hasc, Hdesc in Hq. exact Hq.
Qed.

(** An order key whose direction is neither ["asc"] nor ["desc"] and whose
    column resolves, in a request that goes through without that key and
    the keys after it. *)
Lemma bad_direction_reached (self : DataTables)
    (request_data : DataTablesRequest) (pre post : list OrderSpec)
    (key : OrderSpec) (columns : list DataTablesColumn)
    (col : DataTablesColumn) (w w0 : World) (resp0 : DataTablesResponse) :
  rq_order request_data = Some (pre ++ key :: post) ->
  process schema self (with_order request_data pre) w = (Ok resp0, w0) ->
  rq_columns request_data = Some columns ->
  py_index columns (ord_column key) = Some col ->
  resolves schema (dt_model self) (col_name col) = true ->
  ord_dir key <> "asc" ->
  ord_dir key <> "desc" ->
  exists counted w',
    process schema self request_data w
    = (Raise (ConfigurationError ordering_message), w')
    /\ backend_calls w' =
       backend_calls w ++ [GetTotalRecords (base_query self);
                           GetFilteredRecords counted].
Proof.
  intros Horder Hpre Hcols Hidx Hres Hasc Hdesc.
  apply process_Ok in Hpre as (counted & ordered & w1 & w2 & Hf & Ho & _ & _).
  change (get_filtered_query schema self (base_query self)
            (with_order request_data pre))
    with (get_filtered_query schema self (base_query self) request_data) in Hf.
  rewrite (apply_ordering_is_loop self counted (with_order request_data pre) pre)
    in Ho by reflexivity.
  rewrite (apply_ordering_loop_columns pre _ _ _ request_data) in Ho
    by reflexivity.
  destruct (bad_direction_step self ordered request_data key post columns col
              w2 Hcols Hidx Hres Hasc Hdesc) as (w' & Hstep & Hlog).
  exists counted, w'. split.
  - unfold process. rewrite bind_run, get_query_run, bind_run.
    unfold call_backend at 1. cbv beta iota. rewrite bind_run, Hf.
    rewrite bind_run. unfold call_backend at 1. cbv beta iota.
    rewrite bind_run, (apply_ordering_is_loop _ _ _ _ _ Horder).
    rewrite apply_ordering_loop_app, bind_run, Ho, Hstep. reflexivity.
  - rewrite Hlog.
    apply (quiet_run _ _ _ _ (quiet_apply_ordering_loop schema _ _ _ _)) in Ho.
    apply (quiet_run _ _ _ _ (quiet_get_filtered_query schema _ _ _)) in Hf.
    simpl in Ho, Hf. rewrite Ho, Hf, <- app_assoc. reflexivity.
Qed.

(** The ordering loop returns only when every key has one of the two
    directions. *)
Lemma apply_ordering_loop_Ok_directions (orders : list OrderSpec) :
  forall model stmt request_data w stmt' w',
    apply_ordering_loop schema orders model stmt request_data w = (Ok stmt', w') ->
    Forall (fun key => ord_dir key = "asc" \/ ord_dir key = "desc") orders.
Proof.
  induction orders as [|o rest IH]; intros model stmt request_data w stmt' w' H;
    [constructor|].
  simpl in H.
  apply bind_Ok in H as (col & w1 & _ & H).
  apply bind_Ok in H as (s1 & w2 & Hs & H).
  apply except_Ok in Hs.
  apply bind_Ok in Hs as ([[oc j] a] & w3 & _ & Hs).
  constructor; [|eapply IH; exact H].
  unfold apply_direction in Hs.
  destruct (String.eqb (ord_dir o) "asc") eqn:Ea;
    [left; apply String.eqb_eq; exact Ea|].
  destruct (String.eqb (ord_dir o) "desc") eqn:Ed;
    [right; apply String.eqb_eq; exact Ed | discriminate].
Qed.

(** C7: a request with an order key whose direction is neither ["asc"] nor
    ["desc"] gets no response from [process]: the call ends in an
    exception, so no ordering is applied for that key.  When the key is
    reached and its column resolves (the request goes through without that
    key and the keys after it), the exception is [ConfigurationError]; by
    then [process] has counted the total and the filtered records, and it
    executes no query. *)
Theorem C7_bad_direction_aborts (self : DataTables)
    (request_data : DataTablesRequest) (orders : list OrderSpec)
    (key : OrderSpec) :
  rq_order request_data = Some orders ->
  In key orders ->
  ord_dir key <> "asc" ->
  ord_dir key <> "desc" ->
  (forall w, exists e w', process schema self request_data w = (Raise e, w'))
  /\ (forall pre post columns col w w0 resp0,
        orders = pre ++ key :: post ->
        process schema self (with_order request_data pre) w = (Ok resp0, w0) ->
        rq_columns request_data = Some columns ->
        py_index columns (ord_column key) = Some col ->
        resolves schema (dt_model self) (col_name col) = true ->
        exists counted w',
          process schema self request_data w
          = (Raise (ConfigurationError ordering_message), w')
          /\ backend_calls w' =
             backend_calls w ++ [GetTotalRecords (base_query self);
                                 GetFilteredRecords counted]).
Proof.
  intros Horder Hin Hasc Hdesc. split.
  - intros w.
    destruct (process schema self request_data w) as [[resp|e] w'] eqn:Hrun;
      [|eauto].
    apply process_Ok in Hrun as (counted & ordered & w1 & w2 & _ & Ho & _).
    rewrite (apply_ordering_is_loop _ _ _ _ _ Horder) in Ho.
    apply apply_ordering_loop_Ok_directions in Ho.
    rewrite Forall_forall in Ho. destruct (Ho key) as [H|H]; try contradiction.
    apply list_elem_of_In. exact Hin.
  - intros pre post columns col w w0 resp0 -> Hpre Hcols Hidx Hres.
    eapply bad_direction_reached; eassumption.
Qed.

End Directions.

Lemma C7_bad_direction_aborts_witness :
  exists counted w',
    process student_schema student_tables sideways_request world0
    = (Raise (ConfigurationError ordering_message), w')
    /\ backend_calls w' =
       [GetTotalRecords (select "Student"); GetFilteredRecords counted].
Proof.
  set (before := process student_schema student_tables
                   (with_order sideways_request [mkOrder 1 "asc"]) world0).
  destruct (C7_bad_direction_aborts student_schema student_tables
              sideways_request [mkOrder 1 "asc"; mkOrder 0 "sideways"]
              (mkOrder 0 "sideways") eq_refl
              (or_intror (or_introl eq_refl))
              ltac:(discriminate) ltac:(discriminate)) as [_ H].
  exact (H [mkOrder 1 "asc"] []
           [mkColumn "age" true true no_search;
            mkColumn "name" true true no_search]
           (mkColumn "age" true true no_search) world0 (snd before)
           (mkResponse (Some 1) 3 3 (three_rows (select "Student")))
           eq_refl eq_refl eq_refl eq_refl eq_refl).
Defined.

(** ** The per-column filter stage *)

Section ColumnFilters.

Context (schema : Schema).

Lemma column_filter_loop_described (model : ModelRef)
    (columns : list DataTablesColumn) :
  forall conds j a w,
    column_filter_loop schema columns model conds j a w =
    ('(attrs, j', a') ← resolve_paths schema model (filtering_columns columns) j a;
     mret (conds ++ contains_predicates attrs, j', a')) w.
Proof.
  induction columns as [|col rest IH]; intros conds j a w.
  - simpl. rewrite bind_run, !mret_run. cbv beta iota.
    unfold contains_predicates. simpl. rewrite app_nil_r. reflexivity.
  - simpl. destruct (col_searchable col); simpl; [|apply IH].
    destruct (PyStr.nonempty (filter_value col)); simpl; [|apply IH].
    rewrite !bind_run. unfold except_AttributeError. rewrite bind_run.
    destruct (resolve_column schema model (col_name col) j a w)
      as [[[[attr j1] a1]|e] w1].
    + destruct attr as [ca|];
        [destruct (build_condition ca CONTAINS (filter_value col)) as [c|] eqn:Hb|];
        rewrite ?mret_run; cbv beta iota; rewrite IH, !bind_run;
        (destruct (resolve_paths schema model (filtering_columns rest) j1 a1 w1)
           as [[[[attrs j2] a2]|e] w2]; [|reflexivity]);
        cbv beta iota; rewrite ?mret_run; cbv beta iota; rewrite ?mret_run;
        unfold contains_predicates; simpl; rewrite ?Hb; simpl;
        rewrite <- ?app_assoc; reflexivity.
    + destruct e; reflexivity.
Qed.

Lemma column_filter_as_described (stmt : Select)
    (columns : list DataTablesColumn) (model : ModelRef) (w : World) :
  column_filter schema stmt columns model w =
  column_filter_described schema stmt columns model w.
Proof.
  unfold column_filter, column_filter_described.
  rewrite !bind_run, column_filter_loop_described, bind_run.
  destruct (resolve_paths schema model (filtering_columns columns) [] ∅ w)
    as [[[[attrs j] a]|e] w1]; [|reflexivity].
  cbv beta iota. change ((mret ?x : M _) ?w') with (Ok x, w').
  cbv beta iota. simpl.
  destruct (contains_predicates attrs); reflexivity.
Qed.

(** [column_filter] never reads the match mode of a column. *)
Lemma column_filter_ignores_match_mode (mode : option MatchMode)
    (stmt : Select) (columns : list DataTablesColumn) (model : ModelRef)
    (w : World) :
  column_filter schema stmt (map (with_match_mode mode) columns) model w =
  column_filter schema stmt columns model w.
Proof.
  unfold column_filter. rewrite !bind_run.
  assert (H : forall conds j a w0,
             column_filter_loop schema (map (with_match_mode mode) columns)
               model conds j a w0 =
             column_filter_loop schema columns model conds j a w0).
  { induction columns as [|col rest IH]; intros conds j a w0; [reflexivity|].
    simpl. destruct (col_searchable col); simpl; [|apply IH].
    change (filter_value (with_match_mode mode col)) with (filter_value col).
    destruct (PyStr.nonempty (filter_value col)); simpl; [|apply IH].
    rewrite !bind_run.
    match goal with
    | |- match ?x with _ => _ end = _ => destruct x as [[[[c1 j1] a1]|e] w1]
    end; [apply IH | reflexivity]. }
  rewrite H. reflexivity.
Qed.

End ColumnFilters.

(** ** What [core.py] reads of a request *)

Section CoreView.

Context (schema : Schema).

Lemma get_filtered_query_loop_same (model : ModelRef) (sv : string)
    (cs cs' : list DataTablesColumn) :
  Forall2 same_name_and_searchable cs cs' ->
  forall conds j a w,
    get_filtered_query_loop schema cs model sv conds j a w =
    get_filtered_query_loop schema cs' model sv conds j a w.
Proof.
  induction 1 as [|c c' cs cs' [Hn Hs] _ IH]; intros conds j a w; [reflexivity|].
  simpl. rewrite <- Hn, <- Hs. destruct (col_searchable c); [|apply IH].
  rewrite !bind_run.
  match goal with
  | |- match ?x with _ => _ end = _ => destruct x as [[[[c1 j1] a1]|e] w1]
  end; [apply IH | reflexivity].
Qed.

Lemma nth_error_same (cs cs' : list DataTablesColumn) :
  Forall2 same_name_and_searchable cs cs' ->
  forall n,
    match nth_error cs n, nth_error cs' n with
    | Some c, Some c' => same_name_and_searchable c c'
    | None, None => True
    | _, _ => False
    end.
Proof.
  induction 1 as [|c c' cs cs' Hc _ IH]; intros [|n]; simpl; auto.
  apply IH.
Qed.

Lemma py_index_same (cs cs' : list DataTablesColumn) (i : Z) :
  Forall2 same_name_and_searchable cs cs' ->
  match py_index cs i, py_index cs' i with
  | Some c, Some c' => same_name_and_searchable c c'
  | None, None => True
  | _, _ => False
  end.
Proof.
  intros H. unfold py_index.
  rewrite <- (Forall2_length _ _ _ H).
  destruct ((0 <=? i) && (i <? Z.of_nat (List.length cs)))%Z;
    [apply nth_error_same; exact H|].
  destruct ((- Z.of_nat (List.length cs) <=? i) && (i <? 0))%Z;
    [apply nth_error_same; exact H | exact I].
Qed.

Lemma apply_ordering_loop_same (orders : list OrderSpec) :
  forall model stmt r r' w,
    match rq_columns r, rq_columns r' with
    | Some cs, Some cs' => Forall2 same_name_and_searchable cs cs'
    | None, None => True
    | _, _ => False
    end ->
    apply_ordering_loop schema orders model stmt r w =
    apply_ordering_loop schema orders model stmt r' w.
Proof.
  induction orders as [|o orders IH]; intros model stmt r r' w Hcols;
    [reflexivity|].
  simpl. rewrite !bind_run. unfold column_at.
  destruct (rq_columns r) as [cs|] eqn:Hr, (rq_columns r') as [cs'|] eqn:Hr';
    try contradiction; [|reflexivity].
  pose proof (py_index_same cs cs' (ord_column o) Hcols) as Hidx.
  destruct (py_index cs (ord_column o)) as [c|],
           (py_index cs' (ord_column o)) as [c'|];
    try contradiction; [|reflexivity].
  destruct Hidx as [Hn _]. rewrite !mret_run. cbv beta iota.
  rewrite <- Hn, !bind_run.
  match goal with
  | |- match ?x with _ => _ end = _ => destruct x as [[s|e] w1]
  end; [|reflexivity].
  apply IH. rewrite Hr, Hr'. exact Hcols.
Qed.

(** [process] gives the same result, and sends the same statements to the
    backend, on two requests that differ only in the [orderable] flags and
    the per-column [search] entries of their columns. *)
Lemma process_same_for_core (self : DataTables) (r r' : DataTablesRequest)
    (w : World) :
  same_for_core r r' ->
  process schema self r w = process schema self r' w.
Proof.
  intros (Hd & Hs & Hl & Hse & Ho & Hc).
  assert (Hq : forall stmt w0,
             get_filtered_query schema self stmt r w0 =
             get_filtered_query schema self stmt r' w0).
  { intros stmt w0. unfold get_filtered_query, search_value_of. rewrite <- Hse.
    destruct (PyStr.nonempty _); [|reflexivity].
    destruct (rq_columns r) as [cs|], (rq_columns r') as [cs'|];
      try contradiction; [|reflexivity].
    rewrite !bind_run, (get_filtered_query_loop_same _ _ cs cs' Hc).
    reflexivity. }
  assert (Hord : forall stmt w0,
             apply_ordering schema self stmt r w0 =
             apply_ordering schema self stmt r' w0).
  { intros stmt w0. unfold apply_ordering. rewrite <- Ho.
    destruct (rq_order r) as [[|o l]|]; try reflexivity.
    apply apply_ordering_loop_same. exact Hc. }
  unfold process. rewrite !bind_run, get_query_run, !bind_run.
  unfold call_backend at 1 4. cbv beta iota. rewrite !bind_run, <- Hq.
  destruct (get_filtered_query schema self (base_query self) r _)
    as [[counted|e] w1]; [|reflexivity].
  rewrite !bind_run. unfold call_backend at 1 3. cbv beta iota.
  rewrite !bind_run, <- Hord.
  destruct (apply_ordering schema self counted r _) as [[ordered|e] w2];
    [|reflexivity].
  rewrite <- Hd, <- Hs, <- Hl. reflexivity.
Qed.

(** [order_column] of [utils.py] passes over a key whose column is not
    orderable. *)
Lemma order_column_skips_not_orderable (model : ModelRef) (stmt : Select)
    (request_data : DataTablesRequest) (key : OrderSpec)
    (rest : list OrderSpec) (col : DataTablesColumn) (w : World) :
  column_at request_data (ord_column key) w = (Ok col, w) ->
  col_orderable col = false ->
  order_column_loop schema (key :: rest) model stmt request_data w =
  order_column_loop schema rest model stmt request_data w.
Proof.
  intros Hcol Hno. simpl. rewrite bind_run, Hcol, Hno. reflexivity.
Qed.

(** C1, as the code has it: [column_filter] is the per-column filter stage
    (the searchable columns with a non-empty trimmed filter value, their
    paths resolved in order, one [contains] predicate from each column's
    filter value where the column admits one, the predicates joined by AND
    on the joined statement), and [process] does not run it: what [process]
    returns and what it sends to the backend do not depend on the filter
    values of the columns. *)
Theorem C1_column_filters_outside_process :
  (forall stmt columns model w,
     column_filter schema stmt columns model w =
     column_filter_described schema stmt columns model w)
  /\ (forall self r r' w,
        same_for_core r r' ->
        process schema self r w = process schema self r' w).
Proof.
  split.
  - apply column_filter_as_described.
  - intros self r r' w H. apply process_same_for_core. exact H.
Qed.

End CoreView.

Lemma C1_column_filters_outside_process_witness :
  process student_schema student_tables name_filter_request world0 =
  process student_schema student_tables
    (mkRequest (Some 1) (Some 0) (Some 10) (Some (search_dict EmptyString))
       (Some []) (Some [mkColumn "name" true true no_search])) world0.
Proof.
  apply (proj2 (C1_column_filters_outside_process student_schema)).
  repeat split; try reflexivity.
  simpl. repeat constructor.
Defined.

(** The claim C1 as stated fails: with the filter value "bob" on the
    searchable column [name], [column_filter] adds a predicate, but the
    statement [process] counts as filtered and the statement it executes
    carry no WHERE clause. *)
Lemma C1_counterexample :
  exists counted final w' resp,
    filter_value (mkColumn "name" true true (mkColumnSearch (Some "bob") (Some EQUALS)))
      = "bob"
    /\ column_filter student_schema (select "Student")
         [mkColumn "name" true true (mkColumnSearch (Some "bob") (Some EQUALS))]
         (Mapped "Student") world0
       = (Ok (stmt_where (select "Student")
                (And_ [Ilike (ColumnRef student_name) "%bob%"])), world0)
    /\ process student_schema student_tables name_filter_request world0
       = (Ok resp, w')
    /\ backend_calls w' =
         [GetTotalRecords (select "Student"); GetFilteredRecords counted;
          ExecuteQuery final]
    /\ sel_where counted = []
    /\ sel_where final = [].
Proof.
  eexists _, _, (snd (process student_schema student_tables name_filter_request world0)),
    (mkResponse (Some 1) 3 3 (three_rows (select "Student"))).
  split; [reflexivity|]. split; [reflexivity|]. split; [reflexivity|].
  split; [vm_compute; reflexivity|]. split; reflexivity.
Qed.

(** C4 at its failing input: the column [age] is not orderable, and
    [apply_ordering] of [core.py] orders by it all the same, where
    [order_column] of [utils.py] leaves the statement alone. *)
Theorem C4_apply_ordering_ignores_orderable :
  apply_ordering student_schema student_tables (select "Student")
    not_orderable_request world0
  = (Ok (stmt_order_by (select "Student") (Asc student_age)), world0)
  /\ order_column student_schema (Mapped "Student") (select "Student")
       not_orderable_request world0
     = (Ok (select "Student"), world0).
Proof. split; reflexivity. Qed.

(** C5 at its failing input: the column [name] asks for the match mode
    [equals], for which [build_condition] would give an equality, and
    [column_filter] builds the [contains] pattern instead. *)
Theorem C5_column_filter_hardcodes_contains :
  column_filter student_schema (select "Student")
    [mkColumn "name" true true (mkColumnSearch (Some "bob") (Some EQUALS))]
    (Mapped "Student") world0
  = (Ok (stmt_where (select "Student")
           (And_ [Ilike (ColumnRef student_name) "%bob%"])), world0)
  /\ build_condition student_name EQUALS "bob"
     = Some (Eq (ColumnRef student_name) (LStr "bob")).
Proof. split; reflexivity. Qed.

(** ** [order_column] of [utils.py] and the direction *)

Section OrderColumn.

Context (schema : Schema).

(** On an orderable column with a name that resolves, [order_column]
    treats a direction that is neither ["asc"] nor ["desc"] as
    [apply_ordering] does. *)
Lemma order_column_bad_direction (model : ModelRef) (stmt : Select)
    (request_data : DataTablesRequest) (key : OrderSpec)
    (rest : list OrderSpec) (col : DataTablesColumn) (w : World) :
  column_at request_data (ord_column key) w = (Ok col, w) ->
  col_orderable col = true ->
  PyStr.nonempty (col_name col) = true ->
  resolves schema (class_of model) (col_name col) = true ->
  ord_dir key <> "asc" -> ord_dir key <> "desc" ->
  exists w',
    order_column_loop schema (key :: rest) model stmt request_data w
    = (Raise (ConfigurationError ordering_message), w').
Proof.
  intros Hcol Hord Hname Hres Hasc Hdesc. simpl.
  rewrite bind_run, Hcol, Hord, Hname. simpl. rewrite bind_run.
  match goal with
  | |- context [except_AttributeError (?r ≫= ?k) (raise ?e) w] =>
      pose proof (guarded_resolution schema (class_of model) model
                    (col_name col) [] ∅ k e w eq_refl
                    (aliases_consistent_empty schema _)) as H
  end.
  rewrite Hres in H. destruct H as (attr & j' & a' & w' & -> & _).
  cbv beta iota. unfold apply_direction.
  apply String.eqb_neq in Hasc, Hdesc. rewrite Hasc, Hdesc.
  exists w'. reflexivity.
Qed.

(** A key on a column that is not orderable is passed over before its
    direction is looked at. *)
Lemma order_column_not_orderable_any_direction (model : ModelRef)
    (stmt : Select) (request_data : DataTablesRequest) (key : OrderSpec)
    (col : DataTablesColumn) (w : World) :
  column_at request_data (ord_column key) w = (Ok col, w) ->
  col_orderable col = false ->
  order_column_loop schema [key] model stmt request_data w = (Ok stmt, w).
Proof.
  intros Hcol Hno.
  rewrite (order_column_skips_not_orderable schema model stmt request_data key
             [] col w Hcol Hno).
  reflexivity.
Qed.

End OrderColumn.

(** * Further properties of the code *)

(** ** Match modes and conditions *)

(** X1: the six match-mode tokens name six different members: looking a
    member's token up gives the member back, and a token that is accepted
    is the token of the member found (so the lookup is case-sensitive and
    no two members share a token). *)
Theorem X1_match_mode_tokens (m : MatchMode) (token : string) :
  MatchMode_of_value (MatchMode_value m) = Some m
  /\ (MatchMode_of_value token = Some m -> token = MatchMode_value m).
Proof.
  split; [destruct m; reflexivity|].
  unfold MatchMode_of_value.
  repeat match goal with
         | |- context [String.eqb token ?s] =>
             destruct (String.eqb_spec token s) as [->|_]
         end; intros [= <-]; reflexivity.
Qed.

Lemma X1_match_mode_tokens_witness :
  MatchMode_of_value "startsWith" = Some STARTS_WITH
  /\ MatchMode_of_value "startswith" = None
  /\ "startsWith" = MatchMode_value STARTS_WITH.
Proof.
  split; [reflexivity|]. split; [reflexivity|].
  exact (proj2 (X1_match_mode_tokens STARTS_WITH "startsWith") eq_refl).
Defined.

(** X2: [build_condition] drops a filter (returns [None]) in these cases
    and no other: the attribute has no SQL type, its type is none of
    String/Text, Integer, DateTime/Date/TIMESTAMP, or it is an Integer
    column and the value does not parse as a whole number or the match mode
    is neither [equals] nor [notEquals]. *)
Theorem X2_build_condition_none_iff (column_attr : Attr)
    (match_mode : MatchMode) (value : string) :
  build_condition column_attr match_mode value = None <->
  (attr_type column_attr = None
   \/ exists ty,
        attr_type column_attr = Some ty
        /\ is_string_type ty = false
        /\ is_temporal_type ty = false
        /\ (is_integer_type ty = true ->
            PyStr.int value = None
            \/ (match_mode <> EQUALS /\ match_mode <> NOT_EQUALS))).
Proof.
  unfold build_condition.
  destruct (attr_type column_attr) as [ty|]; [|split; auto].
  split.
  - intros H. right. exists ty. split; [reflexivity|].
    destruct (is_string_type ty) eqn:Es;
      [destruct match_mode; discriminate|].
    split; [reflexivity|].
    destruct (is_integer_type ty) eqn:Ei.
    + split; [destruct ty; simpl in *; congruence|]. intros _.
      destruct (PyStr.int value) as [n|]; [|auto]. right.
      destruct match_mode; try discriminate; split; discriminate.
    + destruct (is_temporal_type ty) eqn:Et;
        [destruct match_mode; discriminate|].
      split; [reflexivity | discriminate].
  - intros [H | (ty' & [= <-] & Es & Et & Hi)]; [discriminate|].
    rewrite Es, Et. destruct (is_integer_type ty); [|reflexivity].
    destruct (Hi eq_refl) as [-> | [H1 H2]]; [reflexivity|].
    destruct (PyStr.int value); [|reflexivity].
    destruct match_mode; try reflexivity; [destruct H1 | destruct H2]; reflexivity.
Qed.

Lemma X2_build_condition_none_iff_witness :
  build_condition student_age CONTAINS "21" = None
  /\ build_condition student_age EQUALS "twenty" = None.
Proof.
  split.
  - apply (X2_build_condition_none_iff student_age CONTAINS "21").
    right. exists TInteger. repeat split; try reflexivity.
    intros _. right. split; discriminate.
  - apply (X2_build_condition_none_iff student_age EQUALS "twenty").
    right. exists TInteger. repeat split; try reflexivity.
    intros _. left. reflexivity.
Defined.

(** X3: a predicate [build_condition] returns compares one expression only:
    the column it was given, either as it is or cast to a date and then to
    a string. *)
Theorem X3_build_condition_operand (column_attr : Attr)
    (match_mode : MatchMode) (value : string) (p : Pred) :
  build_condition column_attr match_mode value = Some p ->
  pred_operands p = [ColumnRef column_attr]
  \/ pred_operands p = [Cast (Cast (ColumnRef column_attr) TDate) TString].
Proof.
  unfold build_condition.
  destruct (attr_type column_attr) as [ty|]; [|discriminate].
  destruct (is_string_type ty).
  - destruct match_mode; intros [= <-]; left; reflexivity.
  - destruct (is_integer_type ty).
    + destruct (PyStr.int value); [|discriminate].
      destruct match_mode; intros [= <-]; left; reflexivity.
    + destruct (is_temporal_type ty); [|discriminate].
      destruct match_mode; intros [= <-]; right; reflexivity.
Qed.

Lemma X3_build_condition_operand_witness :
  pred_operands (Not_ (Ilike (ColumnRef student_name) "%bob%"))
  = [ColumnRef student_name]
  \/ pred_operands (Not_ (Ilike (ColumnRef student_name) "%bob%"))
     = [Cast (Cast (ColumnRef student_name) TDate) TString].
Proof.
  exact (X3_build_condition_operand student_name NOT_CONTAINS "bob" _ eq_refl).
Defined.

(** ** Invariants of the resolver *)

Section ResolverInvariants.

Context (schema : Schema).

Lemma resolve_loop_in_step (parts : list string) :
  forall cm cp ca j a w r j' a' w',
    resolve_loop schema parts cm cp ca j a w = (Ok (r, j', a'), w') ->
    dicts_in_step j a -> dicts_in_step j' a'.
Proof.
  induction parts as [|part rest IH]; intros cm cp ca j a w r j' a' w' H Hstep.
  - simpl in H. injection H as <- <- <- <-. exact Hstep.
  - destruct rest as [|r0 rest].
    + rewrite resolve_loop_last in H.
      destruct (schema (class_of cm) part); [|discriminate].
      injection H as <- <- <- <-. exact Hstep.
    + rewrite resolve_loop_relation in H. cbv zeta in H.
      destruct (a !! PyStr.join "." (cp ++ [part])) as [m|] eqn:Hk;
        [eapply IH; eassumption|].
      destruct (schema (class_of cm) part) as [[t| |]|]; try discriminate.
      eapply IH; [exact H|].
      destruct Hstep as [Hnd ->].
      apply not_elem_of_list_to_map in Hk. rewrite alias_entries_keys in Hk.
      rewrite (dict_set_new _ _ _ Hk). split.
      * rewrite fmap_app. apply NoDup_app. split; [exact Hnd|].
        split; [|apply NoDup_singleton].
        intros x Hx Hx'. apply list_elem_of_singleton in Hx'. subst x.
        simpl in Hk. contradiction.
      * unfold alias_entries. rewrite fmap_app. simpl.
        rewrite list_to_map_snoc; [reflexivity|].
        fold (alias_entries j). rewrite alias_entries_keys. exact Hk.
Qed.

Lemma resolve_loop_aliases (parts : list string) :
  forall cm cp ca j a w r j' a' w',
    resolve_loop schema parts cm cp ca j a w = (Ok (r, j', a'), w') ->
    aliases_below (next_alias w) a -> aliases_apart a ->
    (next_alias w <= next_alias w')%nat
    /\ aliases_below (next_alias w') a' /\ aliases_apart a'.
Proof.
  induction parts as [|part rest IH];
    intros cm cp ca j a w r j' a' w' H Hbelow Hapart.
  - simpl in H. injection H as <- <- <- <-. auto.
  - destruct rest as [|r0 rest].
    + rewrite resolve_loop_last in H.
      destruct (schema (class_of cm) part); [|discriminate].
      injection H as <- <- <- <-. auto.
    + rewrite resolve_loop_relation in H. cbv zeta in H.
      destruct (a !! PyStr.join "." (cp ++ [part])) as [m|] eqn:Hk;
        [eapply IH; eassumption|].
      destruct (schema (class_of cm) part) as [[t| |]|]; try discriminate.
      apply IH in H as (Hle & Hb & Ha).
      * simpl in Hle. split; [lia | auto].
      * simpl. intros p i cls Hp.
        destruct (decide (PyStr.join "." (cp ++ [part]) = p)) as [<-|Hne].
        -- rewrite lookup_insert_eq in Hp. injection Hp as <- <-. lia.
        -- rewrite lookup_insert_ne in Hp by exact Hne.
           apply Hbelow in Hp. lia.
      * intros p1 p2 m H1 H2.
        destruct (decide (PyStr.join "." (cp ++ [part]) = p1)) as [E1|Hne1],
                 (decide (PyStr.join "." (cp ++ [part]) = p2)) as [E2|Hne2].
        -- congruence.
        -- subst p1. rewrite lookup_insert_eq in H1.
           rewrite lookup_insert_ne in H2 by exact Hne2.
           injection H1 as <-. apply Hbelow in H2. lia.
        -- subst p2. rewrite lookup_insert_eq in H2.
           rewrite lookup_insert_ne in H1 by exact Hne1.
           injection H2 as <-. apply Hbelow in H1. lia.
        -- rewrite lookup_insert_ne in H1 by exact Hne1.
           rewrite lookup_insert_ne in H2 by exact Hne2.
           eapply Hapart; eassumption.
Qed.

Lemma resolve_loop_attribute (parts : list string) :
  forall cm cp ca j a w r j' a' w',
    parts <> [] ->
    resolve_loop schema parts cm cp ca j a w = (Ok (r, j', a'), w') ->
    exists attr,
      r = Some attr
      /\ schema (class_of (attr_owner attr)) (attr_name attr)
         = Some (attr_member attr)
      /\ last parts = Some (attr_name attr)
      /\ (attr_owner attr = cm
          \/ exists prefix, a' !! prefix = Some (attr_owner attr)).
Proof.
  induction parts as [|part rest IH];
    intros cm cp ca j a w r j' a' w' Hne H; [congruence|].
  destruct rest as [|r0 rest].
  - rewrite resolve_loop_last in H.
    destruct (schema (class_of cm) part) as [member|] eqn:Hs; [|discriminate].
    injection H as <- <- <- <-. eexists. split; [reflexivity|].
    simpl. auto.
  - rewrite resolve_loop_relation in H. cbv zeta in H.
    destruct (a !! PyStr.join "." (cp ++ [part])) as [m|] eqn:Hk.
    + pose proof (resolve_loop_again schema _ _ _ _ _ _ _ _ _ _ _ H) as (Hsub & _).
      apply IH in H as (attr & -> & Hs & Hl & Ho); [|discriminate].
      exists attr. repeat (split; [assumption || reflexivity|]).
      right. destruct Ho as [-> | Ho]; [|exact Ho].
      eexists. eapply lookup_weaken; eassumption.
    + destruct (schema (class_of cm) part) as [[t| |]|]; try discriminate.
      pose proof (resolve_loop_again schema _ _ _ _ _ _ _ _ _ _ _ H) as (Hsub & _).
      apply IH in H as (attr & -> & Hs & Hl & Ho); [|discriminate].
      exists attr. repeat (split; [assumption || reflexivity|]).
      right. destruct Ho as [-> | Ho]; [|exact Ho].
      eexists. eapply lookup_weaken; [apply lookup_insert_eq | exact Hsub].
Qed.

(** X4: the two dictionaries of [resolve_column] stay in step.  When
    [joins] holds each prefix once and [aliased_models] maps exactly the
    prefixes of [joins] to the aliases of their joins, the same is true
    after a resolution; in particular it is true of the dictionaries every
    caller starts from, the empty ones. *)
Theorem X4_dictionaries_in_step (model : ModelRef) (column_path : string)
    (j j' : JoinDict) (a a' : gmap string ModelRef) (w w' : World)
    (r : option Attr) :
  resolve_column schema model column_path j a w = (Ok (r, j', a'), w') ->
  dicts_in_step j a ->
  dicts_in_step j' a'.
Proof. unfold resolve_column. apply resolve_loop_in_step. Qed.

(** X5: [resolve_column] never gives one alias to two prefixes.  When the
    aliases registered were all made earlier and no two prefixes share a
    model, the same holds afterwards; the aliases it makes are numbered
    from the next free number on. *)
Theorem X5_aliases_stay_apart (model : ModelRef) (column_path : string)
    (j j' : JoinDict) (a a' : gmap string ModelRef) (w w' : World)
    (r : option Attr) :
  resolve_column schema model column_path j a w = (Ok (r, j', a'), w') ->
  aliases_below (next_alias w) a ->
  aliases_apart a ->
  (next_alias w <= next_alias w')%nat
  /\ aliases_below (next_alias w') a'
  /\ aliases_apart a'.
Proof. unfold resolve_column. apply resolve_loop_aliases. Qed.

(** X6: a mapped attribute that [resolve_column] returns, a column or a
    relationship, is the one the path names: its name is the last part of
    the path; the schema declares it on the class of its owner; and its
    owner is the model the resolution started from when the path has one
    part, and otherwise the alias registered for the longest relation
    prefix of the path. *)
Theorem X6_resolved_attribute (model : ModelRef) (column_path : string)
    (j j' : JoinDict) (a a' : gmap string ModelRef) (w w' : World)
    (attr : Attr) :
  resolve_column schema model column_path j a w = (Ok (Some attr, j', a'), w') ->
  attr_member attr <> OtherAttribute ->
  schema (class_of (attr_owner attr)) (attr_name attr)
  = Some (attr_member attr)
  /\ last (path_of column_path) = Some (attr_name attr)
  /\ match last (relation_prefixes column_path) with
     | None => attr_owner attr = model
     | Some prefix => a' !! prefix = Some (attr_owner attr)
     end.
Proof.
  unfold resolve_column. intros H _.
  pose proof (resolve_loop_owner schema _ _ _ _ _ _ _ _ _ _ _
                (split_on_nonempty _ _) H) as Howner.
  apply resolve_loop_attribute in H as (attr' & [= <-] & Hs & Hl & _);
    [|apply split_on_nonempty].
  auto.
Qed.

End ResolverInvariants.

Lemma X4_dictionaries_in_step_witness :
  dicts_in_step [("author", (book_author, Aliased 0 "Author"))]
    {[ "author" := Aliased 0 "Author" ]}.
Proof.
  apply (X4_dictionaries_in_step library_schema (Mapped "Book") "author.name"
           [] _ ∅ _ world0 (mkWorld 1 [])
           (Some (mkAttr (Aliased 0 "Author") "name" (Column TString)))).
  - vm_compute. reflexivity.
  - split; [constructor | reflexivity].
Defined.

Lemma X5_aliases_stay_apart_witness :
  (0 <= 1)%nat
  /\ aliases_below 1 {[ "author" := Aliased 0 "Author" ]}
  /\ aliases_apart {[ "author" := Aliased 0 "Author" ]}.
Proof.
  apply (X5_aliases_stay_apart library_schema (Mapped "Book") "author.name"
           [] [("author", (book_author, Aliased 0 "Author"))] ∅ _ world0
           (mkWorld 1 [])
           (Some (mkAttr (Aliased 0 "Author") "name" (Column TString)))).
  - vm_compute. reflexivity.
  - intros p i cls H. rewrite lookup_empty in H. discriminate.
  - intros p1 p2 m H. rewrite lookup_empty in H. discriminate.
Defined.

Lemma X6_resolved_attribute_witness :
  library_schema "Author" "name" = Some (Column TString)
  /\ last (path_of "author.name") = Some "name"
  /\ ({[ "author" := Aliased 0 "Author" ]} : gmap string ModelRef) !! "author"
     = Some (Aliased 0 "Author").
Proof.
  assert (Hrun : resolve_column library_schema (Mapped "Book") "author.name"
                   [] ∅ world0
                 = (Ok (Some (mkAttr (Aliased 0 "Author") "name" (Column TString)),
                        [("author", (book_author, Aliased 0 "Author"))],
                        {[ "author" := Aliased 0 "Author" ]}), mkWorld 1 []))
    by (vm_compute; reflexivity).
  apply (X6_resolved_attribute library_schema _ _ _ _ _ _ _ _ _ Hrun).
  discriminate.
Defined.

(** ** Joins and the filter phases *)

Lemma apply_joins_paging (joins : JoinDict) (stmt : Select) :
  sel_offset (apply_joins stmt joins) = sel_offset stmt
  /\ sel_limit (apply_joins stmt joins) = sel_limit stmt.
Proof.
  revert stmt. unfold apply_joins.
  induction joins as [|[k [r m]] joins IH]; intros stmt; simpl; [auto|].
  destruct (IH (stmt_join stmt m r)) as [H1 H2]. rewrite H1, H2. auto.
Qed.

(** X7: [apply_joins] adds one JOIN clause per entry of the dictionary, in
    insertion order, after the joins the statement has, and touches nothing
    else of the statement; applying the entries in two batches is applying
    them at once. *)
Theorem X7_apply_joins_appends (stmt : Select) (joins more : JoinDict) :
  sel_joins (apply_joins stmt joins) = sel_joins stmt ++ join_clauses joins
  /\ sel_from (apply_joins stmt joins) = sel_from stmt
  /\ sel_where (apply_joins stmt joins) = sel_where stmt
  /\ sel_order_by (apply_joins stmt joins) = sel_order_by stmt
  /\ sel_offset (apply_joins stmt joins) = sel_offset stmt
  /\ sel_limit (apply_joins stmt joins) = sel_limit stmt
  /\ apply_joins (apply_joins stmt joins) more = apply_joins stmt (joins ++ more).
Proof.
  split; [apply apply_joins_clauses|].
  destruct (apply_joins_frame joins stmt) as (H1 & H2 & H3).
  destruct (apply_joins_paging joins stmt) as (H4 & H5).
  repeat (split; [assumption|]).
  unfold apply_joins. rewrite fold_left_app. reflexivity.
Qed.

Section FilterPhases.

Context (schema : Schema).

Lemma get_filtered_query_loop_searchable (columns : list DataTablesColumn) :
  forall model sv conds j a w,
    get_filtered_query_loop schema (List.filter col_searchable columns)
      model sv conds j a w =
    get_filtered_query_loop schema columns model sv conds j a w.
Proof.
  induction columns as [|col rest IH]; intros model sv conds j a w;
    [reflexivity|].
  simpl. destruct (col_searchable col) eqn:Hs; [|apply IH].
  simpl. rewrite Hs, !bind_run.
  match goal with
  | |- match ?x with _ => _ end = _ => destruct x as [[[[c1 j1] a1]|e] w1]
  end; [apply IH | reflexivity].
Qed.

Lemma global_filter_loop_searchable (columns : list DataTablesColumn) :
  forall model sv conds j a w,
    global_filter_loop schema (List.filter col_searchable columns)
      model sv conds j a w =
    global_filter_loop schema columns model sv conds j a w.
Proof.
  induction columns as [|col rest IH]; intros model sv conds j a w;
    [reflexivity|].
  simpl. destruct (col_searchable col) eqn:Hs; [|apply IH].
  simpl. rewrite Hs, !bind_run.
  match goal with
  | |- match ?x with _ => _ end = _ => destruct x as [[[[c1 j1] a1]|e] w1]
  end; [apply IH | reflexivity].
Qed.

Lemma filtering_columns_idem (columns : list DataTablesColumn) :
  filtering_columns (filtering_columns columns) = filtering_columns columns.
Proof.
  unfold filtering_columns.
  induction columns as [|col rest IH]; [reflexivity|]. simpl.
  destruct (col_searchable col && PyStr.nonempty (filter_value col)) eqn:E;
    [|exact IH].
  simpl. rewrite E, IH. reflexivity.
Qed.

(** X8: the columns a filter phase does not apply to play no part in it,
    whatever their paths: the global search of [core.py] and of [utils.py]
    give the same result when the columns that are not searchable are
    removed, and [column_filter] when the columns that are not searchable
    or have a blank filter value are removed. *)
Theorem X8_only_applicable_columns :
  (forall self stmt request_data columns w,
     rq_columns request_data = Some columns ->
     get_filtered_query schema self stmt
       (with_columns request_data (List.filter col_searchable columns)) w =
     get_filtered_query schema self stmt request_data w)
  /\ (forall search_value stmt columns model w,
        global_filter schema search_value stmt
          (List.filter col_searchable columns) model w =
        global_filter schema search_value stmt columns model w)
  /\ (forall stmt columns model w,
        column_filter schema stmt (filtering_columns columns) model w =
        column_filter schema stmt columns model w).
Proof.
  split; [|split].
  - intros self stmt request_data columns w Hcols.
    unfold get_filtered_query.
    change (search_value_of (with_columns request_data
                               (List.filter col_searchable columns)))
      with (search_value_of request_data).
    destruct (PyStr.nonempty (search_value_of request_data)); [|reflexivity].
    rewrite Hcols. simpl. rewrite !bind_run, get_filtered_query_loop_searchable.
    reflexivity.
  - intros search_value stmt columns model w. unfold global_filter.
    destruct (PyStr.nonempty search_value); [|reflexivity].
    rewrite !bind_run, global_filter_loop_searchable. reflexivity.
  - intros stmt columns model w.
    rewrite !column_filter_as_described. unfold column_filter_described.
    rewrite filtering_columns_idem. reflexivity.
Qed.

Lemma get_filtered_query_loop_patterns (columns : list DataTablesColumn) :
  forall model sv conds j a w conds' j' a' w',
    get_filtered_query_loop schema columns model sv conds j a w
      = (Ok (conds', j', a'), w') ->
    Forall (search_pattern_on_text sv) conds ->
    Forall (search_pattern_on_text sv) conds'.
Proof.
  induction columns as [|col rest IH];
    intros model sv conds j a w conds' j' a' w' H Hc; simpl in H.
  - injection H as <- <- <- <-. exact Hc.
  - destruct (col_searchable col); [|eapply IH; eassumption].
    apply bind_Ok in H as ([[c1 j1] a1] & w1 & Hstep & H).
    apply except_Ok in Hstep.
    apply bind_Ok in Hstep as ([[ca j2] a2] & w2 & _ & Hstep).
    eapply IH; [exact H|].
    destruct ca as [ca|]; [|injection Hstep as <- <- <- <-; exact Hc].
    destruct (attr_type ca) as [ty|] eqn:Ht;
      [|injection Hstep as <- <- <- <-; exact Hc].
    destruct (is_string_type ty) eqn:Es;
      injection Hstep as <- <- <- <-; [|exact Hc].
    apply Forall_app. split; [exact Hc|].
    constructor; [|constructor]. exists ca, ty. auto.
Qed.

(** X9: the global search of [core.py] changes a statement in two ways
    only: it adds joins, and it adds at most one WHERE clause, after the
    clauses the statement has.  That clause is a disjunction of one or more
    case-insensitive patterns, each the search value between two wildcards
    on a String or Text column.  FROM, ORDER BY, offset and limit stay. *)
Theorem X9_global_search_clause (self : DataTables) (stmt stmt' : Select)
    (request_data : DataTablesRequest) (w w' : World) :
  get_filtered_query schema self stmt request_data w = (Ok stmt', w') ->
  sel_from stmt' = sel_from stmt
  /\ sel_order_by stmt' = sel_order_by stmt
  /\ sel_offset stmt' = sel_offset stmt
  /\ sel_limit stmt' = sel_limit stmt
  /\ (exists added, sel_joins stmt' = sel_joins stmt ++ added)
  /\ (sel_where stmt' = sel_where stmt
      \/ exists conds,
           conds <> []
           /\ Forall (search_pattern_on_text (search_value_of request_data)) conds
           /\ sel_where stmt' = sel_where stmt ++ [Or_ conds]).
Proof.
  unfold get_filtered_query. intros H.
  destruct (PyStr.nonempty (search_value_of request_data)).
  - destruct (rq_columns request_data) as [columns|]; [|discriminate].
    apply bind_Ok in H as ([[conds j] a] & w1 & Hloop & H).
    apply get_filtered_query_loop_patterns in Hloop; [|constructor].
    pose proof (apply_joins_clauses j stmt) as J.
    destruct (apply_joins_frame j stmt) as (F & W & O).
    destruct (apply_joins_paging j stmt) as (Of & L).
    destruct conds as [|c conds]; injection H as <- <-; simpl;
      repeat (split; [assumption|]); (split; [eauto|]).
    + left. exact W.
    + right. exists (c :: conds). split; [discriminate|]. split; [exact Hloop|].
      rewrite W. reflexivity.
  - injection H as <- <-. repeat (split; [reflexivity|]).
    split; [exists []; rewrite app_nil_r; reflexivity | left; reflexivity].
Qed.

End FilterPhases.

Lemma X8_only_applicable_columns_witness :
  get_filtered_query library_schema book_tables (select "Book")
    (with_columns hidden_bad_path_request
       [mkColumn "title" true true no_search]) world0 =
  get_filtered_query library_schema book_tables (select "Book")
    hidden_bad_path_request world0.
Proof.
  exact (proj1 (X8_only_applicable_columns library_schema) book_tables
           (select "Book") hidden_bad_path_request
           [mkColumn "title" true true no_search;
            mkColumn "missing.field" false true no_search] world0 eq_refl).
Defined.

Lemma X9_global_search_clause_witness :
  exists conds,
    conds <> []
    /\ Forall (search_pattern_on_text "smith") conds
    /\ [Or_ [Ilike (ColumnRef (mkAttr (Mapped "Book") "title" (Column TString)))
               "%smith%"]] = [] ++ [Or_ conds].
Proof.
  destruct (X9_global_search_clause library_schema book_tables (select "Book")
              (stmt_where (select "Book")
                 (Or_ [Ilike (ColumnRef (mkAttr (Mapped "Book") "title"
                                           (Column TString))) "%smith%"]))
              hidden_bad_path_request world0 world0 eq_refl)
    as (_ & _ & _ & _ & _ & [H | H]); [discriminate | exact H].
Defined.

(** ** The two global searches *)

Lemma lstrip_blank (s : string) : blank s = true -> PyStr.lstrip s = EmptyString.
Proof.
  induction s as [|c s IH]; simpl; [reflexivity|].
  intros H. apply andb_true_iff in H as [Hc Hs]. rewrite Hc. exact (IH Hs).
Qed.

Lemma strip_blank (s : string) : blank s = true -> PyStr.strip s = EmptyString.
Proof. intros H. unfold PyStr.strip. rewrite (lstrip_blank s H). reflexivity. Qed.

Section GlobalSearches.

Context (schema : Schema).

Lemma global_loops_agree (columns : list DataTablesColumn) :
  no_temporal_columns schema ->
  forall model sv conds j a w,
    get_filtered_query_loop schema columns model sv conds j a w =
    global_filter_loop schema columns model sv conds j a w.
Proof.
  intros Hno. induction columns as [|col rest IH];
    intros model sv conds j a w; [reflexivity|].
  simpl. destruct (col_searchable col); [|apply IH].
  rewrite !bind_run. unfold except_AttributeError, resolve_column.
  rewrite !bind_run.
  destruct (resolve_loop schema (PyStr.split_on "." (col_name col)) model []
              None j a w) as [[[[ca j1] a1]|e] w1] eqn:Hres;
    [|destruct e; reflexivity].
  apply resolve_loop_attribute in Hres as (attr & -> & Hs & _);
    [|apply split_on_nonempty].
  cbv beta iota. unfold build_condition, attr_type.
  destruct (attr_member attr) as [t|ty|] eqn:Hm;
    rewrite ?mret_run; cbv beta iota; try apply IH.
  destruct (is_string_type ty); rewrite ?mret_run; cbv beta iota;
    [apply IH|].
  rewrite (Hno _ _ _ Hs).
  destruct (is_integer_type ty);
    [destruct (PyStr.int sv)|]; rewrite ?mret_run; cbv beta iota; apply IH.
Qed.

(** X10: on a schema without date or time columns, the global search
    written out in [core.py] and [global_filter] of [utils.py] are the same
    function of the statement, the columns and the trimmed search value:
    same statement returned, same exception raised, same aliases made. *)
Theorem X10_global_searches_agree (self : DataTables) (stmt : Select)
    (request_data : DataTablesRequest) (columns : list DataTablesColumn)
    (w : World) :
  no_temporal_columns schema ->
  rq_columns request_data = Some columns ->
  get_filtered_query schema self stmt request_data w =
  global_filter schema (search_value_of request_data) stmt columns
    (Mapped (dt_model self)) w.
Proof.
  intros Hno Hcols. unfold get_filtered_query, global_filter.
  destruct (PyStr.nonempty (search_value_of request_data)); [|reflexivity].
  rewrite Hcols, !bind_run, (global_loops_agree columns Hno). reflexivity.
Qed.

(** X11: a search value of white space only is no search for [core.py]:
    [get_filtered_query] trims it and returns the statement unchanged,
    without resolving any column (so a path the schema does not know goes
    unnoticed).  In the same way [column_filter] passes over every column
    whose filter value is white space only. *)
Theorem X11_blank_values_are_no_filter :
  (forall self stmt request_data d v w,
     rq_search request_data = Some d ->
     d !! "value" = Some v ->
     blank v = true ->
     get_filtered_query schema self stmt request_data w = (Ok stmt, w))
  /\ (forall stmt columns model w,
        Forall (fun col => forall v, cs_value (col_search col) = Some v ->
                                     blank v = true) columns ->
        column_filter schema stmt columns model w = (Ok stmt, w)).
Proof.
  split.
  - intros self stmt request_data d v w Hs Hv Hb.
    unfold get_filtered_query, search_value_of. rewrite Hs.
    destruct (decide (d = ∅)); [reflexivity|].
    rewrite Hv. simpl. rewrite (strip_blank v Hb). reflexivity.
  - intros stmt columns model w Hall.
    rewrite column_filter_as_described. unfold column_filter_described.
    assert (Hnone : filtering_columns columns = []).
    { unfold filtering_columns. induction Hall as [|col rest Hcol _ IH];
        [reflexivity|].
      simpl. rewrite IH. unfold filter_value.
      destruct (cs_value (col_search col)) as [v|] eqn:Hv;
        [|rewrite andb_false_r; reflexivity].
      rewrite (strip_blank v (Hcol v eq_refl)).
      destruct (PyStr.nonempty v); rewrite andb_false_r; reflexivity. }
    rewrite Hnone. reflexivity.
Qed.

End GlobalSearches.

Lemma student_schema_no_temporal : no_temporal_columns student_schema.
Proof.
  intros cls name ty. unfold student_schema.
  repeat match goal with
         | |- context [String.eqb ?x ?s] => destruct (String.eqb x s)
         end; intros [= <-] || discriminate; reflexivity.
Qed.

Lemma X10_global_searches_agree_witness :
  get_filtered_query student_schema student_tables (select "Student")
    (mkRequest (Some 1) (Some 0) (Some 10) (Some (search_dict " bob "))
       (Some []) (Some [mkColumn "name" true true no_search;
                        mkColumn "age" true true no_search])) world0 =
  global_filter student_schema "bob" (select "Student")
    [mkColumn "name" true true no_search; mkColumn "age" true true no_search]
    (Mapped "Student") world0.
Proof.
  exact (X10_global_searches_agree student_schema student_tables
           (select "Student")
           (mkRequest (Some 1) (Some 0) (Some 10) (Some (search_dict " bob "))
              (Some []) (Some [mkColumn "name" true true no_search;
                               mkColumn "age" true true no_search]))
           _ world0 student_schema_no_temporal eq_refl).
Defined.

Lemma X11_blank_values_are_no_filter_witness :
  get_filtered_query library_schema book_tables (select "Book")
    blank_search_request world0 = (Ok (select "Book"), world0).
Proof.
  exact (proj1 (X11_blank_values_are_no_filter library_schema) book_tables
           (select "Book") blank_search_request (search_dict "   ") "   "
           world0 eq_refl eq_refl eq_refl).
Defined.

(** ** Ordering *)

Lemma py_index_In {A : Type} (xs : list A) (i : Z) (x : A) :
  py_index xs i = Some x -> In x xs.
Proof.
  unfold py_index.
  destruct ((0 <=? i) && (i <? Z.of_nat (List.length xs)))%Z;
    [apply nth_error_In|].
  destruct ((- Z.of_nat (List.length xs) <=? i) && (i <? 0))%Z;
    [apply nth_error_In | discriminate].
Qed.

Section Ordering.

Context (schema : Schema).

Lemma apply_ordering_loop_terms (orders : list OrderSpec) :
  forall model stmt request_data w stmt' w',
    apply_ordering_loop schema orders model stmt request_data w = (Ok stmt', w') ->
    exists terms added,
      sel_order_by stmt' = sel_order_by stmt ++ terms
      /\ sel_joins stmt' = sel_joins stmt ++ added
      /\ Forall2 (term_of_key request_data) orders terms.
Proof.
  induction orders as [|key rest IH];
    intros model stmt request_data w stmt' w' H; simpl in H.
  - injection H as <- <-. exists [], []. rewrite !app_nil_r. auto.
  - apply bind_Ok in H as (col & w1 & Hcol & H).
    apply column_at_Ok in Hcol as (-> & columns & Hcols & Hidx).
    apply bind_Ok in H as (s1 & w2 & Hs & H).
    apply except_Ok in Hs.
    apply bind_Ok in Hs as ([[oc j] a] & w3 & Hres & Hs).
    apply resolve_loop_attribute in Hres as (attr & -> & _ & Hlast & _);
      [|apply split_on_nonempty].
    apply apply_direction_Ok in Hs as (attr' & t & ty & Hoc & Ht & Hd & Hm & ->).
    simpl in Hoc. injection Hoc as <- <-.
    apply IH in H as (terms & added & Ho & Hj & Hall).
    simpl in Ho, Hj.
    destruct (apply_joins_frame j stmt) as (_ & _ & Hob).
    rewrite Hob in Ho. rewrite apply_joins_clauses in Hj.
    exists (t :: terms), (join_clauses j ++ added).
    split; [rewrite Ho, <- app_assoc; reflexivity|].
    split; [rewrite Hj, <- app_assoc; reflexivity|].
    constructor; [|exact Hall].
    split; [exact Hd|]. exists columns, col, ty.
    rewrite Ht. auto.
Qed.

(** X12: when [apply_ordering] returns, it has added one ORDER BY term per
    order key, in the order of the keys, after the terms the statement had
    (so earlier keys take precedence); each term has the direction of its
    key and is on a mapped column named by the last part of the key's
    column path.  It has added joins after those the statement had, and
    nothing else. *)
Theorem X12_one_term_per_order_key (self : DataTables) (stmt stmt' : Select)
    (request_data : DataTablesRequest) (w w' : World) :
  apply_ordering schema self stmt request_data w = (Ok stmt', w') ->
  exists terms added,
    sel_order_by stmt' = sel_order_by stmt ++ terms
    /\ sel_joins stmt' = sel_joins stmt ++ added
    /\ Forall2 (term_of_key request_data)
         (default [] (rq_order request_data)) terms
    /\ sel_where stmt' = sel_where stmt
    /\ sel_from stmt' = sel_from stmt.
Proof.
  intros H.
  destruct (apply_ordering_where schema self stmt stmt' request_data w w' H)
    as [Hw Hf].
  unfold apply_ordering in H.
  destruct (rq_order request_data) as [[|key rest]|]; simpl.
  - injection H as <- <-. exists [], []. rewrite !app_nil_r. auto.
  - apply apply_ordering_loop_terms in H as (terms & added & H1 & H2 & H3).
    exists terms, added. auto.
  - injection H as <- <-. exists [], []. rewrite !app_nil_r. auto.
Qed.

Lemma ordering_loops_agree (orders : list OrderSpec) :
  forall model stmt request_data columns w,
    rq_columns request_data = Some columns ->
    Forall (fun col => col_orderable col = true
                       /\ PyStr.nonempty (col_name col) = true) columns ->
    order_column_loop schema orders model stmt request_data w =
    apply_ordering_loop schema orders model stmt request_data w.
Proof.
  induction orders as [|key rest IH];
    intros model stmt request_data columns w Hcols Hall; [reflexivity|].
  simpl. rewrite !bind_run.
  destruct (column_at request_data (ord_column key) w) as [[col|e] w1] eqn:Hcol;
    [|reflexivity].
  apply column_at_Ok in Hcol as (-> & columns' & Hcols' & Hidx).
  rewrite Hcols in Hcols'. injection Hcols' as <-.
  apply py_index_In in Hidx. rewrite Forall_forall in Hall.
  destruct (Hall col) as [Ho Hn]; [apply list_elem_of_In; exact Hidx|].
  rewrite Ho, Hn. simpl. rewrite !bind_run.
  unfold except_AttributeError, resolve_column. rewrite !bind_run.
  destruct (resolve_loop schema (PyStr.split_on "." (col_name col)) model []
              None [] ∅ w) as [[[[oc j] a]|e] w1] eqn:Hres.
  - apply resolve_loop_attribute in Hres as (attr & -> & _);
      [|apply split_on_nonempty].
    cbv beta iota.
    change (method_receiver (Some attr)) with (read_local (Some attr)).
    match goal with
    | |- match (let (r, w') := ?x in _) with _ => _ end = _ =>
        destruct x as [[s|e] w2]
    end.
    + apply (IH _ _ _ columns); [exact Hcols | apply Forall_forall; exact Hall].
    + destruct e; reflexivity.
  - destruct e; reflexivity.
Qed.

(** X13: on a request whose columns are all orderable and all have a
    name, [order_column] of [utils.py] and [apply_ordering] of [core.py]
    are the same function: same statement, same exception, same aliases. *)
Theorem X13_orderings_agree (self : DataTables) (stmt : Select)
    (request_data : DataTablesRequest) (columns : list DataTablesColumn)
    (w : World) :
  rq_columns request_data = Some columns ->
  Forall (fun col => col_orderable col = true
                     /\ PyStr.nonempty (col_name col) = true) columns ->
  order_column schema (Mapped (dt_model self)) stmt request_data w =
  apply_ordering schema self stmt request_data w.
Proof.
  intros Hcols Hall. unfold order_column, apply_ordering.
  destruct (rq_order request_data) as [[|key rest]|]; try reflexivity.
  eapply ordering_loops_agree; eassumption.
Qed.

(** X14: the column index of an order key is a Python list index.  An
    index from [-n] up to [-1], for [n] columns, points at the column [n]
    places further on; an index outside [-n .. n-1] makes both ordering
    functions raise [IndexError] (not [InvalidColumnError]: the lookup is
    outside the guarded block), and so do missing columns with
    [TypeError]. *)
Theorem X14_order_key_index (self : DataTables) (stmt : Select)
    (request_data : DataTablesRequest) (key : OrderSpec)
    (rest : list OrderSpec) (w : World) :
  rq_order request_data = Some (key :: rest) ->
  (forall columns,
     rq_columns request_data = Some columns ->
     (ord_column key < - Z.of_nat (List.length columns)
      \/ Z.of_nat (List.length columns) <= ord_column key) ->
     apply_ordering schema self stmt request_data w = (Raise IndexError, w)
     /\ order_column schema (Mapped (dt_model self)) stmt request_data w
        = (Raise IndexError, w))
  /\ (rq_columns request_data = None ->
      apply_ordering schema self stmt request_data w = (Raise TypeError, w)
      /\ order_column schema (Mapped (dt_model self)) stmt request_data w
         = (Raise TypeError, w))
  /\ (forall columns : list DataTablesColumn,
        - Z.of_nat (List.length columns) <= ord_column key < 0 ->
        py_index columns (ord_column key) =
        py_index columns (ord_column key + Z.of_nat (List.length columns))).
Proof.
  intros Horder. split; [|split].
  - intros columns Hcols Hout.
    assert (Hidx : py_index columns (ord_column key) = None).
    { unfold py_index.
      destruct (Z.leb_spec 0 (ord_column key)), (Z.ltb_spec (ord_column key)
                  (Z.of_nat (List.length columns))); simpl; try lia;
        destruct (Z.leb_spec (- Z.of_nat (List.length columns)) (ord_column key)),
                 (Z.ltb_spec (ord_column key) 0); simpl; try lia; reflexivity. }
    unfold apply_ordering, order_column. rewrite Horder. simpl.
    rewrite !bind_run. unfold column_at. rewrite Hcols, Hidx. auto.
  - intros Hnone. unfold apply_ordering, order_column. rewrite Horder. simpl.
    rewrite !bind_run. unfold column_at. rewrite Hnone. auto.
  - intros columns Hrange. unfold py_index.
    destruct (Z.leb_spec 0 (ord_column key)); simpl; [lia|].
    destruct (Z.leb_spec (- Z.of_nat (List.length columns)) (ord_column key));
      simpl; [|lia].
    destruct (Z.ltb_spec (ord_column key) 0); simpl; [|lia].
    destruct (Z.leb_spec 0 (ord_column key + Z.of_nat (List.length columns)));
      simpl; [|lia].
    destruct (Z.ltb_spec (ord_column key + Z.of_nat (List.length columns))
                (Z.of_nat (List.length columns))); simpl; [|lia].
    f_equal. lia.
Qed.

End Ordering.

Lemma X12_one_term_per_order_key_witness :
  exists terms added,
    [Asc student_name; Desc student_age] = [] ++ terms
    /\ ([] : list (ModelRef * Attr)) = [] ++ added
    /\ Forall2 (term_of_key two_keys_request)
         [mkOrder 1 "asc"; mkOrder (-2) "desc"] terms
    /\ ([] : list Pred) = []
    /\ "Student" = "Student".
Proof.
  exact (X12_one_term_per_order_key student_schema student_tables
           (select "Student")
           (mkSelect "Student" [] [] [Asc student_name; Desc student_age]
              None None)
           two_keys_request world0 world0 eq_refl).
Defined.

Lemma X13_orderings_agree_witness :
  order_column student_schema (Mapped "Student") (select "Student")
    two_keys_request world0 =
  apply_ordering student_schema student_tables (select "Student")
    two_keys_request world0.
Proof.
  apply (X13_orderings_agree student_schema student_tables (select "Student")
           two_keys_request
           [mkColumn "age" true true no_search;
            mkColumn "name" true true no_search] world0 eq_refl).
  repeat constructor.
Defined.

Lemma X14_order_key_index_witness :
  apply_ordering student_schema student_tables (select "Student")
    out_of_range_request world0 = (Raise IndexError, world0)
  /\ order_column student_schema (Mapped "Student") (select "Student")
       out_of_range_request world0 = (Raise IndexError, world0).
Proof.
  destruct (X14_order_key_index student_schema student_tables (select "Student")
              out_of_range_request (mkOrder 2 "asc") [] world0 eq_refl)
    as [H _].
  apply (H [mkColumn "age" true true no_search;
            mkColumn "name" true true no_search] eq_refl).
  right. simpl. lia.
Defined.

(** ** When [process] answers *)

Lemma find_none_Forall {A : Type} (f : A -> bool) (l : list A) :
  find f l = None <-> Forall (fun x => f x = false) l.
Proof.
  induction l as [|x l IH]; simpl; [split; auto|].
  destruct (f x) eqn:E.
  - split; [discriminate|]. intros H. inversion H; congruence.
  - rewrite IH. split; [auto|]. intros H. inversion H; assumption.
Qed.

Section Answers.

Context (schema : Schema).

Lemma all_searchable_resolve (root : Entity) (columns : list DataTablesColumn) :
  find (unresolved_searchable schema root) columns = None <->
  Forall (fun col => col_searchable col = true ->
                     resolves schema root (col_name col) = true) columns.
Proof.
  rewrite find_none_Forall. apply Forall_iff. intros col.
  unfold unresolved_searchable.
  destruct (col_searchable col), (resolves schema root (col_name col));
    simpl; intuition congruence.
Qed.

Lemma global_search_returns_iff (self : DataTables) (stmt : Select)
    (request_data : DataTablesRequest) (columns : list DataTablesColumn)
    (w : World) :
  PyStr.nonempty (search_value_of request_data) = true ->
  rq_columns request_data = Some columns ->
  (exists stmt' w',
     get_filtered_query schema self stmt request_data w = (Ok stmt', w'))
  <-> Forall (fun col => col_searchable col = true ->
                         resolves schema (dt_model self) (col_name col) = true)
        columns.
Proof.
  intros Hne Hcols. rewrite <- all_searchable_resolve.
  unfold get_filtered_query. rewrite Hne, Hcols, bind_run.
  pose proof (get_filtered_query_loop_run schema (dt_model self)
                (Mapped (dt_model self)) (search_value_of request_data)
                columns eq_refl [] [] ∅ w
                (aliases_consistent_empty schema _)) as Hrun.
  destruct (find (unresolved_searchable schema (dt_model self)) columns)
    as [bad|].
  - destruct Hrun as (w' & ->). split; [|discriminate].
    intros (stmt' & w'' & H). discriminate.
  - destruct Hrun as (conds & j & a & w' & ->). split; [reflexivity|].
    intros _. cbv beta iota. destruct conds; eauto.
Qed.

(** X15: with a search value, the global search of [core.py] returns a
    statement exactly when every searchable column has a path the schema
    knows; otherwise it raises. *)
Theorem X15_global_search_returns_iff (self : DataTables) (stmt : Select)
    (request_data : DataTablesRequest) (columns : list DataTablesColumn)
    (w : World) :
  PyStr.nonempty (search_value_of request_data) = true ->
  rq_columns request_data = Some columns ->
  (exists stmt' w',
     get_filtered_query schema self stmt request_data w = (Ok stmt', w'))
  <-> Forall (fun col => col_searchable col = true ->
                         resolves schema (dt_model self) (col_name col) = true)
        columns.
Proof. apply global_search_returns_iff. Qed.

Lemma apply_ordering_loop_applicable (root : Entity) (model : ModelRef)
    (request_data : DataTablesRequest) (orders : list OrderSpec) :
  class_of model = root ->
  forall stmt w,
    (exists stmt' w',
       apply_ordering_loop schema orders model stmt request_data w
       = (Ok stmt', w'))
    <-> Forall (key_applicable schema root request_data) orders.
Proof.
  intros <-. induction orders as [|key rest IH]; intros stmt w.
  - simpl. split; [constructor | eauto].
  - split.
    + intros (stmt' & w' & H). simpl in H.
      apply bind_Ok in H as (col & w1 & Hcol & H).
      apply column_at_Ok in Hcol as (-> & columns & Hcols & Hidx).
      apply bind_Ok in H as (s1 & w2 & Hs & H).
      apply except_Ok in Hs.
      apply bind_Ok in Hs as ([[oc j] a] & w3 & Hres & Hs).
      apply apply_direction_Ok in Hs as (attr & t & ty & Hoc & Ht & Hd & Hm & ->).
      constructor; [|apply (IH (stmt_order_by (apply_joins stmt j) t) w2); eauto].
      split; [destruct t; simpl in Hd; auto|].
      exists columns, col, ty. repeat (split; [assumption|]).
      pose proof (resolve_loop_walk schema (class_of model)
                    (PyStr.split_on "." (col_name col)) [] model None [] ∅ w
                    (split_on_nonempty _ _) (split_on_free _ _)
                    eq_refl
                    (aliases_consistent_empty schema _)) as Hwalk.
      unfold path_of.
      destruct (walk schema (class_of model) (PyStr.split_on "." (col_name col)))
        as [member|].
      * destruct Hwalk as (attr' & j' & a' & w4 & Hres' & Hmem & _).
        rewrite Hres in Hres'. injection Hres' as -> _ _ _.
        simpl in Hoc. injection Hoc as -> _. congruence.
      * destruct Hwalk as (w4 & Hres'). rewrite Hres in Hres'. discriminate.
    + intros Hall. inversion Hall as [|? ? Hkey Hrest]; subst.
      destruct Hkey as (Hdir & columns & col & ty & Hcols & Hidx & Hw).
      pose proof (resolve_loop_walk schema (class_of model)
                    (PyStr.split_on "." (col_name col)) [] model None [] ∅ w
                    (split_on_nonempty _ _) (split_on_free _ _)
                    eq_refl
                    (aliases_consistent_empty schema _)) as Hwalk.
      unfold path_of in Hw. rewrite Hw in Hwalk.
      destruct Hwalk as (attr & j & a & w1 & Hres & Hmem & _).
      simpl. rewrite bind_run. unfold column_at. rewrite Hcols, Hidx, mret_run.
      cbv beta iota. rewrite bind_run. unfold except_AttributeError.
      rewrite bind_run, Hres. cbv beta iota.
      assert (Hdirection : exists t,
                 apply_direction (apply_joins stmt j) (ord_dir key)
                   (read_local (Some attr)) w1
                 = (Ok (stmt_order_by (apply_joins stmt j) t), w1)).
      { unfold apply_direction.
        destruct Hdir as [-> | ->]; simpl; rewrite bind_run, mret_run;
          cbv beta iota; rewrite bind_run; unfold attr_order; rewrite Hmem;
          rewrite mret_run; cbv beta iota; eauto. }
      destruct Hdirection as (t & ->).
      apply (IH (stmt_order_by (apply_joins stmt j) t) w1). exact Hrest.
Qed.

Lemma filtered_query_returns_iff (self : DataTables)
    (request_data : DataTablesRequest) (stmt : Select) (w : World) :
  (exists stmt' w',
     get_filtered_query schema self stmt request_data w = (Ok stmt', w'))
  <-> (PyStr.nonempty (search_value_of request_data) = true ->
       exists columns,
         rq_columns request_data = Some columns
         /\ Forall (fun col => col_searchable col = true ->
                               resolves schema (dt_model self) (col_name col)
                               = true) columns).
Proof.
  destruct (PyStr.nonempty (search_value_of request_data)) eqn:Hne.
  - destruct (rq_columns request_data) as [columns|] eqn:Hcols.
    + rewrite (global_search_returns_iff self stmt request_data columns
                 w Hne Hcols).
      split.
      * intros H _. eauto.
      * intros H. destruct (H eq_refl) as (columns' & [= <-] & Hall).
        exact Hall.
    + split.
      * intros (stmt' & w' & H). unfold get_filtered_query in H.
        rewrite Hne, Hcols in H. discriminate.
      * intros H. destruct (H eq_refl) as (columns & Hc & _). discriminate.
  - split; [intros _ H; discriminate|].
    intros _. unfold get_filtered_query. rewrite Hne. eauto.
Qed.

Lemma ordering_returns_iff (self : DataTables)
    (request_data : DataTablesRequest) (stmt : Select) (w : World) :
  (exists stmt' w',
     apply_ordering schema self stmt request_data w = (Ok stmt', w'))
  <-> Forall (key_applicable schema (dt_model self) request_data)
        (default [] (rq_order request_data)).
Proof.
  unfold apply_ordering.
  destruct (rq_order request_data) as [[|key rest]|]; simpl.
  - split; [constructor | eauto].
  - apply (apply_ordering_loop_applicable (dt_model self)
             (Mapped (dt_model self)) request_data (key :: rest) eq_refl).
  - split; [constructor | eauto].
Qed.

(** X16: the requests the compiler accepts.  [process] returns a response
    for answerable requests only: those where, if there is a search value,
    the columns are given and every searchable one has a path the schema
    knows, and where every order key has the direction ["asc"] or
    ["desc"], an index that points at a column, and a path that leads to a
    mapped column.  And the answerable requests are exactly the ones that
    the two stages of [process] that can refuse a request let through:
    [get_filtered_query] and [apply_ordering] both return, on every
    statement. *)
Theorem X16_answerable_requests (self : DataTables)
    (request_data : DataTablesRequest) :
  (forall w resp w',
     process schema self request_data w = (Ok resp, w') ->
     answerable schema (dt_model self) request_data)
  /\ (answerable schema (dt_model self) request_data <->
      (forall stmt w, exists stmt' w',
         get_filtered_query schema self stmt request_data w = (Ok stmt', w'))
      /\ (forall stmt w, exists stmt' w',
            apply_ordering schema self stmt request_data w = (Ok stmt', w'))).
Proof.
  split.
  - intros w resp w' H.
    apply process_Ok in H as (counted & ordered & w1 & w2 & Hf & Ho & _).
    split.
    + eapply filtered_query_returns_iff. eauto.
    + eapply ordering_returns_iff. eauto.
  - split.
    + intros [Hsearch Horders]. split; intros stmt w.
      * apply filtered_query_returns_iff. exact Hsearch.
      * apply ordering_returns_iff. exact Horders.
    + intros [Hf Ho]. split.
      * apply (filtered_query_returns_iff self request_data
                 (base_query self) world0), Hf.
      * apply (ordering_returns_iff self request_data
                 (base_query self) world0), Ho.
Qed.

End Answers.

Lemma X15_global_search_returns_iff_witness :
  Forall (fun col => col_searchable col = true ->
                     resolves library_schema "Book" (col_name col) = true)
    [mkColumn "title" true true no_search;
     mkColumn "missing.field" false true no_search].
Proof.
  apply (X15_global_search_returns_iff library_schema book_tables
           (select "Book") hidden_bad_path_request _ world0 eq_refl eq_refl).
  exists (stmt_where (select "Book")
            (Or_ [Ilike (ColumnRef (mkAttr (Mapped "Book") "title"
                                      (Column TString))) "%smith%"])),
    world0.
  reflexivity.
Defined.

Lemma X16_answerable_requests_witness :
  answerable student_schema "Student" two_keys_request
  /\ ~ answerable student_schema "Student" out_of_range_request.
Proof.
  split.
  - destruct (X16_answerable_requests student_schema student_tables
                two_keys_request) as [H _].
    apply (H world0 (mkResponse (Some 1) 3 3 (three_rows (select "Student")))
             (snd (process student_schema student_tables two_keys_request
                     world0))).
    reflexivity.
  - intros H.
    destruct (X16_answerable_requests student_schema student_tables
                out_of_range_request) as [_ [Hstages _]].
    destruct (Hstages H) as [_ Ho].
    destruct (Ho (select "Student") world0) as (stmt' & w' & Hrun).
    vm_compute in Hrun. discriminate.
Defined.

(** ** The calls [process] makes on the backend *)

Section Protocol.

Context (schema : Schema).

Lemma quiet_resolve_column (model : ModelRef) (column_path : string)
    (j : JoinDict) (a : gmap string ModelRef) :
  quiet (resolve_column schema model column_path j a).
Proof. unfold resolve_column. apply quiet_resolve_loop. Qed.

Lemma quiet_global_filter_loop (columns : list DataTablesColumn) :
  forall model sv conds j a,
    quiet (global_filter_loop schema columns model sv conds j a).
Proof.
  induction columns as [|col rest IH]; intros; simpl; [apply quiet_ret|].
  destruct (col_searchable col); [|apply IH].
  apply quiet_bind.
  - apply quiet_except; [|apply quiet_raise].
    apply quiet_bind; [apply quiet_resolve_column|].
    intros [[ca j'] a']. destruct ca as [ca|]; [|apply quiet_ret].
    destruct (build_condition ca CONTAINS sv); apply quiet_ret.
  - intros [[c j'] a']. apply IH.
Qed.

Lemma quiet_global_filter (search_value : string) (stmt : Select)
    (columns : list DataTablesColumn) (model : ModelRef) :
  quiet (global_filter schema search_value stmt columns model).
Proof.
  unfold global_filter. destruct (PyStr.nonempty _); [|apply quiet_ret].
  apply quiet_bind; [apply quiet_global_filter_loop|].
  intros [[c j] a]. destruct c; apply quiet_ret.
Qed.

Lemma quiet_column_filter_loop (columns : list DataTablesColumn) :
  forall model conds j a,
    quiet (column_filter_loop schema columns model conds j a).
Proof.
  induction columns as [|col rest IH]; intros; simpl; [apply quiet_ret|].
  destruct (negb (col_searchable col)); [apply IH|].
  destruct (negb (PyStr.nonempty (filter_value col))); [apply IH|].
  apply quiet_bind.
  - apply quiet_except; [|apply quiet_raise].
    apply quiet_bind; [apply quiet_resolve_column|].
    intros [[ca j'] a']. destruct ca as [ca|]; [|apply quiet_ret].
    destruct (build_condition ca CONTAINS (filter_value col)); apply quiet_ret.
  - intros [[c j'] a']. apply IH.
Qed.

Lemma quiet_column_filter (stmt : Select) (columns : list DataTablesColumn)
    (model : ModelRef) :
  quiet (column_filter schema stmt columns model).
Proof.
  unfold column_filter.
  apply quiet_bind; [apply quiet_column_filter_loop|].
  intros [[c j] a]. destruct c; apply quiet_ret.
Qed.

Lemma quiet_method_receiver (v : option Attr) : quiet (method_receiver v).
Proof. destruct v; simpl; [apply quiet_ret | apply quiet_raise]. Qed.

Lemma quiet_order_column_loop (orders : list OrderSpec) :
  forall model stmt request_data,
    quiet (order_column_loop schema orders model stmt request_data).
Proof.
  induction orders as [|o rest IH]; intros; simpl; [apply quiet_ret|].
  apply quiet_bind; [apply quiet_column_at|intros col].
  destruct (negb (col_orderable col)); [apply IH|].
  destruct (negb (PyStr.nonempty (col_name col))); [apply IH|].
  apply quiet_bind; [|intros; apply IH].
  apply quiet_except; [|apply quiet_raise].
  apply quiet_bind; [apply quiet_resolve_column|].
  intros [[oc j] a]. apply quiet_apply_direction, quiet_method_receiver.
Qed.

Lemma quiet_order_column (model : ModelRef) (stmt : Select)
    (request_data : DataTablesRequest) :
  quiet (order_column schema model stmt request_data).
Proof.
  unfold order_column. destruct (rq_order request_data) as [[|o l]|];
    try apply quiet_ret. apply quiet_order_column_loop.
Qed.

Lemma quiet_get_query (self : DataTables) : quiet (get_query self).
Proof. unfold get_query. destruct (base_statment self); apply quiet_ret. Qed.

(** X17: building the query never touches the database.  Whatever the
    request, and whether they return or raise, [get_query],
    [get_filtered_query] and [apply_ordering] of [core.py] and
    [resolve_column], [global_filter], [column_filter] and [order_column]
    of [utils.py] make no call on the backend. *)
Theorem X17_query_building_is_quiet (self : DataTables) (model : ModelRef)
    (stmt : Select) (request_data : DataTablesRequest)
    (search_value : string) (columns : list DataTablesColumn) :
  quiet (get_query self)
  /\ quiet (get_filtered_query schema self stmt request_data)
  /\ quiet (apply_ordering schema self stmt request_data)
  /\ (forall column_path joins aliased_models,
        quiet (resolve_column schema model column_path joins aliased_models))
  /\ quiet (global_filter schema search_value stmt columns model)
  /\ quiet (column_filter schema stmt columns model)
  /\ quiet (order_column schema model stmt request_data).
Proof.
  split; [apply quiet_get_query|].
  split; [apply quiet_get_filtered_query|].
  split; [apply quiet_apply_ordering|].
  split; [intros; apply quiet_resolve_column|].
  split; [apply quiet_global_filter|].
  split; [apply quiet_column_filter | apply quiet_order_column].
Qed.

Lemma get_filtered_query_frame (self : DataTables) (stmt stmt' : Select)
    (request_data : DataTablesRequest) (w w' : World) :
  get_filtered_query schema self stmt request_data w = (Ok stmt', w') ->
  sel_from stmt' = sel_from stmt
  /\ sel_order_by stmt' = sel_order_by stmt
  /\ sel_offset stmt' = sel_offset stmt
  /\ sel_limit stmt' = sel_limit stmt.
Proof.
  unfold get_filtered_query. intros H.
  destruct (PyStr.nonempty (search_value_of request_data)).
  - destruct (rq_columns request_data) as [columns|]; [|discriminate].
    apply bind_Ok in H as ([[conds j] a] & w1 & _ & H).
    destruct (apply_joins_frame j stmt) as (F & _ & O).
    destruct (apply_joins_paging j stmt) as (Of & L).
    destruct conds; injection H as <- <-; simpl; auto.
  - injection H as <- <-. auto.
Qed.

(** X18: the three numbers of a response belong to one query.  When
    [process] returns, the total is counted on the base query; the filtered
    count is taken on a statement that has the FROM, ORDER BY, offset and
    limit of the base query; and the statement executed for the page is
    that counted statement with joins and ORDER BY terms added, the
    request's [start] and [length] as offset and limit, and the same WHERE
    clauses.  The response echoes the request's [draw]. *)
Theorem X18_response_of_one_query (self : DataTables)
    (request_data : DataTablesRequest) (w w' : World)
    (resp : DataTablesResponse) :
  process schema self request_data w = (Ok resp, w') ->
  exists counted final added terms,
    backend_calls w' =
      backend_calls w ++ [GetTotalRecords (base_query self);
                          GetFilteredRecords counted; ExecuteQuery final]
    /\ resp = mkResponse (rq_draw request_data)
                (get_total_records (db_backend self) (base_query self))
                (get_filtered_records (db_backend self) counted)
                (execute_query (db_backend self) final)
    /\ sel_from counted = sel_from (base_query self)
    /\ sel_order_by counted = sel_order_by (base_query self)
    /\ sel_offset counted = sel_offset (base_query self)
    /\ sel_limit counted = sel_limit (base_query self)
    /\ sel_from final = sel_from counted
    /\ sel_where final = sel_where counted
    /\ sel_joins final = sel_joins counted ++ added
    /\ sel_order_by final = sel_order_by counted ++ terms
    /\ List.length terms = List.length (default [] (rq_order request_data)).
Proof.
  intros H.
  apply process_Ok in H as (counted & ordered & w1 & w2 & Hf & Ho & -> & Hlog).
  apply get_filtered_query_frame in Hf as (F1 & F2 & F3 & F4).
  destruct (apply_ordering_where schema self counted ordered request_data _ _ Ho)
    as [Hw Hfrom].
  assert (Hterms : exists terms added,
             sel_order_by ordered = sel_order_by counted ++ terms
             /\ sel_joins ordered = sel_joins counted ++ added
             /\ List.length terms
                = List.length (default [] (rq_order request_data))).
  { unfold apply_ordering in Ho.
    destruct (rq_order request_data) as [[|key rest]|]; simpl.
    - injection Ho as <- <-. exists [], []. rewrite !app_nil_r. auto.
    - apply apply_ordering_loop_terms in Ho as (terms & added & H1 & H2 & H3).
      exists terms, added. repeat (split; [assumption|]).
      symmetry. apply (Forall2_length _ _ _ H3).
    - injection Ho as <- <-. exists [], []. rewrite !app_nil_r. auto. }
  destruct Hterms as (terms & added & H1 & H2 & H3).
  exists counted,
    (stmt_limit (stmt_offset ordered (rq_start request_data))
       (rq_length request_data)), added, terms.
  split; [exact Hlog|]. simpl.
  repeat (split; [assumption || reflexivity|]). exact H3.
Qed.

End Protocol.

Lemma X18_response_of_one_query_witness :
  exists counted final added terms,
    backend_calls
      (snd (process library_schema book_tables shared_prefix_request world0)) =
      [] ++ [GetTotalRecords (select "Book");
             GetFilteredRecords counted; ExecuteQuery final]
    /\ mkResponse (Some 1) 3 3 (three_rows (select "Book"))
       = mkResponse (Some 1) 3 3 (three_rows final)
    /\ sel_from counted = "Book"
    /\ sel_order_by counted = []
    /\ sel_offset counted = None
    /\ sel_limit counted = None
    /\ sel_from final = sel_from counted
    /\ sel_where final = sel_where counted
    /\ sel_joins final = sel_joins counted ++ added
    /\ sel_order_by final = sel_order_by counted ++ terms
    /\ List.length terms = 1%nat.
Proof.
  exact (X18_response_of_one_query library_schema book_tables
           shared_prefix_request world0
           (snd (process library_schema book_tables shared_prefix_request world0))
           (mkResponse (Some 1) 3 3 (three_rows (select "Book"))) eq_refl).
Defined.

(** ** No column without its join *)

Lemma pred_operands_Or (P : SqlExpr -> Prop) (ps : list Pred) :
  Forall P (pred_operands (Or_ ps)) <->
  Forall (fun p => Forall P (pred_operands p)) ps.
Proof.
  induction ps as [|p ps IH]; simpl.
  - split; constructor.
  - change (Forall P (pred_operands p ++ pred_operands (Or_ ps)) <->
            Forall (fun p => Forall P (pred_operands p)) (p :: ps)).
    rewrite Forall_app, Forall_cons, IH. reflexivity.
Qed.

Lemma pred_operands_And (P : SqlExpr -> Prop) (ps : list Pred) :
  Forall P (pred_operands (And_ ps)) <->
  Forall (fun p => Forall P (pred_operands p)) ps.
Proof.
  induction ps as [|p ps IH]; simpl.
  - split; constructor.
  - change (Forall P (pred_operands p ++ pred_operands (And_ ps)) <->
            Forall (fun p => Forall P (pred_operands p)) (p :: ps)).
    rewrite Forall_app, Forall_cons, IH. reflexivity.
Qed.

Lemma in_step_joined (j : JoinDict) (a : gmap string ModelRef)
    (prefix : string) (m : ModelRef) :
  dicts_in_step j a -> a !! prefix = Some m -> m ∈ (join_clauses j).*1.
Proof.
  intros [Hnd ->] H.
  apply elem_of_list_to_map in H; [|rewrite alias_entries_keys; exact Hnd].
  unfold alias_entries in H. apply list_elem_of_fmap in H as ([k [r m']] & E & Hin).
  simpl in E. injection E as -> ->.
  unfold join_clauses. apply list_elem_of_fmap.
  exists (m', r). split; [reflexivity|].
  change (map ?f j) with (f <$> j). apply list_elem_of_fmap.
  exists (k, (r, m')). auto.
Qed.

Lemma in_scope_more (root : ModelRef) (joins added : list (ModelRef * Attr))
    (a : Attr) :
  in_scope root joins a -> in_scope root (joins ++ added) a.
Proof.
  intros [H|H]; [left; exact H | right].
  rewrite fmap_app. apply elem_of_app. auto.
Qed.

Lemma owner_known_in_scope (root : ModelRef) (joins : list (ModelRef * Attr))
    (j : JoinDict) (a : gmap string ModelRef) (attr : Attr) :
  dicts_in_step j a -> owner_known root a attr ->
  in_scope root (joins ++ join_clauses j) attr.
Proof.
  intros Hstep [H | (prefix & H)]; [left; exact H | right].
  rewrite fmap_app. apply elem_of_app. right.
  eapply in_step_joined; eassumption.
Qed.

Lemma owner_known_more (model : ModelRef) (a a' : gmap string ModelRef)
    (attr : Attr) :
  a ⊆ a' -> owner_known model a attr -> owner_known model a' attr.
Proof.
  intros Hsub [H | (prefix & H)]; [left; exact H | right].
  exists prefix. eapply lookup_weaken; eassumption.
Qed.

Lemma statement_closed_more (root : ModelRef) (stmt stmt' : Select)
    (added : list (ModelRef * Attr)) :
  statement_closed root stmt ->
  sel_joins stmt' = sel_joins stmt ++ added ->
  sel_where stmt' = sel_where stmt ->
  sel_order_by stmt' = sel_order_by stmt ->
  statement_closed root stmt'.
Proof.
  intros [Hw Ho] Hj Hw' Ho'. unfold statement_closed.
  rewrite Hj, Hw', Ho'. split.
  - eapply Forall_impl; [exact Hw|]. intros p Hp.
    eapply Forall_impl; [exact Hp|]. intros e. apply in_scope_more.
  - eapply Forall_impl; [exact Ho|]. intros t. apply in_scope_more.
Qed.

Section Scope.

Context (schema : Schema).

Lemma get_filtered_query_loop_scope (columns : list DataTablesColumn) :
  forall model sv conds j a w conds' j' a' w',
    get_filtered_query_loop schema columns model sv conds j a w
      = (Ok (conds', j', a'), w') ->
    dicts_in_step j a ->
    Forall (operands_known model a) conds ->
    dicts_in_step j' a' /\ Forall (operands_known model a') conds'.
Proof.
  induction columns as [|col rest IH];
    intros model sv conds j a w conds' j' a' w' H Hstep Hc; simpl in H.
  - injection H as <- <- <- <-. auto.
  - destruct (col_searchable col); [|eapply IH; eassumption].
    apply bind_Ok in H as ([[c1 j1] a1] & w1 & Hbody & H).
    apply except_Ok in Hbody.
    apply bind_Ok in Hbody as ([[ca j2] a2] & w2 & Hres & Hbody).
    pose proof (resolve_loop_in_step schema _ _ _ _ _ _ _ _ _ _ _ Hres Hstep)
      as Hstep2.
    pose proof (resolve_loop_again schema _ _ _ _ _ _ _ _ _ _ _ Hres)
      as (Hsub & _).
    apply resolve_loop_attribute in Hres as (attr & -> & _ & _ & Hown);
      [|apply split_on_nonempty].
    assert (Hc2 : Forall (operands_known model a2) conds).
    { eapply Forall_impl; [exact Hc|]. intros p Hp.
      eapply Forall_impl; [exact Hp|]. intros e.
      apply owner_known_more. exact Hsub. }
    assert (j1 = j2 /\ a1 = a2 /\ Forall (operands_known model a2) c1)
      as (-> & -> & Hc1).
    { destruct (attr_type attr) as [ty|];
        [|injection Hbody as <- <- <- <-; auto].
      destruct (is_string_type ty); injection Hbody as <- <- <- <-; auto.
      repeat split. apply Forall_app. split; [exact Hc2|].
      constructor; [|constructor]. unfold operands_known. simpl.
      constructor; [exact Hown | constructor]. }
    eapply IH; eassumption.
Qed.

Lemma get_filtered_query_closed (self : DataTables) (stmt stmt' : Select)
    (request_data : DataTablesRequest) (w w' : World) :
  get_filtered_query schema self stmt request_data w = (Ok stmt', w') ->
  statement_closed (Mapped (dt_model self)) stmt ->
  statement_closed (Mapped (dt_model self)) stmt'.
Proof.
  unfold get_filtered_query. intros H Hclosed.
  destruct (PyStr.nonempty (search_value_of request_data));
    [|injection H as <- <-; exact Hclosed].
  destruct (rq_columns request_data) as [columns|]; [|discriminate].
  apply bind_Ok in H as ([[conds j] a] & w1 & Hloop & H).
  apply get_filtered_query_loop_scope in Hloop as [Hstep Hconds];
    [|split; [constructor | reflexivity] | constructor].
  pose proof (apply_joins_clauses j stmt) as J.
  destruct (apply_joins_frame j stmt) as (F & W & O).
  assert (Hj : statement_closed (Mapped (dt_model self)) (apply_joins stmt j))
    by (eapply statement_closed_more; eassumption).
  destruct conds as [|c conds]; injection H as <- <-; [exact Hj|].
  destruct Hj as [Hw Ho]. split; [|exact Ho]. simpl.
  apply Forall_app. split; [exact Hw|]. constructor; [|constructor].
  apply pred_operands_Or.
  eapply Forall_impl; [exact Hconds|]. intros p Hp.
  eapply Forall_impl; [exact Hp|]. intros e He.
  rewrite J. eapply owner_known_in_scope; eassumption.
Qed.

Lemma apply_ordering_loop_closed (orders : list OrderSpec) :
  forall model stmt request_data w stmt' w',
    apply_ordering_loop schema orders model stmt request_data w = (Ok stmt', w') ->
    statement_closed model stmt ->
    statement_closed model stmt'.
Proof.
  induction orders as [|key rest IH];
    intros model stmt request_data w stmt' w' H Hclosed; simpl in H.
  - injection H as <- <-. exact Hclosed.
  - apply bind_Ok in H as (col & w1 & _ & H).
    apply bind_Ok in H as (s1 & w2 & Hs & H).
    apply except_Ok in Hs.
    apply bind_Ok in Hs as ([[oc j] a] & w3 & Hres & Hs).
    pose proof (resolve_loop_in_step schema _ _ _ _ _ _ _ _ _ _ _ Hres
                  (conj (NoDup_nil_2 : NoDup ([] : JoinDict).*1) eq_refl))
      as Hstep.
    apply resolve_loop_attribute in Hres as (attr & -> & _ & _ & Hown);
      [|apply split_on_nonempty].
    apply apply_direction_Ok in Hs as (attr' & t & ty & Hoc & Ht & _ & _ & ->).
    simpl in Hoc. injection Hoc as <- <-.
    eapply IH; [exact H|].
    pose proof (apply_joins_clauses j stmt) as J.
    destruct (apply_joins_frame j stmt) as (F & W & O).
    assert (Hj : statement_closed model (apply_joins stmt j))
      by (eapply statement_closed_more; eassumption).
    destruct Hj as [Hw Ho]. split; [exact Hw|]. simpl.
    apply Forall_app. split; [exact Ho|]. constructor; [|constructor].
    rewrite Ht, J. eapply owner_known_in_scope; eassumption.
Qed.

(** X19: [process] never mentions a column without its join.  When every
    column in the WHERE clauses and ORDER BY terms of the base query belongs
    to the model or to an alias the base query joins (as for the default
    base query, which has no clause at all), the same is true of the
    statement the filtered count is taken on and of the statement that is
    executed. *)
Theorem X19_columns_have_their_joins (self : DataTables)
    (request_data : DataTablesRequest) (w w' : World)
    (resp : DataTablesResponse) :
  statement_closed (Mapped (dt_model self)) (base_query self) ->
  process schema self request_data w = (Ok resp, w') ->
  exists counted final,
    backend_calls w' =
      backend_calls w ++ [GetTotalRecords (base_query self);
                          GetFilteredRecords counted; ExecuteQuery final]
    /\ statement_closed (Mapped (dt_model self)) counted
    /\ statement_closed (Mapped (dt_model self)) final.
Proof.
  intros Hbase H.
  apply process_Ok in H as (counted & ordered & w1 & w2 & Hf & Ho & _ & Hlog).
  apply get_filtered_query_closed in Hf; [|exact Hbase].
  assert (Hordered : statement_closed (Mapped (dt_model self)) ordered).
  { unfold apply_ordering in Ho.
    destruct (rq_order request_data) as [[|key rest]|];
      try (injection Ho as <- <-; exact Hf).
    eapply apply_ordering_loop_closed; eassumption. }
  eexists counted, _. split; [exact Hlog|]. split; [exact Hf|].
  exact Hordered.
Qed.

End Scope.

Lemma X19_columns_have_their_joins_witness :
  exists counted final,
    backend_calls
      (snd (process library_schema book_tables shared_prefix_request world0)) =
      [] ++ [GetTotalRecords (select "Book");
             GetFilteredRecords counted; ExecuteQuery final]
    /\ statement_closed (Mapped "Book") counted
    /\ statement_closed (Mapped "Book") final.
Proof.
  apply (X19_columns_have_their_joins library_schema book_tables
           shared_prefix_request world0
           (snd (process library_schema book_tables shared_prefix_request world0))
           (mkResponse (Some 1) 3 3 (three_rows (select "Book")))).
  - split; constructor.
  - reflexivity.
Defined.

(** ** Edges of the resolver, of the ordering and of the request *)

Section Edges.

Context (schema : Schema).

(** X20: a path without a dot never joins: [resolve_column] looks the name
    up on the model it is given, whatever the dictionaries hold, leaves
    them as they are and makes no alias; a name the class does not have
    (the empty name included) raises [AttributeError]. *)
Theorem X20_single_part_path (model : ModelRef) (column_path : string)
    (j : JoinDict) (a : gmap string ModelRef) (w : World) :
  has_char "." column_path = false ->
  resolve_column schema model column_path j a w =
  match schema (class_of model) column_path with
  | Some member => (Ok (Some (mkAttr model column_path member), j, a), w)
  | None => (Raise AttributeError, w)
  end.
Proof.
  intros H. unfold resolve_column.
  rewrite (split_on_absent _ _ H). apply resolve_loop_last.
Qed.

Lemma order_column_loop_kept (orders : list OrderSpec) :
  forall model stmt request_data w,
    order_column_loop schema (List.filter (key_kept request_data) orders)
      model stmt request_data w =
    order_column_loop schema orders model stmt request_data w.
Proof.
  induction orders as [|key rest IH]; intros model stmt request_data w;
    [reflexivity|].
  simpl. unfold key_kept at 1.
  destruct (rq_columns request_data) as [columns|] eqn:Hcols.
  - destruct (py_index columns (ord_column key)) as [col|] eqn:Hidx.
    + destruct (col_orderable col) eqn:Ho; simpl.
      * destruct (PyStr.nonempty (col_name col)) eqn:Hn; simpl.
        -- rewrite !bind_run. unfold column_at. rewrite Hcols, Hidx, mret_run.
           cbv beta iota. rewrite Ho, Hn. simpl. rewrite !bind_run.
           match goal with
           | |- match ?x with _ => _ end = _ => destruct x as [[s|e] w1]
           end; [apply IH | reflexivity].
        -- rewrite IH, bind_run. unfold column_at.
           rewrite Hcols, Hidx, mret_run. cbv beta iota. rewrite Ho, Hn.
           reflexivity.
      * rewrite IH, bind_run. unfold column_at.
        rewrite Hcols, Hidx, mret_run. cbv beta iota. rewrite Ho. reflexivity.
    + simpl. rewrite !bind_run. unfold column_at. rewrite Hcols, Hidx.
      reflexivity.
  - simpl. rewrite !bind_run. unfold column_at. rewrite Hcols. reflexivity.
Qed.

Lemma order_column_loop_columns (orders : list OrderSpec) :
  forall model stmt r r' w,
    rq_columns r = rq_columns r' ->
    order_column_loop schema orders model stmt r w =
    order_column_loop schema orders model stmt r' w.
Proof.
  induction orders as [|key rest IH]; intros model stmt r r' w Hcols;
    [reflexivity|].
  simpl. rewrite !bind_run. unfold column_at. rewrite Hcols.
  match goal with
  | |- match ?x with _ => _ end = _ => destruct x as [[col|e] w1]
  end; [|reflexivity].
  destruct (negb (col_orderable col)); [apply IH; exact Hcols|].
  destruct (negb (PyStr.nonempty (col_name col))); [apply IH; exact Hcols|].
  rewrite !bind_run.
  match goal with
  | |- match ?x with _ => _ end = _ => destruct x as [[s|e] w2]
  end; [apply IH; exact Hcols | reflexivity].
Qed.

(** X21: [order_column] of [utils.py] gives the same result when the order
    keys it passes over are removed from the request: the keys on a column
    that is not orderable or has an empty name count for nothing, whatever
    their direction, and the other keys keep their order. *)
Theorem X21_order_column_kept_keys (model : ModelRef) (stmt : Select)
    (request_data : DataTablesRequest) (orders : list OrderSpec) (w : World) :
  rq_order request_data = Some orders ->
  order_column schema model stmt
    (with_order request_data (List.filter (key_kept request_data) orders)) w =
  order_column schema model stmt request_data w.
Proof.
  intros Horder.
  assert (Hloop : forall r os,
             rq_order r = Some os ->
             order_column schema model stmt r w =
             order_column_loop schema os model stmt r w).
  { intros r os Hr. unfold order_column. rewrite Hr. destruct os; reflexivity. }
  rewrite (Hloop request_data orders Horder).
  rewrite (Hloop (with_order request_data
                    (List.filter (key_kept request_data) orders))
             (List.filter (key_kept request_data) orders) eq_refl).
  rewrite (order_column_loop_columns _ _ _ _ request_data) by reflexivity.
  apply order_column_loop_kept.
Qed.

(** X22: a request body without any key asks for the first ten rows of
    the base query.  Neither [get_filtered_query] nor [apply_ordering] nor
    [order_column] changes the statement or makes an alias; and when
    [process] returns, it has counted the total and the filtered records
    on the base query itself and executed the base query with offset 0 and
    limit 10, and the response has draw 1. *)
Theorem X22_empty_body (self : DataTables) (stmt : Select) (w : World) :
  get_filtered_query schema self stmt empty_body_request w = (Ok stmt, w)
  /\ apply_ordering schema self stmt empty_body_request w = (Ok stmt, w)
  /\ order_column schema (Mapped (dt_model self)) stmt empty_body_request w
     = (Ok stmt, w)
  /\ forall resp w',
       process schema self empty_body_request w = (Ok resp, w') ->
       let base := base_query self in
       let page := stmt_limit (stmt_offset base (Some 0)) (Some 10) in
       resp = mkResponse (Some 1) (get_total_records (db_backend self) base)
                (get_filtered_records (db_backend self) base)
                (execute_query (db_backend self) page)
       /\ backend_calls w' =
            backend_calls w ++ [GetTotalRecords base; GetFilteredRecords base;
                                ExecuteQuery page].
Proof.
  split; [reflexivity|]. split; [reflexivity|]. split; [reflexivity|].
  intros resp w' H. cbv zeta.
  apply process_Ok in H as (counted & ordered & w1 & w2 & Hf & Ho & Hresp & Hlog).
  change (get_filtered_query schema self (base_query self) empty_body_request)
    with (mret (base_query self) : M Select) in Hf.
  rewrite mret_run in Hf. injection Hf as <- <-.
  change (apply_ordering schema self (base_query self) empty_body_request)
    with (mret (base_query self) : M Select) in Ho.
  rewrite mret_run in Ho. injection Ho as <- <-.
  split; [exact Hresp | exact Hlog].
Qed.

End Edges.

Lemma X20_single_part_path_witness :
  resolve_column library_schema (Aliased 4 "Author") "name"
    [("author", (book_author, Aliased 0 "Author"))]
    {[ "author" := Aliased 0 "Author" ]} (mkWorld 5 []) =
  (Ok (Some (mkAttr (Aliased 4 "Author") "name" (Column TString)),
       [("author", (book_author, Aliased 0 "Author"))],
       {[ "author" := Aliased 0 "Author" ]}), mkWorld 5 []).
Proof.
  exact (X20_single_part_path library_schema (Aliased 4 "Author") "name"
           [("author", (book_author, Aliased 0 "Author"))]
           {[ "author" := Aliased 0 "Author" ]} (mkWorld 5 []) eq_refl).
Defined.

Lemma X21_order_column_kept_keys_witness :
  order_column student_schema (Mapped "Student") (select "Student")
    (with_order mixed_keys_request [mkOrder 1 "desc"]) world0 =
  order_column student_schema (Mapped "Student") (select "Student")
    mixed_keys_request world0.
Proof.
  exact (X21_order_column_kept_keys student_schema (Mapped "Student")
           (select "Student") mixed_keys_request
           [mkOrder 0 "sideways"; mkOrder 1 "desc"] world0 eq_refl).
Defined.

Lemma X22_empty_body_witness :
  let page := stmt_limit (stmt_offset (select "Student") (Some 0)) (Some 10) in
  mkResponse (Some 1) 3 3 (three_rows (select "Student"))
  = mkResponse (Some 1) 3 3 (three_rows page)
  /\ backend_calls
       (snd (process student_schema student_tables empty_body_request world0))
     = [] ++ [GetTotalRecords (select "Student");
              GetFilteredRecords (select "Student"); ExecuteQuery page].
Proof.
  destruct (X22_empty_body student_schema student_tables (select "Student")
              world0) as (_ & _ & _ & H).
  exact (H (mkResponse (Some 1) 3 3 (three_rows (select "Student")))
           (snd (process student_schema student_tables empty_body_request
                   world0)) eq_refl).
Defined.

(** ** The clauses of [global_filter] and [column_filter] *)

Section UtilsClauses.

Context (schema : Schema).

Lemma global_filter_loop_conditions (columns : list DataTablesColumn) :
  forall model sv conds j a w conds' j' a' w',
    global_filter_loop schema columns model sv conds j a w
      = (Ok (conds', j', a'), w') ->
    Forall (search_condition sv) conds ->
    Forall (search_condition sv) conds'.
Proof.
  induction columns as [|col rest IH];
    intros model sv conds j a w conds' j' a' w' H Hc; simpl in H.
  - injection H as <- <- <- <-. exact Hc.
  - destruct (col_searchable col); [|eapply IH; eassumption].
    apply bind_Ok in H as ([[c1 j1] a1] & w1 & Hstep & H).
    apply except_Ok in Hstep.
    apply bind_Ok in Hstep as ([[ca j2] a2] & w2 & _ & Hstep).
    eapply IH; [exact H|].
    destruct ca as [ca|]; [|injection Hstep as <- <- <- <-; exact Hc].
    destruct (build_condition ca CONTAINS sv) as [p|] eqn:Hb;
      injection Hstep as <- <- <- <-; [|exact Hc].
    apply Forall_app. split; [exact Hc|].
    constructor; [|constructor]. exists ca. exact Hb.
Qed.

Lemma column_filter_loop_conditions (all : list DataTablesColumn)
    (columns : list DataTablesColumn) :
  (forall col, In col columns -> In col all) ->
  forall model conds j a w conds' j' a' w',
    column_filter_loop schema columns model conds j a w
      = (Ok (conds', j', a'), w') ->
    Forall (filter_condition all) conds ->
    Forall (filter_condition all) conds'.
Proof.
  induction columns as [|col rest IH];
    intros Hin model conds j a w conds' j' a' w' H Hc; simpl in H.
  - injection H as <- <- <- <-. exact Hc.
  - assert (Hrest : forall c, In c rest -> In c all)
      by (intros c Hc'; apply Hin; right; exact Hc').
    destruct (col_searchable col) eqn:Hs; simpl in H;
      [|eapply IH; eassumption].
    destruct (PyStr.nonempty (filter_value col)) eqn:Hv; simpl in H;
      [|eapply IH; eassumption].
    apply bind_Ok in H as ([[c1 j1] a1] & w1 & Hstep & H).
    apply except_Ok in Hstep.
    apply bind_Ok in Hstep as ([[ca j2] a2] & w2 & _ & Hstep).
    eapply IH; [exact Hrest | exact H |].
    destruct ca as [ca|]; [|injection Hstep as <- <- <- <-; exact Hc].
    destruct (build_condition ca CONTAINS (filter_value col)) as [p|] eqn:Hb;
      injection Hstep as <- <- <- <-; [|exact Hc].
    apply Forall_app. split; [exact Hc|].
    constructor; [|constructor]. exists col, ca.
    split; [apply Hin; left; reflexivity | auto].
Qed.

(** X23: each filter function of [utils.py] adds joins after the joins of
    the statement and at most one WHERE clause after its clauses, and
    leaves FROM, ORDER BY, offset and limit alone.  The clause of
    [global_filter] is the disjunction of one or more [contains] conditions
    for the search value; the clause of [column_filter] is the conjunction
    of one or more [contains] conditions, each for the trimmed, non-empty
    filter value of a searchable column. *)
Theorem X23_filter_clauses :
  (forall search_value stmt columns model w stmt' w',
     global_filter schema search_value stmt columns model w = (Ok stmt', w') ->
     sel_from stmt' = sel_from stmt
     /\ sel_order_by stmt' = sel_order_by stmt
     /\ sel_offset stmt' = sel_offset stmt
     /\ sel_limit stmt' = sel_limit stmt
     /\ (exists added, sel_joins stmt' = sel_joins stmt ++ added)
     /\ (sel_where stmt' = sel_where stmt
         \/ exists conds,
              conds <> [] /\ Forall (search_condition search_value) conds
              /\ sel_where stmt' = sel_where stmt ++ [Or_ conds]))
  /\ (forall stmt columns model w stmt' w',
        column_filter schema stmt columns model w = (Ok stmt', w') ->
        sel_from stmt' = sel_from stmt
        /\ sel_order_by stmt' = sel_order_by stmt
        /\ sel_offset stmt' = sel_offset stmt
        /\ sel_limit stmt' = sel_limit stmt
        /\ (exists added, sel_joins stmt' = sel_joins stmt ++ added)
        /\ (sel_where stmt' = sel_where stmt
            \/ exists conds,
                 conds <> [] /\ Forall (filter_condition columns) conds
                 /\ sel_where stmt' = sel_where stmt ++ [And_ conds])).
Proof.
  split.
  - intros search_value stmt columns model w stmt' w' H.
    unfold global_filter in H. destruct (PyStr.nonempty search_value).
    + apply bind_Ok in H as ([[conds j] a] & w1 & Hloop & H).
      apply global_filter_loop_conditions in Hloop; [|constructor].
      pose proof (apply_joins_clauses j stmt) as J.
      destruct (apply_joins_frame j stmt) as (F & W & O).
      destruct (apply_joins_paging j stmt) as (Of & L).
      destruct conds as [|c conds]; injection H as <- <-; simpl;
        repeat (split; [assumption|]); (split; [eauto|]).
      * left. exact W.
      * right. exists (c :: conds). split; [discriminate|].
        split; [exact Hloop|]. rewrite W. reflexivity.
    + injection H as <- <-. repeat (split; [reflexivity|]).
      split; [exists []; rewrite app_nil_r; reflexivity | left; reflexivity].
  - intros stmt columns model w stmt' w' H. unfold column_filter in H.
    apply bind_Ok in H as ([[conds j] a] & w1 & Hloop & H).
    apply (column_filter_loop_conditions columns) in Hloop;
      [|auto|constructor].
    pose proof (apply_joins_clauses j stmt) as J.
    destruct (apply_joins_frame j stmt) as (F & W & O).
    destruct (apply_joins_paging j stmt) as (Of & L).
    destruct conds as [|c conds]; injection H as <- <-; simpl;
      repeat (split; [assumption|]); (split; [eauto|]).
    + left. exact W.
    + right. exists (c :: conds). split; [discriminate|].
      split; [exact Hloop|]. rewrite W. reflexivity.
Qed.

End UtilsClauses.

Lemma X23_filter_clauses_witness :
  exists conds,
    conds <> []
    /\ Forall (filter_condition
                 [mkColumn "name" true true
                    (mkColumnSearch (Some "bob") (Some EQUALS))]) conds
    /\ [And_ [Ilike (ColumnRef student_name) "%bob%"]] = [] ++ [And_ conds].
Proof.
  destruct (proj2 (X23_filter_clauses student_schema) (select "Student")
              [mkColumn "name" true true
                 (mkColumnSearch (Some "bob") (Some EQUALS))]
              (Mapped "Student") world0
              (stmt_where (select "Student")
                 (And_ [Ilike (ColumnRef student_name) "%bob%"]))
              world0 eq_refl)
    as (_ & _ & _ & _ & _ & [H | H]); [discriminate | exact H].
Defined.
